(** * salcp: workflow engine and statistical layer, shallow embedding

    The Python sources [workflow/blocks.py], [workflow/workflow_engine.py],
    [core/statistical_tests.py], [core/ab_testing.py],
    [core/data_profiler.py], and parts of [core/recommender.py] and
    [utils/helpers.py] are embedded as Rocq functions.

    Conventions.
    - A Python [dict] is an insertion-ordered association list with unique
      keys ([PyDict]): assignment to an existing key keeps its position.
    - A Python exception is a value of [exn]; a call that may raise returns
      [result].
    - Python [int] is [Z].  Python/NumPy [float] is [PyFloat]: an exact
      rational, an infinity or NaN; rounding of binary floating point is
      not modelled.
    - Routines of pandas, SciPy and statsmodels that the sources call are
      parameters of the definitions that call them. *)

From Stdlib Require Import List String ZArith QArith Qminmax Qabs Lia Bool Arith.
From Stdlib Require Import Permutation Relations Lqa Qring Qfield.
Import ListNotations.
Open Scope string_scope.
Open Scope list_scope.

Set Implicit Arguments.
Set Warnings "-register-all".

(** ** Exceptions *)

Inductive exn : Type :=
| KeyError (key : string)
| ValueError (msg : string)
| TypeError (msg : string)
| AttributeError (msg : string)
| NotImplementedError
| ZeroDivisionError
| LibraryError (msg : string).

(** [str(e)]: a [KeyError] prints the repr of its key. *)
Definition exn_str (e : exn) : string :=
  match e with
  | KeyError k => ("'" ++ k ++ "'")%string
  | ValueError m => m
  | TypeError m => m
  | AttributeError m => m
  | NotImplementedError => ""
  | ZeroDivisionError => "division by zero"
  | LibraryError m => m
  end.

Inductive result (A : Type) : Type :=
| Ok (a : A)
| Raise (e : exn).
Arguments Ok {A} a.
Arguments Raise {A} e.

Definition bind {A B : Type} (r : result A) (k : A -> result B) : result B :=
  match r with
  | Ok a => k a
  | Raise e => Raise e
  end.

Notation "x <- r ;; k" := (bind r (fun x => k))
  (at level 61, r at next level, right associativity).

(** ** Python dictionaries *)

Module PyDict.
Section Dict.
Variable V : Type.

Definition t := list (string * V).

Definition empty : t := [].

(** [d.get(k)] / [k in d] / [d[k]] *)
Fixpoint get (d : t) (k : string) : option V :=
  match d with
  | [] => None
  | (k', v) :: d' => if String.eqb k' k then Some v else get d' k
  end.

Definition contains (d : t) (k : string) : bool :=
  match get d k with Some _ => true | None => false end.

Definition getitem (d : t) (k : string) : result V :=
  match get d k with Some v => Ok v | None => Raise (KeyError k) end.

(** [d[k] = v]: overwrite in place, or append a new entry. *)
Fixpoint set (d : t) (k : string) (v : V) : t :=
  match d with
  | [] => [(k, v)]
  | (k', v') :: d' =>
      if String.eqb k' k then (k', v) :: d' else (k', v') :: set d' k v
  end.

(** [del d[k]] for a key that is present. *)
Fixpoint del (d : t) (k : string) : t :=
  match d with
  | [] => []
  | (k', v') :: d' => if String.eqb k' k then d' else (k', v') :: del d' k
  end.

Definition keys (d : t) : list string := map fst d.
Definition values (d : t) : list V := map snd d.
Definition items (d : t) : list (string * V) := d.
Definition len (d : t) : nat := List.length d.
End Dict.
Arguments empty {V}.
End PyDict.

Abbreviation dict := PyDict.t.

(** List membership on strings, [x in l]. *)
Definition mem (x : string) (l : list string) : bool :=
  existsb (String.eqb x) l.

(** ** Values *)

Inductive PyFloat : Type :=
| Fin (q : Q)
| PInf
| NInf
| NaN.

Inductive Cell : Type :=
| NA
| Num (q : Q)
| Str (s : string).

(** A pandas DataFrame: column labels and rows of cells. *)
Record DataFrame : Type := {
  df_columns : list string;
  df_rows : list (list Cell)
}.

Inductive PyValue : Type :=
| VNone
| VBool (b : bool)
| VInt (z : Z)
| VFloat (f : PyFloat)
| VStr (s : string)
| VList (l : list PyValue)
| VDict (d : list (string * PyValue))
| VFrame (df : DataFrame).

(** ** Floating-point values

    [Fin q] is a finite float with the exact value [q]; signed zeros and
    rounding are not modelled.  The operations follow IEEE 754 as NumPy
    applies it to [float64]: division by zero gives an infinity or NaN,
    and every ordered comparison with NaN is false. *)

Inductive sign : Type := Neg | Zero | Pos.

Definition Qsign (q : Q) : sign :=
  match Qcompare q 0 with
  | Lt => Neg
  | Eq => Zero
  | Gt => Pos
  end.

Definition inf_of (s : sign) : PyFloat :=
  match s with
  | Neg => NInf
  | Zero => NaN
  | Pos => PInf
  end.

Definition fsign (x : PyFloat) : option sign :=
  match x with
  | Fin q => Some (Qsign q)
  | PInf => Some Pos
  | NInf => Some Neg
  | NaN => None
  end.

Definition sign_mul (a b : sign) : sign :=
  match a, b with
  | Zero, _ | _, Zero => Zero
  | Pos, Pos | Neg, Neg => Pos
  | _, _ => Neg
  end.

Definition of_int (z : Z) : PyFloat := Fin (inject_Z z).

Definition fneg (x : PyFloat) : PyFloat :=
  match x with
  | Fin q => Fin (- q)
  | PInf => NInf
  | NInf => PInf
  | NaN => NaN
  end.

Definition fadd (x y : PyFloat) : PyFloat :=
  match x, y with
  | NaN, _ | _, NaN => NaN
  | Fin a, Fin b => Fin (a + b)
  | PInf, NInf | NInf, PInf => NaN
  | PInf, _ | _, PInf => PInf
  | NInf, _ | _, NInf => NInf
  end.

Definition fsub (x y : PyFloat) : PyFloat := fadd x (fneg y).

Definition fmul (x y : PyFloat) : PyFloat :=
  match x, y with
  | Fin a, Fin b => Fin (a * b)
  | _, _ =>
      match fsign x, fsign y with
      | Some sx, Some sy => inf_of (sign_mul sx sy)
      | _, _ => NaN
      end
  end.

(** NumPy true division. *)
Definition fdiv (x y : PyFloat) : PyFloat :=
  match x, y with
  | NaN, _ | _, NaN => NaN
  | Fin a, Fin b =>
      match Qsign b with
      | Zero => inf_of (Qsign a)
      | _ => Fin (a / b)
      end
  | Fin _, _ => Fin 0
  | _, Fin b =>
      match fsign x, Qsign b with
      | Some sx, Neg => inf_of (sign_mul sx Neg)
      | Some sx, _ => inf_of sx
      | None, _ => NaN
      end
  | _, _ => NaN
  end.

Definition fabs (x : PyFloat) : PyFloat :=
  match x with
  | Fin q => Fin (Qabs q)
  | PInf | NInf => PInf
  | NaN => NaN
  end.

(** [x < y] *)
Definition fltb (x y : PyFloat) : bool :=
  match x, y with
  | NaN, _ | _, NaN => false
  | Fin a, Fin b => negb (Qle_bool b a)
  | NInf, NInf | PInf, _ | _, NInf => false
  | _, _ => true
  end.

(** [x > y], [x == y], [x != y], [x >= y] *)
Definition fgtb (x y : PyFloat) : bool := fltb y x.

Definition feqb (x y : PyFloat) : bool :=
  match x, y with
  | Fin a, Fin b => Qeq_bool a b
  | PInf, PInf | NInf, NInf => true
  | _, _ => false
  end.

Definition fneb (x y : PyFloat) : bool := negb (feqb x y).

Definition fgeb (x y : PyFloat) : bool := fgtb x y || feqb x y.

(** Truth value of a float: zero is false, NaN is true. *)
Definition ftruthy (x : PyFloat) : bool := fneb x (Fin 0).

Definition is_finite (x : PyFloat) : bool :=
  match x with Fin _ => true | _ => false end.

(** ** pandas operations on a DataFrame *)

Definition is_na (c : Cell) : bool :=
  match c with NA => true | _ => false end.

(** Identity of cells as [duplicated], [unique] and [nunique] see it:
    missing values are alike. *)
Definition cell_same (a b : Cell) : bool :=
  match a, b with
  | NA, NA => true
  | Num p, Num q => Qeq_bool p q
  | Str s, Str t => String.eqb s t
  | _, _ => false
  end.

(** The elementwise [==] of a column with a scalar: a missing value
    equals nothing. *)
Definition cell_eq (a b : Cell) : bool :=
  match a with
  | NA => false
  | _ => cell_same a b
  end.


(** [len(df)] *)
Definition df_len (df : DataFrame) : Z := Z.of_nat (List.length (df_rows df)).

Definition column_at (df : DataFrame) (j : nat) : list Cell :=
  map (fun r => nth j r NA) (df_rows df).


Fixpoint index_of (col : string) (cols : list string) : option nat :=
  match cols with
  | [] => None
  | c :: rest =>
      if String.eqb c col then Some 0%nat
      else option_map S (index_of col rest)
  end.

(** [df[col]] *)
Definition getcol (df : DataFrame) (col : string) : result (list Cell) :=
  match index_of col (df_columns df) with
  | Some j => Ok (column_at df j)
  | None => Raise (KeyError col)
  end.

(** [series.isna().sum()] *)
Definition isna_sum (col : list Cell) : Z :=
  Z.of_nat (List.length (filter is_na col)).

(** [series.dropna()] *)
Definition dropna (col : list Cell) : list Cell :=
  filter (fun c => negb (is_na c)) col.

(** [series.unique()]: distinct values in order of first appearance. *)
Fixpoint unique_from (seen col : list Cell) : list Cell :=
  match col with
  | [] => []
  | c :: rest =>
      if existsb (cell_same c) seen then unique_from seen rest
      else c :: unique_from (c :: seen) rest
  end.

Definition unique (col : list Cell) : list Cell := unique_from [] col.

(** [series.nunique()]: missing values are not counted. *)
Definition nunique (col : list Cell) : Z :=
  Z.of_nat (List.length (unique (dropna col))).




(** ** workflow/blocks.py *)

Inductive BlockType : Type :=
| LOAD_CSV | FILTER_ROWS | SELECT_COLUMNS
| HANDLE_MISSING | REMOVE_DUPLICATES | REMOVE_OUTLIERS
| DESCRIPTIVE_STATS | CORRELATION | DISTRIBUTION
| T_TEST | ANOVA | CHI_SQUARE | AB_TEST
| PLOT_HISTOGRAM | PLOT_SCATTER | PLOT_BOX
| EXPORT_CSV | EXPORT_REPORT.

Definition all_block_types : list BlockType :=
  [LOAD_CSV; FILTER_ROWS; SELECT_COLUMNS;
   HANDLE_MISSING; REMOVE_DUPLICATES; REMOVE_OUTLIERS;
   DESCRIPTIVE_STATS; CORRELATION; DISTRIBUTION;
   T_TEST; ANOVA; CHI_SQUARE; AB_TEST;
   PLOT_HISTOGRAM; PLOT_SCATTER; PLOT_BOX;
   EXPORT_CSV; EXPORT_REPORT].

(** [block_type.value] *)
Definition BlockType_value (bt : BlockType) : string :=
  match bt with
  | LOAD_CSV => "load_csv"
  | FILTER_ROWS => "filter_rows"
  | SELECT_COLUMNS => "select_columns"
  | HANDLE_MISSING => "handle_missing"
  | REMOVE_DUPLICATES => "remove_duplicates"
  | REMOVE_OUTLIERS => "remove_outliers"
  | DESCRIPTIVE_STATS => "descriptive_stats"
  | CORRELATION => "correlation"
  | DISTRIBUTION => "distribution"
  | T_TEST => "t_test"
  | ANOVA => "anova"
  | CHI_SQUARE => "chi_square"
  | AB_TEST => "ab_test"
  | PLOT_HISTOGRAM => "plot_histogram"
  | PLOT_SCATTER => "plot_scatter"
  | PLOT_BOX => "plot_box"
  | EXPORT_CSV => "export_csv"
  | EXPORT_REPORT => "export_report"
  end.

(** The member name, as [str(block_type)] prints it after the class
    name. *)
Definition BlockType_name (bt : BlockType) : string :=
  match bt with
  | LOAD_CSV => "LOAD_CSV"
  | FILTER_ROWS => "FILTER_ROWS"
  | SELECT_COLUMNS => "SELECT_COLUMNS"
  | HANDLE_MISSING => "HANDLE_MISSING"
  | REMOVE_DUPLICATES => "REMOVE_DUPLICATES"
  | REMOVE_OUTLIERS => "REMOVE_OUTLIERS"
  | DESCRIPTIVE_STATS => "DESCRIPTIVE_STATS"
  | CORRELATION => "CORRELATION"
  | DISTRIBUTION => "DISTRIBUTION"
  | T_TEST => "T_TEST"
  | ANOVA => "ANOVA"
  | CHI_SQUARE => "CHI_SQUARE"
  | AB_TEST => "AB_TEST"
  | PLOT_HISTOGRAM => "PLOT_HISTOGRAM"
  | PLOT_SCATTER => "PLOT_SCATTER"
  | PLOT_BOX => "PLOT_BOX"
  | EXPORT_CSV => "EXPORT_CSV"
  | EXPORT_REPORT => "EXPORT_REPORT"
  end.

(** [BlockType(s)]: lookup of an enum member by value. *)
Definition BlockType_of_value (s : string) : result BlockType :=
  match find (fun bt => String.eqb (BlockType_value bt) s) all_block_types with
  | Some bt => Ok bt
  | None => Raise (ValueError ("'" ++ s ++ "' is not a valid BlockType")%string)
  end.

Record BlockParameter : Type := {
  bp_name : string;
  bp_param_type : string;
  bp_required : bool;
  bp_default : PyValue;
  bp_options : option (list string)
}.

Record Block : Type := {
  block_id : string;
  block_type : BlockType;
  parameters : dict PyValue;
  inputs : dict PyValue;
  outputs : dict PyValue
}.

(** [Block.__init__] *)
Definition Block_init (bid : string) (bt : BlockType) : Block :=
  {| block_id := bid; block_type := bt;
     parameters := PyDict.empty; inputs := PyDict.empty;
     outputs := PyDict.empty |}.

Definition set_parameter (b : Block) (name : string) (value : PyValue) : Block :=
  {| block_id := block_id b; block_type := block_type b;
     parameters := PyDict.set (parameters b) name value;
     inputs := inputs b; outputs := outputs b |}.

Definition set_input (b : Block) (name : string) (value : PyValue) : Block :=
  {| block_id := block_id b; block_type := block_type b;
     parameters := parameters b;
     inputs := PyDict.set (inputs b) name value;
     outputs := outputs b |}.

(** Keys of [BLOCK_REGISTRY]. *)
Definition registered (bt : BlockType) : bool :=
  match bt with
  | LOAD_CSV | FILTER_ROWS | SELECT_COLUMNS | HANDLE_MISSING
  | REMOVE_DUPLICATES | T_TEST | AB_TEST | DESCRIPTIVE_STATS
  | CORRELATION => true
  | _ => false
  end.

(** Every registered class calls [Block.__init__] with its own tag. *)
Definition create_block (bt : BlockType) (bid : string) : result Block :=
  if registered bt then Ok (Block_init bid bt)
  else Raise (ValueError
                ("Unknown block type: BlockType." ++ BlockType_name bt)%string).

(** *** Block classes *)

(** The pandas expressions and the calls into [core] that the block
    bodies evaluate, on run-time values.  Each may raise. *)
Record External : Type := {
  (** [DataLoader().load_csv(file_path)] with [get_metadata()] *)
  ext_load_csv : PyValue -> result (PyValue * PyValue);
  (** [data[data[column] <op> value]] for the operator [op], with the
      conversion of [value] the operator's branch applies *)
  ext_filter : string -> PyValue -> PyValue -> PyValue -> result PyValue;
  (** [data[columns]] *)
  ext_select : PyValue -> PyValue -> result PyValue;
  (** [data.copy()] *)
  ext_copy : PyValue -> result PyValue;
  (** [data.columns] *)
  ext_columns : PyValue -> result PyValue;
  (** the branch of [HandleMissingBlock] for a method, data and columns *)
  ext_fill : string -> PyValue -> PyValue -> result PyValue;
  (** [data.drop_duplicates(subset=columns)] / [data.drop_duplicates()] *)
  ext_drop_duplicates : PyValue -> option PyValue -> result PyValue;
  (** [data.select_dtypes(include=['number']).columns] *)
  ext_numeric_columns : PyValue -> result PyValue;
  (** [data[columns].describe()] *)
  ext_describe : PyValue -> PyValue -> result PyValue;
  (** [data[columns].corr(method=method)] *)
  ext_corr : PyValue -> PyValue -> PyValue -> result PyValue;
  (** [StatisticalTests(data).t_test(group_col, value_col, group1, group2)] *)
  ext_t_test : PyValue -> PyValue -> PyValue -> PyValue -> PyValue
               -> result PyValue;
  (** [ABTestEngine(data).run_ab_test(group_col, metric_col,
      metric_type=metric_type)] *)
  ext_run_ab_test : PyValue -> PyValue -> PyValue -> PyValue -> result PyValue
}.

(** [d.get(k)] and [d.get(k, default)] *)
Definition get_or (d : dict PyValue) (k : string) (default : PyValue) : PyValue :=
  match PyDict.get d k with
  | Some v => v
  | None => default
  end.

Definition get_or_none (d : dict PyValue) (k : string) : PyValue :=
  get_or d k VNone.

(** [v == 'literal'] used as a condition.  Comparing a DataFrame gives a
    frame, whose truth value pandas refuses. *)
Definition py_eq_str (v : PyValue) (s : string) : result bool :=
  match v with
  | VStr t => Ok (String.eqb t s)
  | VFrame _ => Raise (ValueError "The truth value of a DataFrame is ambiguous")
  | _ => Ok false
  end.

(** Truth value of [v] in [if v] and [not v]. *)
Definition py_truthy (v : PyValue) : result bool :=
  match v with
  | VNone => Ok false
  | VBool b => Ok b
  | VInt z => Ok (negb (z =? 0)%Z)
  | VFloat f => Ok (ftruthy f)
  | VStr s => Ok (negb (String.eqb s ""))
  | VList l => Ok (match l with [] => false | _ => true end)
  | VDict d => Ok (match d with [] => false | _ => true end)
  | VFrame _ => Raise (ValueError "The truth value of a DataFrame is ambiguous")
  end.

Definition mk_param (nm ty : string) (req : bool) (default : PyValue)
    (opts : option (list string)) : BlockParameter :=
  {| bp_name := nm; bp_param_type := ty; bp_required := req;
     bp_default := default; bp_options := opts |}.

(** The class attribute [PARAMETERS] of the class registered for a type. *)
Definition PARAMETERS (bt : BlockType) : list BlockParameter :=
  match bt with
  | LOAD_CSV => [mk_param "file_path" "file" true VNone None]
  | FILTER_ROWS =>
      [mk_param "column" "column" true VNone None;
       mk_param "operator" "string" true VNone
         (Some ["=="; "!="; ">"; "<"; ">="; "<="; "contains"]);
       mk_param "value" "string" true VNone None]
  | SELECT_COLUMNS => [mk_param "columns" "columns" true VNone None]
  | HANDLE_MISSING =>
      [mk_param "method" "string" true VNone
         (Some ["drop"; "mean"; "median"; "mode"; "forward_fill"; "backward_fill"]);
       mk_param "columns" "columns" false VNone None]
  | REMOVE_DUPLICATES => [mk_param "columns" "columns" false VNone None]
  | T_TEST =>
      [mk_param "group_column" "column" true VNone None;
       mk_param "value_column" "column" true VNone None;
       mk_param "group1" "string" true VNone None;
       mk_param "group2" "string" true VNone None]
  | AB_TEST =>
      [mk_param "group_column" "column" true VNone None;
       mk_param "metric_column" "column" true VNone None;
       mk_param "metric_type" "string" true (VStr "continuous")
         (Some ["continuous"; "binary"])]
  | DESCRIPTIVE_STATS => [mk_param "columns" "columns" false VNone None]
  | CORRELATION =>
      [mk_param "method" "string" true (VStr "pearson")
         (Some ["pearson"; "spearman"; "kendall"]);
       mk_param "columns" "columns" false VNone None]
  | _ => []
  end.

(** How the [execute] of a block type reads a schema parameter: with
    [parameters.get(name)] or [parameters.get(name, default)], giving the
    default for an absent key, or with [parameters[name]], which has
    none. *)
Definition read_default (bt : BlockType) (pname : string) : option PyValue :=
  match bt with
  | T_TEST => None
  | AB_TEST =>
      if String.eqb pname "metric_type" then Some (VStr "continuous") else None
  | CORRELATION =>
      if String.eqb pname "method" then Some (VStr "pearson") else Some VNone
  | _ => Some VNone
  end.

Section BlockClasses.
Variable ext : External.

Definition LoadCSVBlock_execute (b : Block) : result (dict PyValue) :=
  let file_path := get_or_none (parameters b) "file_path" in
  dm <- ext_load_csv ext file_path ;;
  Ok [("data", fst dm); ("metadata", snd dm)].

(** The [if]/[elif] chain over [operator]; [ops] are the operators not
    yet compared. *)
Fixpoint filter_chain (ops : list string) (operator data column value : PyValue)
    : result PyValue :=
  match ops with
  | [] => Ok data
  | op :: rest =>
      c <- py_eq_str operator op ;;
      if c then ext_filter ext op data column value
      else filter_chain rest operator data column value
  end.

Definition FilterRowsBlock_execute (b : Block) : result (dict PyValue) :=
  let data := get_or_none (inputs b) "data" in
  let column := get_or_none (parameters b) "column" in
  let operator := get_or_none (parameters b) "operator" in
  let value := get_or_none (parameters b) "value" in
  filtered <- filter_chain ["=="; "!="; ">"; "<"; ">="; "<="; "contains"]
                operator data column value ;;
  Ok [("data", filtered)].

Definition SelectColumnsBlock_execute (b : Block) : result (dict PyValue) :=
  let data := get_or_none (inputs b) "data" in
  let columns := get_or_none (parameters b) "columns" in
  selected <- ext_select ext data columns ;;
  Ok [("data", selected)].

(** The [if]/[elif] chain over [method]; no branch leaves the copy as
    it is. *)
Fixpoint fill_chain (methods : list string) (method data columns : PyValue)
    : result PyValue :=
  match methods with
  | [] => Ok data
  | m :: rest =>
      c <- py_eq_str method m ;;
      if c then ext_fill ext m data columns
      else fill_chain rest method data columns
  end.

Definition HandleMissingBlock_execute (b : Block) : result (dict PyValue) :=
  data <- ext_copy ext (get_or_none (inputs b) "data") ;;
  let method := get_or_none (parameters b) "method" in
  let columns := get_or_none (parameters b) "columns" in
  t <- py_truthy columns ;;
  columns' <- (if t then Ok columns else ext_columns ext data) ;;
  data' <- fill_chain
             ["drop"; "mean"; "median"; "mode"; "forward_fill"; "backward_fill"]
             method data columns' ;;
  Ok [("data", data')].

Definition RemoveDuplicatesBlock_execute (b : Block) : result (dict PyValue) :=
  let data := get_or_none (inputs b) "data" in
  let columns := get_or_none (parameters b) "columns" in
  t <- py_truthy columns ;;
  cleaned <- (if t then ext_drop_duplicates ext data (Some columns)
              else ext_drop_duplicates ext data None) ;;
  Ok [("data", cleaned)].

Definition TTestBlock_execute (b : Block) : result (dict PyValue) :=
  let data := get_or_none (inputs b) "data" in
  group_column <- PyDict.getitem (parameters b) "group_column" ;;
  value_column <- PyDict.getitem (parameters b) "value_column" ;;
  group1 <- PyDict.getitem (parameters b) "group1" ;;
  group2 <- PyDict.getitem (parameters b) "group2" ;;
  res <- ext_t_test ext data group_column value_column group1 group2 ;;
  Ok [("result", res)].

Definition ABTestBlock_execute (b : Block) : result (dict PyValue) :=
  let data := get_or_none (inputs b) "data" in
  group_column <- PyDict.getitem (parameters b) "group_column" ;;
  metric_column <- PyDict.getitem (parameters b) "metric_column" ;;
  let metric_type := get_or (parameters b) "metric_type" (VStr "continuous") in
  res <- ext_run_ab_test ext data group_column metric_column metric_type ;;
  Ok [("result", res)].

Definition DescriptiveStatsBlock_execute (b : Block) : result (dict PyValue) :=
  let data := get_or_none (inputs b) "data" in
  let columns := get_or_none (parameters b) "columns" in
  t <- py_truthy columns ;;
  columns' <- (if t then Ok columns else ext_numeric_columns ext data) ;;
  stats <- ext_describe ext data columns' ;;
  Ok [("result", stats)].

Definition CorrelationBlock_execute (b : Block) : result (dict PyValue) :=
  let data := get_or_none (inputs b) "data" in
  let method := get_or (parameters b) "method" (VStr "pearson") in
  let columns := get_or_none (parameters b) "columns" in
  t <- py_truthy columns ;;
  columns' <- (if t then Ok columns else ext_numeric_columns ext data) ;;
  corr_matrix <- ext_corr ext data columns' method ;;
  Ok [("result", corr_matrix)].

(** [block.execute()]: the method of the class registered for the
    block's type; the base class raises [NotImplementedError]. *)
Definition Block_execute (b : Block) : result (dict PyValue) :=
  match block_type b with
  | LOAD_CSV => LoadCSVBlock_execute b
  | FILTER_ROWS => FilterRowsBlock_execute b
  | SELECT_COLUMNS => SelectColumnsBlock_execute b
  | HANDLE_MISSING => HandleMissingBlock_execute b
  | REMOVE_DUPLICATES => RemoveDuplicatesBlock_execute b
  | T_TEST => TTestBlock_execute b
  | AB_TEST => ABTestBlock_execute b
  | DESCRIPTIVE_STATS => DescriptiveStatsBlock_execute b
  | CORRELATION => CorrelationBlock_execute b
  | _ => Raise NotImplementedError
  end.
End BlockClasses.

(** ** workflow/workflow_engine.py: Connection and Workflow *)

Record Connection : Type := {
  from_block : string;
  from_output : string;
  to_block : string;
  to_input : string
}.

Record Workflow : Type := {
  name : string;
  blocks : dict Block;
  connections : list Connection
}.

(** [Workflow.__init__] *)
Definition Workflow_init (nm : string) : Workflow :=
  {| name := nm; blocks := PyDict.empty; connections := [] |}.

(** [add_block]: [uuid8] stands for [uuid.uuid4().hex[:8]], which is only
    read when no id is given. *)
Definition add_block (uuid8 : string) (w : Workflow) (bt : BlockType)
    (bid : option string) : result (Workflow * string) :=
  let bid' := match bid with
              | Some i => i
              | None => (BlockType_value bt ++ "_" ++ uuid8)%string
              end in
  block <- create_block bt bid' ;;
  Ok ({| name := name w;
         blocks := PyDict.set (blocks w) bid' block;
         connections := connections w |}, bid').

Definition remove_block (w : Workflow) (bid : string) : Workflow :=
  if PyDict.contains (blocks w) bid then
    {| name := name w;
       blocks := PyDict.del (blocks w) bid;
       connections :=
         filter (fun conn => negb (String.eqb (from_block conn) bid)
                             && negb (String.eqb (to_block conn) bid))
                (connections w) |}
  else w.

Definition connect (w : Workflow) (fb fo tb ti : string) : result Workflow :=
  if negb (PyDict.contains (blocks w) fb) || negb (PyDict.contains (blocks w) tb)
  then Raise (ValueError "Block not found in workflow")
  else Ok {| name := name w;
             blocks := blocks w;
             connections := connections w ++
               [{| from_block := fb; from_output := fo;
                   to_block := tb; to_input := ti |}] |}.

Definition disconnect (w : Workflow) (fb tb : string) : Workflow :=
  {| name := name w;
     blocks := blocks w;
     connections :=
       filter (fun conn => negb (String.eqb (from_block conn) fb
                                 && String.eqb (to_block conn) tb))
              (connections w) |}.

Definition get_block (w : Workflow) (bid : string) : option Block :=
  PyDict.get (blocks w) bid.

Definition set_block_parameter (w : Workflow) (bid pname : string)
    (value : PyValue) : Workflow :=
  match PyDict.get (blocks w) bid with
  | Some block =>
      {| name := name w;
         blocks := PyDict.set (blocks w) bid (set_parameter block pname value);
         connections := connections w |}
  | None => w
  end.

(** The plain nested structure of [to_dict]/[from_dict].  A field read with
    [data.get(key, default)] is optional. *)
Record BlockData : Type := {
  bd_id : string;
  bd_type : string;
  bd_parameters : option (dict PyValue)
}.

Record WorkflowData : Type := {
  wd_name : option string;
  wd_blocks : option (list BlockData);
  wd_connections : option (list Connection)
}.

Definition to_dict (w : Workflow) : WorkflowData :=
  {| wd_name := Some (name w);
     wd_blocks := Some (map (fun kv : string * Block =>
                               {| bd_id := fst kv;
                                  bd_type := BlockType_value (block_type (snd kv));
                                  bd_parameters := Some (parameters (snd kv)) |})
                            (PyDict.items (blocks w)));
     wd_connections := Some (map (fun conn =>
                               {| from_block := from_block conn;
                                  from_output := from_output conn;
                                  to_block := to_block conn;
                                  to_input := to_input conn |})
                            (connections w)) |}.

Definition from_dict_params (w : Workflow) (bid : string)
    (ps : list (string * PyValue)) : Workflow :=
  fold_left (fun w' kv => set_block_parameter w' bid (fst kv) (snd kv)) ps w.

Fixpoint from_dict_blocks (w : Workflow) (bds : list BlockData) : result Workflow :=
  match bds with
  | [] => Ok w
  | bd :: rest =>
      bt <- BlockType_of_value (bd_type bd) ;;
      wb <- add_block "" w bt (Some (bd_id bd)) ;;
      from_dict_blocks
        (from_dict_params (fst wb) (snd wb)
           (match bd_parameters bd with Some ps => PyDict.items ps | None => [] end))
        rest
  end.

Fixpoint from_dict_connections (w : Workflow) (cds : list Connection)
    : result Workflow :=
  match cds with
  | [] => Ok w
  | cd :: rest =>
      w' <- connect w (from_block cd) (from_output cd) (to_block cd) (to_input cd) ;;
      from_dict_connections w' rest
  end.

Definition from_dict (data : WorkflowData) : result Workflow :=
  let workflow := Workflow_init (match wd_name data with
                                 | Some n => n
                                 | None => "Untitled Workflow"
                                 end) in
  w1 <- from_dict_blocks workflow
          (match wd_blocks data with Some l => l | None => [] end) ;;
  from_dict_connections w1
    (match wd_connections data with Some l => l | None => [] end).

(** ** workflow/workflow_engine.py: WorkflowEngine *)

(** An entry of [execution_log].  [log_result_keys] and [log_error] are
    the optional keys ['result_keys'] and ['error']. *)
Record LogEntry : Type := {
  log_block_id : string;
  log_block_type : string;
  log_status : string;
  log_result_keys : option (list string);
  log_error : option string
}.

(** The engine object.  [invoked] is not a field of the Python class: it
    records, in order, the ids of the blocks whose [execute()] was called. *)
Record WorkflowEngine : Type := {
  workflow : Workflow;
  execution_log : list LogEntry;
  results : dict (dict PyValue);
  invoked : list string
}.

Definition WorkflowEngine_init (w : Workflow) : WorkflowEngine :=
  {| workflow := w; execution_log := []; results := PyDict.empty;
     invoked := [] |}.

(** The dictionary returned by [WorkflowEngine.execute]. *)
Record Report : Type := {
  status : string;
  message : option string;
  report_results : option (dict (dict PyValue));
  report_log : option (list LogEntry)
}.

(** The first two statements of [execute]: log and results start empty. *)
Definition reset_engine (eng : WorkflowEngine) : WorkflowEngine :=
  {| workflow := workflow eng; execution_log := [];
     results := PyDict.empty; invoked := [] |}.

(** First loop of [_topological_sort]: adjacency lists and in-degrees. *)
Fixpoint build_graph (graph : dict (list string)) (in_degree : dict Z)
    (conns : list Connection) : result (dict (list string) * dict Z) :=
  match conns with
  | [] => Ok (graph, in_degree)
  | conn :: rest =>
      succs <- PyDict.getitem graph (from_block conn) ;;
      let graph' := PyDict.set graph (from_block conn) (succs ++ [to_block conn]) in
      d <- PyDict.getitem in_degree (to_block conn) ;;
      build_graph graph' (PyDict.set in_degree (to_block conn) (d + 1)%Z) rest
  end.

(** The [for neighbor in graph[block_id]] loop. *)
Fixpoint relax (neighbors : list string) (in_degree : dict Z)
    (queue : list string) : result (dict Z * list string) :=
  match neighbors with
  | [] => Ok (in_degree, queue)
  | neighbor :: rest =>
      d <- PyDict.getitem in_degree neighbor ;;
      let in_degree' := PyDict.set in_degree neighbor (d - 1)%Z in
      relax rest in_degree'
        (if (d - 1 =? 0)%Z then queue ++ [neighbor] else queue)
  end.

(** The [while queue] loop; [None] when [fuel] iterations do not empty
    the queue. *)
Fixpoint kahn_loop (fuel : nat) (graph : dict (list string))
    (in_degree : dict Z) (queue result_ : list string)
    : option (result (list string)) :=
  match queue with
  | [] => Some (Ok result_)
  | bid :: queue' =>
      match fuel with
      | O => None
      | S fuel' =>
          match PyDict.getitem graph bid with
          | Raise e => Some (Raise e)
          | Ok succs =>
              match relax succs in_degree queue' with
              | Raise e => Some (Raise e)
              | Ok (in_degree', queue'') =>
                  kahn_loop fuel' graph in_degree' queue'' (result_ ++ [bid])
              end
          end
      end
  end.

(** [_topological_sort] run with a given number of loop iterations. *)
Definition topological_sort_fuel (fuel : nat) (w : Workflow)
    : option (result (list string)) :=
  let graph0 := map (fun kv : string * Block => (fst kv, @nil string)) (blocks w) in
  let in_degree0 := map (fun kv : string * Block => (fst kv, 0%Z)) (blocks w) in
  match build_graph graph0 in_degree0 (connections w) with
  | Raise e => Some (Raise e)
  | Ok (graph, in_degree) =>
      let queue := map fst (filter (fun kv : string * Z => (snd kv =? 0)%Z)
                                   (PyDict.items in_degree)) in
      match kahn_loop fuel graph in_degree queue [] with
      | None => None
      | Some (Raise e) => Some (Raise e)
      | Some (Ok result_) =>
          if negb (List.length result_ =? PyDict.len (blocks w))%nat
          then Some (Ok [])
          else Some (Ok result_)
      end
  end.

(** [_topological_sort]: one loop iteration per block is always enough
    (see [topological_sort_fuel_enough]); the last branch is never taken. *)
Definition _topological_sort (w : Workflow) : result (list string) :=
  match topological_sort_fuel (PyDict.len (blocks w)) w with
  | Some r => r
  | None => Ok []
  end.

Section Engine.
(** [block.execute()] of the block's class, reading its parameters and
    inputs. *)
Variable block_execute : Block -> result (dict PyValue).

(** The input-binding loop of [_execute_block]. *)
Definition bind_inputs (res : dict (dict PyValue)) (conns : list Connection)
    (bid : string) (block : Block) : Block :=
  fold_left
    (fun b conn =>
       if String.eqb (to_block conn) bid then
         let from_result := match PyDict.get res (from_block conn) with
                            | Some r => r
                            | None => PyDict.empty
                            end in
         let input_value := match PyDict.get from_result (from_output conn) with
                            | Some v => v
                            | None => VNone
                            end in
         set_input b (to_input conn) input_value
       else b)
    conns block.

Definition with_blocks (w : Workflow) (bs : dict Block) : Workflow :=
  {| name := name w; blocks := bs; connections := connections w |}.

Definition _execute_block (eng : WorkflowEngine) (bid : string)
    : WorkflowEngine * result unit :=
  match PyDict.get (blocks (workflow eng)) bid with
  | None => (eng, Raise (KeyError bid))
  | Some block0 =>
      let block := bind_inputs (results eng) (connections (workflow eng))
                     bid block0 in
      let w' := with_blocks (workflow eng)
                  (PyDict.set (blocks (workflow eng)) bid block) in
      let entry st keys err :=
        {| log_block_id := bid;
           log_block_type := BlockType_value (block_type block);
           log_status := st; log_result_keys := keys; log_error := err |} in
      match block_execute block with
      | Ok r =>
          ({| workflow := w';
              execution_log := execution_log eng ++
                [entry "success" (Some (PyDict.keys r)) None];
              results := PyDict.set (results eng) bid r;
              invoked := invoked eng ++ [bid] |}, Ok tt)
      | Raise e =>
          ({| workflow := w';
              execution_log := execution_log eng ++
                [entry "error" None (Some (exn_str e))];
              results := results eng;
              invoked := invoked eng ++ [bid] |}, Raise e)
      end
  end.

(** The [for block_id in execution_order] loop inside [try]. *)
Fixpoint run_blocks (eng : WorkflowEngine) (order : list string)
    : WorkflowEngine * result unit :=
  match order with
  | [] => (eng, Ok tt)
  | bid :: rest =>
      match _execute_block eng bid with
      | (eng', Ok _) => run_blocks eng' rest
      | (eng', Raise e) => (eng', Raise e)
      end
  end.

Definition execute (eng : WorkflowEngine) : WorkflowEngine * result Report :=
  let eng0 := reset_engine eng in
  match _topological_sort (workflow eng0) with
  | Raise e => (eng0, Raise e)
  | Ok execution_order =>
      match execution_order with
      | [] => (eng0, Ok {| status := "error";
                           message := Some "Workflow has cycles or is invalid";
                           report_results := None; report_log := None |})
      | _ =>
          match run_blocks eng0 execution_order with
          | (eng1, Ok _) =>
              (eng1, Ok {| status := "success"; message := None;
                           report_results := Some (results eng1);
                           report_log := Some (execution_log eng1) |})
          | (eng1, Raise e) =>
              (eng1, Ok {| status := "error"; message := Some (exn_str e);
                           report_results := None;
                           report_log := Some (execution_log eng1) |})
          end
      end
  end.
End Engine.

(** ** core/data_profiler.py *)





(** ** The quality score as the specification words it *)




(** ** core/statistical_tests.py *)

(** The routines of SciPy, statsmodels, NumPy and pandas that the
    statistical code calls, and the text that its f-strings format.  A
    sample is a column after [dropna()]. *)
Record Stats : Type := {
  (** [stats.shapiro(sample)]: statistic and p-value *)
  shapiro : list Cell -> result (PyFloat * PyFloat);
  (** [stats.levene(a, b)] *)
  levene : list Cell -> list Cell -> result (PyFloat * PyFloat);
  (** [stats.ttest_ind(a, b, equal_var=...)] *)
  ttest_ind : list Cell -> list Cell -> bool -> result (PyFloat * PyFloat);
  (** [stats.mannwhitneyu(a, b, alternative='two-sided')] *)
  mannwhitneyu : list Cell -> list Cell -> result (PyFloat * PyFloat);
  (** [stats.f_oneway] applied to the samples *)
  f_oneway : list (list Cell) -> result (PyFloat * PyFloat);
  (** [TTestIndPower().solve_power(effect_size, nobs1, ratio, alpha)] *)
  solve_power : PyFloat -> Z -> PyFloat -> PyFloat -> result PyFloat;
  (** [np.sqrt] *)
  np_sqrt : PyFloat -> PyFloat;
  (** [series.std()], [series.var()], [series.median()] *)
  series_std : list Cell -> result PyFloat;
  series_var : list Cell -> result PyFloat;
  series_median : list Cell -> result PyFloat;
  (** [str(x)] of a number *)
  repr_number : Q -> string;
  (** the order in which [groupby] yields its keys *)
  sort_keys : list Cell -> list Cell;
  (** the body of [_tukey_hsd] *)
  tukey_hsd : DataFrame -> string -> string -> result PyValue;
  (** [pd.crosstab(a, b)] as a matrix of counts *)
  crosstab : list Cell -> list Cell -> result (list (list Z));
  (** [stats.chi2_contingency(table)]: statistic, p-value and degrees of
      freedom *)
  chi2_contingency : list (list Z) -> result (PyFloat * PyFloat * Z);
  (** [stats.pearsonr(a, b)] and [stats.spearmanr(a, b)] *)
  pearsonr : list Cell -> list Cell -> result (PyFloat * PyFloat);
  spearmanr : list Cell -> list Cell -> result (PyFloat * PyFloat);
  (** [s.capitalize()] *)
  capitalize : string -> string;
  (** the two messages of [_interpret_result] and the messages of
      [mann_whitney_test], [anova], [chi_square_test] and
      [correlation_test] *)
  text_different : PyFloat -> Cell -> Cell -> string;
  text_not_different : PyFloat -> Cell -> Cell -> string;
  text_medians : bool -> PyFloat -> string;
  text_anova : bool -> PyFloat -> string;
  text_chi_square : bool -> PyFloat -> string;
  text_correlation : string -> PyFloat -> PyFloat -> string
}.

Fixpoint mapM (A B : Type) (f : A -> result B) (l : list A) : result (list B) :=
  match l with
  | [] => Ok []
  | x :: rest => y <- f x ;; ys <- mapM f rest ;; Ok (y :: ys)
  end.

(** [df[df[group_col] == group][value_col].dropna()] *)
Definition select_sample (df : DataFrame) (group_col : string) (group : Cell)
    (value_col : string) : result (list Cell) :=
  gcol <- getcol df group_col ;;
  vcol <- getcol df value_col ;;
  Ok (dropna (map snd (filter (fun gv : Cell * Cell => cell_eq (fst gv) group)
                              (combine gcol vcol)))).

Fixpoint cells_sum (l : list Cell) : result Q :=
  match l with
  | [] => Ok 0
  | Num q :: rest => t <- cells_sum rest ;; Ok (q + t)
  | NA :: rest => cells_sum rest
  | Str _ :: _ => Raise (TypeError "could not convert string to float")
  end.

(** [series.mean()]: missing values are skipped and the mean of nothing
    is NaN. *)
Definition series_mean (l : list Cell) : result PyFloat :=
  match dropna l with
  | [] => Ok NaN
  | x :: rest =>
      t <- cells_sum (x :: rest) ;;
      Ok (Fin (t / inject_Z (Z.of_nat (List.length (x :: rest)))))
  end.

(** [len(sample)] *)
Definition len (A : Type) (l : list A) : Z := Z.of_nat (List.length l).

Section Statistics.
Variable st : Stats.

(** [str(x)] *)
Definition py_str (c : Cell) : string :=
  match c with
  | NA => "nan"
  | Num q => repr_number st q
  | Str s => s
  end.

Record GroupSummary : Type := {
  gs_name : string;
  gs_n : Z;
  gs_mean : PyFloat;
  gs_std : PyFloat
}.

Record TTestResult : Type := {
  tt_test : string;
  tt_statistic : PyFloat;
  tt_p_value : PyFloat;
  tt_significant : bool;
  tt_effect_size : PyFloat;
  tt_effect_interpretation : string;
  tt_group1 : GroupSummary;
  tt_group2 : GroupSummary;
  tt_normality_group1_p : option PyFloat;
  tt_normality_group2_p : option PyFloat;
  tt_equal_variance_p : PyFloat;
  tt_equal_variance : bool;
  tt_interpretation : string
}.

Definition _interpret_cohens_d (d : PyFloat) : string :=
  let abs_d := fabs d in
  if fltb abs_d (Fin (2 # 10)) then "negligible"
  else if fltb abs_d (Fin (5 # 10)) then "small"
  else if fltb abs_d (Fin (8 # 10)) then "medium"
  else "large".

Definition _interpret_result (p_value : PyFloat) (group1 group2 : Cell)
    : string :=
  if fltb p_value (Fin (5 # 100)) then text_different st p_value group1 group2
  else text_not_different st p_value group1 group2.

(** [stats.shapiro(sample) if len(sample) < 5000 else (None, other)]:
    the second component. *)
Definition shapiro_p (sample : list Cell) (other : option PyFloat)
    : result (option PyFloat) :=
  if (len sample <? 5000)%Z
  then sp <- shapiro st sample ;; Ok (Some (snd sp))
  else Ok other.

(** [float(p) if p else None] *)
Definition float_if (p : option PyFloat) : option PyFloat :=
  match p with
  | Some x => if ftruthy x then Some x else None
  | None => None
  end.

(** The pooled standard deviation under the square root. *)
Definition pooled_variance (n1 n2 : Z) (std1 std2 : PyFloat) : PyFloat :=
  fdiv (fadd (fmul (of_int (n1 - 1)) (fmul std1 std1))
             (fmul (of_int (n2 - 1)) (fmul std2 std2)))
       (of_int (n1 + n2 - 2)).

Definition t_test (data : DataFrame) (group_col value_col : string)
    (group1 group2 : Cell) : result TTestResult :=
  sample1 <- select_sample data group_col group1 value_col ;;
  sample2 <- select_sample data group_col group2 value_col ;;
  p_norm1 <- shapiro_p sample1 None ;;
  p_norm2 <- shapiro_p sample2 None ;;
  lv <- levene st sample1 sample2 ;;
  let p_var := snd lv in
  let equal_var := fgtb p_var (Fin (5 # 100)) in
  tp <- ttest_ind st sample1 sample2 equal_var ;;
  let t_stat := fst tp in
  let p_value := snd tp in
  mean1 <- series_mean sample1 ;;
  mean2 <- series_mean sample2 ;;
  std1 <- series_std st sample1 ;;
  std2 <- series_std st sample2 ;;
  let cohens_d :=
    fdiv (fsub mean1 mean2)
         (np_sqrt st (pooled_variance (len sample1) (len sample2) std1 std2)) in
  Ok {| tt_test := "t-test";
        tt_statistic := t_stat;
        tt_p_value := p_value;
        tt_significant := fltb p_value (Fin (5 # 100));
        tt_effect_size := cohens_d;
        tt_effect_interpretation := _interpret_cohens_d cohens_d;
        tt_group1 := {| gs_name := py_str group1; gs_n := len sample1;
                        gs_mean := mean1; gs_std := std1 |};
        tt_group2 := {| gs_name := py_str group2; gs_n := len sample2;
                        gs_mean := mean2; gs_std := std2 |};
        tt_normality_group1_p := float_if p_norm1;
        tt_normality_group2_p := float_if p_norm2;
        tt_equal_variance_p := p_var;
        tt_equal_variance := equal_var;
        tt_interpretation := _interpret_result p_value group1 group2 |}.

Record MedianSummary : Type := {
  ms_name : string;
  ms_n : Z;
  ms_median : PyFloat
}.

Record MannWhitneyResult : Type := {
  mw_test : string;
  mw_statistic : PyFloat;
  mw_p_value : PyFloat;
  mw_significant : bool;
  mw_group1 : MedianSummary;
  mw_group2 : MedianSummary;
  mw_interpretation : string
}.

Definition mann_whitney_test (data : DataFrame) (group_col value_col : string)
    (group1 group2 : Cell) : result MannWhitneyResult :=
  sample1 <- select_sample data group_col group1 value_col ;;
  sample2 <- select_sample data group_col group2 value_col ;;
  up <- mannwhitneyu st sample1 sample2 ;;
  let u_stat := fst up in
  let p_value := snd up in
  median1 <- series_median st sample1 ;;
  median2 <- series_median st sample2 ;;
  Ok {| mw_test := "Mann-Whitney U";
        mw_statistic := u_stat;
        mw_p_value := p_value;
        mw_significant := fltb p_value (Fin (5 # 100));
        mw_group1 := {| ms_name := py_str group1; ms_n := len sample1;
                        ms_median := median1 |};
        mw_group2 := {| ms_name := py_str group2; ms_n := len sample2;
                        ms_median := median2 |};
        mw_interpretation :=
          text_medians st (fltb p_value (Fin (5 # 100))) p_value |}.

Record AnovaReport : Type := {
  an_test : string;
  an_statistic : PyFloat;
  an_p_value : PyFloat;
  an_significant : bool;
  an_group_statistics : list GroupSummary;
  an_posthoc : option PyValue;
  an_interpretation : string
}.

(** The two dictionaries [anova] may return. *)
Inductive AnovaResult : Type :=
| anova_error (msg : string)
| anova_report (r : AnovaReport).

(** The loop over [self.data.groupby(group_col)]: the non-empty samples
    with the names of their groups. *)
Definition anova_groups (data : DataFrame) (group_col value_col : string)
    : result (list (string * list Cell)) :=
  gcol <- getcol data group_col ;;
  all <- mapM (fun key =>
                 vcol <- getcol data value_col ;;
                 Ok (py_str key,
                     dropna (map snd
                       (filter (fun gv : Cell * Cell => cell_same (fst gv) key)
                               (combine gcol vcol)))))
              (sort_keys st (unique (dropna gcol))) ;;
  Ok (filter (fun ng : string * list Cell => (0 <? len (snd ng))%Z) all).

Definition anova (data : DataFrame) (group_col value_col : string)
    : result AnovaResult :=
  groups <- anova_groups data group_col value_col ;;
  if (len groups <? 2)%Z
  then Ok (anova_error "Need at least 2 groups for ANOVA")
  else
    fp <- f_oneway st (map snd groups) ;;
    let f_stat := fst fp in
    let p_value := snd fp in
    posthoc <- (if fltb p_value (Fin (5 # 100))
                then ph <- tukey_hsd st data group_col value_col ;; Ok (Some ph)
                else Ok None) ;;
    group_stats <- mapM (fun ng : string * list Cell =>
                           m <- series_mean (snd ng) ;;
                           sd <- series_std st (snd ng) ;;
                           Ok {| gs_name := fst ng; gs_n := len (snd ng);
                                 gs_mean := m; gs_std := sd |})
                        groups ;;
    Ok (anova_report
          {| an_test := "One-way ANOVA";
             an_statistic := f_stat;
             an_p_value := p_value;
             an_significant := fltb p_value (Fin (5 # 100));
             an_group_statistics := group_stats;
             an_posthoc := posthoc;
             an_interpretation :=
               text_anova st (fltb p_value (Fin (5 # 100))) p_value |}).
Record ChiSquareResult : Type := {
  cs_test : string;
  cs_statistic : PyFloat;
  cs_p_value : PyFloat;
  cs_degrees_of_freedom : Z;
  cs_significant : bool;
  cs_effect_size : PyFloat;
  cs_effect_interpretation : string;
  cs_contingency_table : list (list Z);
  cs_interpretation : string
}.

Definition _interpret_cramers_v (v : PyFloat) : string :=
  if fltb v (Fin (1 # 10)) then "negligible"
  else if fltb v (Fin (3 # 10)) then "small"
  else if fltb v (Fin (5 # 10)) then "medium"
  else "large".

(** [table.sum().sum()] *)
Definition table_total (table : list (list Z)) : Z :=
  fold_right Z.add 0%Z (map (fold_right Z.add 0%Z) table).

Definition chi_square_test (data : DataFrame) (col1 col2 : string)
    : result ChiSquareResult :=
  c1 <- getcol data col1 ;;
  c2 <- getcol data col2 ;;
  contingency_table <- crosstab st c1 c2 ;;
  cpd <- chi2_contingency st contingency_table ;;
  let chi2 := fst (fst cpd) in
  let p_value := snd (fst cpd) in
  let dof := snd cpd in
  let n := table_total contingency_table in
  let min_dim := Z.min (len contingency_table - 1)
                       (len (nth 0 contingency_table []) - 1) in
  let cramers_v :=
    if (0 <? min_dim)%Z
    then np_sqrt st (fdiv chi2 (of_int (n * min_dim)))
    else of_int 0 in
  Ok {| cs_test := "Chi-square";
        cs_statistic := chi2;
        cs_p_value := p_value;
        cs_degrees_of_freedom := dof;
        cs_significant := fltb p_value (Fin (5 # 100));
        cs_effect_size := cramers_v;
        cs_effect_interpretation := _interpret_cramers_v cramers_v;
        cs_contingency_table := contingency_table;
        cs_interpretation :=
          text_chi_square st (fltb p_value (Fin (5 # 100))) p_value |}.

Record CorrelationResult : Type := {
  co_test : string;
  co_correlation : PyFloat;
  co_p_value : PyFloat;
  co_significant : bool;
  co_strength : string;
  co_interpretation : string
}.

Definition _interpret_correlation (r : PyFloat) : string :=
  let abs_r := fabs r in
  if fltb abs_r (Fin (3 # 10)) then "weak"
  else if fltb abs_r (Fin (7 # 10)) then "moderate"
  else "strong".

Definition correlation_test (data : DataFrame) (col1 col2 method : string)
    : result CorrelationResult :=
  c1 <- getcol data col1 ;;
  c2 <- getcol data col2 ;;
  (* the rows in which both columns have a value *)
  let common := filter (fun ab : Cell * Cell =>
                          negb (is_na (fst ab)) && negb (is_na (snd ab)))
                       (combine c1 c2) in
  let data1 := map fst common in
  let data2 := map snd common in
  cp <- (if String.eqb method "pearson" then pearsonr st data1 data2
         else spearmanr st data1 data2) ;;
  let corr := fst cp in
  let p_value := snd cp in
  Ok {| co_test := (capitalize st method ++ " correlation")%string;
        co_correlation := corr;
        co_p_value := p_value;
        co_significant := fltb p_value (Fin (5 # 100));
        co_strength := _interpret_correlation corr;
        co_interpretation :=
          text_correlation st (_interpret_correlation corr) corr p_value |}.
End Statistics.

(** ** core/ab_testing.py *)

Record ABGroup : Type := {
  ab_n : Z;
  ab_mean : PyFloat;
  ab_std : PyFloat;
  ab_median : PyFloat
}.

Record Lift : Type := {
  absolute : PyFloat;
  relative_percent : PyFloat;
  confidence_interval : option (PyFloat * PyFloat)
}.

(** The dictionary built by [_two_sample_test]. *)
Record TwoSampleResult : Type := {
  test_type : string;
  n_groups : Z;
  control_group : string;
  variant_groups : list string;
  statistic : PyFloat;
  p_value : PyFloat;
  is_significant : bool;
  alpha_used : PyFloat;
  effect_size : option PyFloat;
  groups : list (string * ABGroup);
  lift : Lift;
  statistical_power : option PyFloat;
  normality : bool;
  equal_variance : option bool
}.

Record VariantChange : Type := {
  variant : string;
  relative_change : PyFloat;
  is_practically_significant : bool
}.

Record PracticalSignificance : Type := {
  threshold : PyFloat;
  variants : list VariantChange
}.

(** What the test chosen by [run_ab_test] returned. *)
Inductive ABBody : Type :=
| two_sample (r : TwoSampleResult)
| other_test (r : PyValue).

(** The two dictionaries [run_ab_test] may return. *)
Inductive ABResult : Type :=
| ab_error (msg : string)
| ab_report (body : ABBody) (practical_significance : PracticalSignificance)
            (recommendations : list string).

(** The methods of [ABTestEngine] that the two-group continuous path does
    not enter, and the text generation of [_generate_recommendations]. *)
Record ABOther : Type := {
  _proportion_test :
    DataFrame -> string -> string -> Cell -> Cell -> PyFloat -> result PyValue;
  _multigroup_test :
    DataFrame -> string -> string -> Cell -> PyFloat -> result PyValue;
  _multigroup_proportion_test :
    DataFrame -> string -> string -> Cell -> PyFloat -> result PyValue;
  _generate_recommendations : ABBody -> PracticalSignificance -> list string
}.

(** [(p_norm_c > 0.05 and p_norm_v > 0.05) if p_norm_c and p_norm_v
    else False] *)
Definition both_normal (p_norm_c p_norm_v : option PyFloat) : bool :=
  match p_norm_c, p_norm_v with
  | Some pc, Some pv =>
      if ftruthy pc && ftruthy pv
      then fgtb pc (Fin (5 # 100)) && fgtb pv (Fin (5 # 100))
      else false
  | _, _ => false
  end.

Section ABTesting.
Variable st : Stats.
Variable other : ABOther.

(** [x if x else None] for a float *)
Definition nonzero (x : PyFloat) : option PyFloat :=
  if ftruthy x then Some x else None.

(** [(a / b) * 100 if b != 0 else 0] *)
Definition relative_to (a b : PyFloat) : PyFloat :=
  if fneb b (Fin 0) then fmul (fdiv a b) (of_int 100) else of_int 0.

Definition _two_sample_test (data : DataFrame) (group_col metric_col : string)
    (control variant : Cell) (alpha : PyFloat) : result TwoSampleResult :=
  control_data <- select_sample data group_col control metric_col ;;
  variant_data <- select_sample data group_col variant metric_col ;;
  p_norm_c <- shapiro_p st control_data (Some (Fin (5 # 10))) ;;
  p_norm_v <- shapiro_p st variant_data (Some (Fin (5 # 10))) ;;
  let is_normal := both_normal p_norm_c p_norm_v in
  tested <-
    (if is_normal then
       lv <- levene st control_data variant_data ;;
       let equal_var := fgtb (snd lv) (Fin (5 # 100)) in
       tp <- ttest_ind st control_data variant_data equal_var ;;
       cs <- series_std st control_data ;;
       vs <- series_std st variant_data ;;
       let pooled_std :=
         np_sqrt st (pooled_variance (len control_data) (len variant_data)
                       cs vs) in
       vm <- series_mean variant_data ;;
       cm <- series_mean control_data ;;
       Ok ("t-test", fst tp, snd tp, Some (fdiv (fsub vm cm) pooled_std),
           Some equal_var)
     else
       up <- mannwhitneyu st control_data variant_data ;;
       Ok ("Mann-Whitney U", fst up, snd up, None, None)) ;;
  let '(test_used, t_stat, p_val, effect, equal_var) := tested in
  control_mean <- series_mean control_data ;;
  variant_mean <- series_mean variant_data ;;
  let lift_absolute := fsub variant_mean control_mean in
  let lift_relative := relative_to lift_absolute control_mean in
  ci <-
    (if is_normal then
       cv <- series_var st control_data ;;
       vv <- series_var st variant_data ;;
       let se_diff :=
         np_sqrt st (fadd (fdiv cv (of_int (len control_data)))
                          (fdiv vv (of_int (len variant_data)))) in
       Ok (Some (fsub lift_absolute (fmul (Fin (196 # 100)) se_diff),
                 fadd lift_absolute (fmul (Fin (196 # 100)) se_diff)))
     else Ok None) ;;
  actual_power <-
    (match (if is_normal then effect else None) with
     | Some es =>
         if ftruthy es then
           (if (len control_data =? 0)%Z then Raise ZeroDivisionError
            else
              pw <- solve_power st (fabs es) (len control_data)
                      (fdiv (of_int (len variant_data))
                            (of_int (len control_data))) alpha ;;
              Ok (Some pw))
         else Ok None
     | None => Ok None
     end) ;;
  control_std <- series_std st control_data ;;
  control_median <- series_median st control_data ;;
  variant_std <- series_std st variant_data ;;
  variant_median <- series_median st variant_data ;;
  Ok {| test_type := test_used;
        n_groups := 2;
        control_group := py_str st control;
        variant_groups := [py_str st variant];
        statistic := t_stat;
        p_value := p_val;
        is_significant := fltb p_val alpha;
        alpha_used := alpha;
        effect_size := match effect with Some es => nonzero es | None => None end;
        groups :=
          PyDict.set
            [(py_str st control,
              {| ab_n := len control_data; ab_mean := control_mean;
                 ab_std := control_std; ab_median := control_median |})]
            (py_str st variant)
            {| ab_n := len variant_data; ab_mean := variant_mean;
               ab_std := variant_std; ab_median := variant_median |};
        lift := {| absolute := lift_absolute;
                   relative_percent := lift_relative;
                   confidence_interval :=
                     match ci with
                     | Some lu => if ftruthy (fst lu) then Some lu else None
                     | None => None
                     end |};
        statistical_power :=
          match actual_power with Some pw => nonzero pw | None => None end;
        normality := is_normal;
        equal_variance := if is_normal then equal_var else None |}.

(** The loop of [_assess_practical_significance] over the groups. *)
Fixpoint practical_variants (data : DataFrame) (group_col metric_col : string)
    (control : Cell) (control_mean : PyFloat) (gs : list Cell)
    : result (list VariantChange) :=
  match gs with
  | [] => Ok []
  | g :: rest =>
      if cell_eq g control
      then practical_variants data group_col metric_col control control_mean rest
      else
        variant_data <- select_sample data group_col g metric_col ;;
        variant_mean <- series_mean variant_data ;;
        let change :=
          if fneb control_mean (Fin 0)
          then fdiv (fabs (fsub variant_mean control_mean)) control_mean
          else of_int 0 in
        more <- practical_variants data group_col metric_col control
                  control_mean rest ;;
        Ok ({| variant := py_str st g;
               relative_change := change;
               is_practically_significant := fgeb change (Fin (5 # 100)) |}
            :: more)
  end.

Definition _assess_practical_significance (data : DataFrame)
    (group_col metric_col : string) (control : Cell)
    : result PracticalSignificance :=
  control_data <- select_sample data group_col control metric_col ;;
  control_mean <- series_mean control_data ;;
  gcol <- getcol data group_col ;;
  vs <- practical_variants data group_col metric_col control control_mean
          (unique gcol) ;;
  Ok {| threshold := Fin (5 # 100); variants := vs |}.

Definition run_ab_test (data : DataFrame) (group_col metric_col : string)
    (control_group : option Cell) (alpha : PyFloat) (metric_type : string)
    : result ABResult :=
  gcol <- getcol data group_col ;;
  let groups_ := unique gcol in
  let n := len groups_ in
  if (n <? 2)%Z then Ok (ab_error "Need at least 2 groups for A/B test")
  else
    let control := match control_group with
                   | Some c => c
                   | None => nth 0 groups_ NA
                   end in
    body <-
      (if (n =? 2)%Z then
         if String.eqb metric_type "continuous"
         then r <- _two_sample_test data group_col metric_col control
                     (nth 1 groups_ NA) alpha ;;
              Ok (two_sample r)
         else r <- _proportion_test other data group_col metric_col control
                     (nth 1 groups_ NA) alpha ;;
              Ok (other_test r)
       else
         if String.eqb metric_type "continuous"
         then r <- _multigroup_test other data group_col metric_col control alpha ;;
              Ok (other_test r)
         else r <- _multigroup_proportion_test other data group_col metric_col
                     control alpha ;;
              Ok (other_test r)) ;;
    ps <- _assess_practical_significance data group_col metric_col control ;;
    Ok (ab_report body ps (_generate_recommendations other body ps)).
End ABTesting.

(** ** Vocabulary of the graph properties *)

(** Both endpoints of every connection are blocks of the workflow. *)
Definition connections_valid (w : Workflow) : Prop :=
  forall conn, In conn (connections w) ->
    In (from_block conn) (PyDict.keys (blocks w)) /\
    In (to_block conn) (PyDict.keys (blocks w)).

(** A workflow as the methods of [Workflow] keep it: the block
    dictionary has no repeated key and the connections are valid. *)
Definition wf_workflow (w : Workflow) : Prop :=
  NoDup (PyDict.keys (blocks w)) /\ connections_valid w.

(** [edge conns u v]: some connection leads from [u] to [v]. *)
Definition edge (conns : list Connection) (u v : string) : Prop :=
  exists conn, In conn conns /\ from_block conn = u /\ to_block conn = v.

Definition has_cycle (w : Workflow) : Prop :=
  exists v, clos_trans string (edge (connections w)) v v.

Definition is_dag (w : Workflow) : Prop := ~ has_cycle w.

(** Every block stands after all blocks it receives a connection from. *)
Definition topologically_ordered (conns : list Connection)
    (order : list string) : Prop :=
  forall l1 v l2 conn, order = l1 ++ v :: l2 ->
    In conn conns -> to_block conn = v -> In (from_block conn) l1.

(** Connections into [v] whose source is not in [done]. *)
Definition pending_in (conns : list Connection) (done : list string)
    (v : string) : nat :=
  List.length
    (filter (fun conn => String.eqb (to_block conn) v
                         && negb (mem (from_block conn) done)) conns).

(** Targets of the connections leaving [u], in connection order. *)
Definition succs_of (conns : list Connection) (u : string) : list string :=
  map to_block (filter (fun conn => String.eqb (from_block conn) u) conns).

(** Entries of an in-degree table that are still positive. *)
Definition pos_count (d : dict Z) : nat :=
  List.length (filter (fun kv : string * Z => (0 <? snd kv)%Z) d).

(** Blocks with no incoming connection, in insertion order. *)
Definition initial_queue (w : Workflow) : list string :=
  filter (fun b => (pending_in (connections w) [] b =? 0)%nat)
         (PyDict.keys (blocks w)).

(** State of the [while queue] loop: [in_degree] counts the connections
    from blocks not yet emitted, the emitted and queued blocks are exactly
    those whose count is zero, and the emitted prefix is ordered. *)
Definition kahn_inv (conns : list Connection) (ids : list string)
    (in_degree : dict Z) (queue done : list string) : Prop :=
  PyDict.keys in_degree = ids /\
  (forall v, In v ids ->
     PyDict.get in_degree v = Some (Z.of_nat (pending_in conns done v))) /\
  NoDup (done ++ queue) /\
  incl (done ++ queue) ids /\
  (forall v, In v ids ->
     (In v (done ++ queue) <-> pending_in conns done v = 0%nat)) /\
  topologically_ordered conns done.

(** A list of blocks in which each one has a connection to the next. *)
Fixpoint is_walk (conns : list Connection) (l : list string) : Prop :=
  match l with
  | a :: (b :: _) as t => edge conns a b /\ is_walk conns t
  | _ => True
  end.

(** ** Vocabulary of the workflow properties *)

(** Every block has a registered type and a parameter dictionary without
    repeated key. *)
Definition registered_blocks (w : Workflow) : Prop :=
  forall bid b, In (bid, b) (blocks w) ->
    registered (block_type b) = true /\ NoDup (PyDict.keys (parameters b)).

(** Block id, type and parameters: what [to_dict] keeps of a block. *)
Definition block_summary (kv : string * Block)
    : string * BlockType * dict PyValue :=
  (fst kv, block_type (snd kv), parameters (snd kv)).

(** What [from_dict] rebuilds from a serialised block. *)
Definition rebuilt_block (kv : string * Block) : string * Block :=
  (fst kv,
   {| block_id := fst kv; block_type := block_type (snd kv);
      parameters := parameters (snd kv);
      inputs := PyDict.empty; outputs := PyDict.empty |}).

(** Workflows obtained from [Workflow(...)] by the mutating methods. *)
Inductive reachable : Workflow -> Prop :=
| reach_init nm : reachable (Workflow_init nm)
| reach_add_block w uuid8 bt bid w' bid' :
    reachable w -> add_block uuid8 w bt bid = Ok (w', bid') -> reachable w'
| reach_remove_block w bid :
    reachable w -> reachable (remove_block w bid)
| reach_connect w fb fo tb ti w' :
    reachable w -> connect w fb fo tb ti = Ok w' -> reachable w'
| reach_disconnect w fb tb :
    reachable w -> reachable (disconnect w fb tb)
| reach_set_block_parameter w bid pname value :
    reachable w -> reachable (set_block_parameter w bid pname value).

(** ** Sample workflows *)

Definition mk_conn (fb fo tb ti : string) : Connection :=
  {| from_block := fb; from_output := fo; to_block := tb; to_input := ti |}.

(** load -> test -> filter with a second edge load -> filter; the blocks
    were added in the opposite order. *)
Definition sample_chain : Workflow :=
  {| name := "chain";
     blocks := [("filter", Block_init "filter" FILTER_ROWS);
                ("test", Block_init "test" T_TEST);
                ("load", Block_init "load" LOAD_CSV)];
     connections := [mk_conn "load" "data" "test" "data";
                     mk_conn "test" "result" "filter" "data";
                     mk_conn "load" "metadata" "filter" "meta"] |}.

(** [sample_chain] with two parameters configured on the filter block. *)
Definition sample_configured : Workflow :=
  set_block_parameter
    (set_block_parameter sample_chain "filter" "column" (VStr "age"))
    "filter" "operator" (VStr ">").

(** Two blocks feeding each other. *)
Definition sample_cycle : Workflow :=
  {| name := "cycle";
     blocks := [("a", Block_init "a" FILTER_ROWS);
                ("b", Block_init "b" SELECT_COLUMNS)];
     connections := [mk_conn "a" "data" "b" "data";
                     mk_conn "b" "data" "a" "data"] |}.

(** A stand-in for the block classes: every block returns its [data]
    input, except that a [T_TEST] block raises. *)
Definition sample_execute (b : Block) : result (dict PyValue) :=
  match block_type b with
  | T_TEST => Raise (KeyError "group_column")
  | _ => Ok [("data", match PyDict.get (inputs b) "data" with
                      | Some v => v
                      | None => VNone
                      end)]
  end.

(** A table with a half-empty column, a constant column and a repeated
    row. *)
Definition sample_table : DataFrame :=
  {| df_columns := ["group"; "value"; "const"];
     df_rows := [[Str "A"; Num 10; Num 1];
                 [Str "A"; NA; Num 1];
                 [Str "B"; Num 11; Num 1];
                 [Str "B"; Num 11; Num 1]] |}.

(** Two groups of three observations: the mean of A is 10, of B 11. *)
Definition ab_table : DataFrame :=
  {| df_columns := ["group"; "value"];
     df_rows := [[Str "A"; Num 9]; [Str "A"; Num 10]; [Str "A"; Num 11];
                 [Str "B"; Num 10]; [Str "B"; Num 11]; [Str "B"; Num 12]] |}.

(** A table with a single group. *)
Definition one_group_table : DataFrame :=
  {| df_columns := ["group"; "value"];
     df_rows := [[Str "A"; Num 1]; [Str "A"; Num 2]; [Str "A"; Num 3]] |}.

(** Stand-ins for the statistical routines: Shapiro-Wilk reports the
    p-value [p_shapiro] for every sample and the tests report the
    p-value [p_test]; the other numbers are arbitrary. *)
Definition sample_stats (p_shapiro p_test : PyFloat) : Stats :=
  {| shapiro := fun _ => Ok (Fin 1, p_shapiro);
     levene := fun _ _ => Ok (Fin 0, Fin (1 # 2));
     ttest_ind := fun _ _ _ => Ok (Fin (- (1)), p_test);
     mannwhitneyu := fun _ _ => Ok (Fin 1, p_test);
     f_oneway := fun _ => Ok (Fin 2, p_test);
     solve_power := fun _ _ _ _ => Ok (Fin (1 # 2));
     np_sqrt := fun x => x;
     series_std := fun _ => Ok (Fin 1);
     series_var := fun _ => Ok (Fin 1);
     series_median := fun _ => Ok (Fin 0);
     repr_number := fun _ => "number";
     sort_keys := fun l => l;
     tukey_hsd := fun _ _ _ => Ok VNone;
     crosstab := fun _ _ => Ok [[1; 1]; [1; 1]]%Z;
     chi2_contingency := fun _ => Ok (Fin 0, p_test, 1%Z);
     pearsonr := fun _ _ => Ok (Fin (1 # 2), p_test);
     spearmanr := fun _ _ => Ok (Fin (1 # 2), p_test);
     capitalize := fun s => s;
     text_different := fun _ _ _ => "different";
     text_not_different := fun _ _ _ => "not different";
     text_medians := fun _ _ => "medians";
     text_anova := fun _ _ => "anova";
     text_chi_square := fun _ _ => "chi-square";
     text_correlation := fun _ _ _ => "correlation" |}.

Definition sample_other : ABOther :=
  {| _proportion_test := fun _ _ _ _ _ _ => Ok VNone;
     _multigroup_test := fun _ _ _ _ _ => Ok VNone;
     _multigroup_proportion_test := fun _ _ _ _ _ => Ok VNone;
     _generate_recommendations := fun _ _ => [] |}.

(** A stand-in for the external calls in which none is available. *)
Definition no_external : External :=
  {| ext_load_csv := fun _ => Raise (LibraryError "unavailable");
     ext_filter := fun _ _ _ _ => Raise (LibraryError "unavailable");
     ext_select := fun _ _ => Raise (LibraryError "unavailable");
     ext_copy := fun _ => Raise (LibraryError "unavailable");
     ext_columns := fun _ => Raise (LibraryError "unavailable");
     ext_fill := fun _ _ _ => Raise (LibraryError "unavailable");
     ext_drop_duplicates := fun _ _ => Raise (LibraryError "unavailable");
     ext_numeric_columns := fun _ => Raise (LibraryError "unavailable");
     ext_describe := fun _ _ => Raise (LibraryError "unavailable");
     ext_corr := fun _ _ _ => Raise (LibraryError "unavailable");
     ext_t_test := fun _ _ _ _ _ => Raise (LibraryError "unavailable");
     ext_run_ab_test := fun _ _ _ _ => Raise (LibraryError "unavailable") |}.

(** Two groups of ten observations, nine equal and one far from them. *)
Definition skewed_table : DataFrame :=
  {| df_columns := ["group"; "value"];
     df_rows := repeat [Str "A"; Num 0] 9 ++ [[Str "A"; Num 100]] ++
                repeat [Str "B"; Num 1] 9 ++ [[Str "B"; Num 101]] |}.


(** A filter block bound to a table, with no parameter configured. *)
Definition unconfigured_filter : Block :=
  set_input (Block_init "f" FILTER_ROWS) "data" (VFrame sample_table).

(** ** Further definitions *)

(** A connection whose source block was deleted from [blocks] behind the
    back of [remove_block]. *)
Definition sample_dangling : Workflow :=
  {| name := "dangling";
     blocks := [("filter", Block_init "filter" FILTER_ROWS)];
     connections := [mk_conn "load" "data" "filter" "data"] |}.

(** State of the loop of [execute] after the blocks [done] ran, for the
    workflow [w0] the run started from: the results hold one entry per
    block that ran, in that order, and each is what [execute()] of the
    block returned on the inputs bound from the results. *)
Definition dataflow_inv (block_execute : Block -> result (dict PyValue))
    (w0 : Workflow) (eng : WorkflowEngine) (done : list string) : Prop :=
  connections (workflow eng) = connections w0 /\
  PyDict.keys (results eng) = done /\
  (forall b, ~ In b done ->
     PyDict.get (blocks (workflow eng)) b = PyDict.get (blocks w0) b) /\
  (forall b, In b done ->
     exists blk0 r,
       PyDict.get (blocks w0) b = Some blk0 /\
       PyDict.get (blocks (workflow eng)) b
         = Some (bind_inputs (results eng) (connections w0) b blk0) /\
       PyDict.get (results eng) b = Some r /\
       block_execute (bind_inputs (results eng) (connections w0) b blk0) = Ok r).

(** load -> clean, the blocks added in the opposite order. *)
Definition sample_pipeline : Workflow :=
  {| name := "pipeline";
     blocks := [("clean", Block_init "clean" FILTER_ROWS);
                ("load", Block_init "load" LOAD_CSV)];
     connections := [mk_conn "load" "data" "clean" "data"] |}.

(** [sample_pipeline] with the loader configured. *)
Definition sample_loaded : Workflow :=
  set_block_parameter sample_pipeline "load" "file_path" (VStr "a.csv").

(** A stand-in for the block classes: a loader returns the table it is
    configured with, every other block returns its [data] input. *)
Definition sample_passthrough (b : Block) : result (dict PyValue) :=
  match block_type b with
  | LOAD_CSV => Ok [("data", get_or_none (parameters b) "file_path");
                    ("metadata", VNone)]
  | _ => Ok [("data", get_or_none (inputs b) "data")]
  end.

(** A serialised workflow with every key present. *)
Definition mk_data (nm : string) (bds : list BlockData)
    (conns : list Connection) : WorkflowData :=
  {| wd_name := Some nm; wd_blocks := Some bds; wd_connections := Some conns |}.

Definition mk_block_data (bid ty : string) (ps : dict PyValue) : BlockData :=
  {| bd_id := bid; bd_type := ty; bd_parameters := Some ps |}.

(** What [to_dict] writes for [sample_configured]. *)
Definition sample_data : WorkflowData :=
  mk_data "chain"
    [mk_block_data "filter" "filter_rows"
       [("column", VStr "age"); ("operator", VStr ">")];
     mk_block_data "test" "t_test" [];
     mk_block_data "load" "load_csv" []]
    [mk_conn "load" "data" "test" "data";
     mk_conn "test" "result" "filter" "data";
     mk_conn "load" "metadata" "filter" "meta"].

(** Stand-ins in which [pd.crosstab] gives a fixed table. *)
Definition with_crosstab (s : Stats) (table : list (list Z)) : Stats :=
  {| shapiro := shapiro s; levene := levene s; ttest_ind := ttest_ind s;
     mannwhitneyu := mannwhitneyu s; f_oneway := f_oneway s;
     solve_power := solve_power s; np_sqrt := np_sqrt s;
     series_std := series_std s; series_var := series_var s;
     series_median := series_median s; repr_number := repr_number s;
     sort_keys := sort_keys s; tukey_hsd := tukey_hsd s;
     crosstab := fun _ _ => Ok table;
     chi2_contingency := chi2_contingency s;
     pearsonr := pearsonr s; spearmanr := spearmanr s;
     capitalize := capitalize s;
     text_different := text_different s;
     text_not_different := text_not_different s;
     text_medians := text_medians s; text_anova := text_anova s;
     text_chi_square := text_chi_square s;
     text_correlation := text_correlation s |}.

(** A table in which one group label is missing. *)
Definition missing_label_table : DataFrame :=
  {| df_columns := ["group"; "value"];
     df_rows := [[Str "A"; Num 9]; [Str "A"; Num 10]; [NA; Num 11]] |}.

(** A table of losses: the mean of the control group A is -10, the mean
    of B is -30. *)
Definition loss_table : DataFrame :=
  {| df_columns := ["group"; "value"];
     df_rows := [[Str "A"; Num (- (10))]; [Str "B"; Num (- (30))]] |}.

(** ** core/ab_testing.py: the other test methods *)

(** The routines of pandas, NumPy and statsmodels that only the
    proportion tests call.  The metric column is numeric, so that a sum
    is a NumPy number and a division by zero gives an infinity or NaN. *)
Record PropOracles : Type := {
  (** [series.sum()] *)
  series_sum : list Cell -> result PyFloat;
  (** [proportions_ztest(np.array([c1, c2]), np.array([n1, n2]))] *)
  proportions_ztest : PyFloat -> PyFloat -> Z -> Z -> result (PyFloat * PyFloat);
  (** [int(x)] *)
  py_int : PyFloat -> result Z
}.

(** [df[df[group_col] == group][metric_col]], missing values included. *)
Definition group_rows (df : DataFrame) (group_col : string) (group : Cell)
    (metric_col : string) : result (list Cell) :=
  gcol <- getcol df group_col ;;
  vcol <- getcol df metric_col ;;
  Ok (map snd (filter (fun gv : Cell * Cell => cell_eq (fst gv) group)
                      (combine gcol vcol))).

Module ABTestEngine.

Record PropGroup : Type := {
  pg_n : Z;
  pg_successes : Z;
  pg_proportion : PyFloat
}.

(** The dictionary built by [_proportion_test]. *)
Record ProportionResult : Type := {
  pr_test_type : string;
  pr_n_groups : Z;
  pr_control_group : string;
  pr_variant_groups : list string;
  pr_statistic : PyFloat;
  pr_p_value : PyFloat;
  pr_is_significant : bool;
  pr_alpha : PyFloat;
  pr_groups : dict PropGroup;
  pr_lift : Lift
}.

Record GroupInfo : Type := {
  gi_n : Z;
  gi_mean : PyFloat;
  gi_std : PyFloat;
  gi_lift_absolute : PyFloat;
  gi_lift_relative_percent : PyFloat
}.

(** The dictionary built by [_multigroup_test]. *)
Record MultiGroupResult : Type := {
  mg_test_type : string;
  mg_n_groups : Z;
  mg_control_group : string;
  mg_variant_groups : list string;
  mg_statistic : PyFloat;
  mg_p_value : PyFloat;
  mg_is_significant : bool;
  mg_alpha : PyFloat;
  mg_groups : dict GroupInfo
}.

Section Methods.
Variable st : Stats.
Variable po : PropOracles.

Definition _proportion_test (data : DataFrame) (group_col metric_col : string)
    (control variant : Cell) (alpha : PyFloat) : result ProportionResult :=
  control_data <- group_rows data group_col control metric_col ;;
  variant_data <- group_rows data group_col variant metric_col ;;
  control_successes <- series_sum po control_data ;;
  variant_successes <- series_sum po variant_data ;;
  let control_n := len control_data in
  let variant_n := len variant_data in
  let control_prop := fdiv control_successes (of_int control_n) in
  let variant_prop := fdiv variant_successes (of_int variant_n) in
  zp <- proportions_ztest po variant_successes control_successes
          variant_n control_n ;;
  let z_stat := fst zp in
  let p_value := snd zp in
  let lift_absolute := fsub variant_prop control_prop in
  let lift_relative := relative_to lift_absolute control_prop in
  let se :=
    np_sqrt st
      (fadd (fdiv (fmul control_prop (fsub (of_int 1) control_prop))
                  (of_int control_n))
            (fdiv (fmul variant_prop (fsub (of_int 1) variant_prop))
                  (of_int variant_n))) in
  let ci_lower := fsub lift_absolute (fmul (Fin (196 # 100)) se) in
  let ci_upper := fadd lift_absolute (fmul (Fin (196 # 100)) se) in
  cs <- py_int po control_successes ;;
  vs <- py_int po variant_successes ;;
  Ok {| pr_test_type := "Z-test for proportions";
        pr_n_groups := 2;
        pr_control_group := py_str st control;
        pr_variant_groups := [py_str st variant];
        pr_statistic := z_stat;
        pr_p_value := p_value;
        pr_is_significant := fltb p_value alpha;
        pr_alpha := alpha;
        pr_groups :=
          PyDict.set
            [(py_str st control,
              {| pg_n := control_n; pg_successes := cs;
                 pg_proportion := control_prop |})]
            (py_str st variant)
            {| pg_n := variant_n; pg_successes := vs;
               pg_proportion := variant_prop |};
        pr_lift := {| absolute := lift_absolute;
                      relative_percent := lift_relative;
                      confidence_interval := Some (ci_lower, ci_upper) |} |}.

(** The dictionary [groups_data]: the groups of [groupby] that have a
    value, under the text of their label. *)
Definition groups_data (data : DataFrame) (group_col metric_col : string)
    : result (dict (list Cell)) :=
  groups <- anova_groups st data group_col metric_col ;;
  Ok (fold_left (fun d (ng : string * list Cell) =>
                   PyDict.set d (fst ng) (snd ng))
                groups PyDict.empty).

(** The loop over [groups_data.items()]. *)
Fixpoint groups_info (control_mean : PyFloat)
    (items : list (string * list Cell)) : result (dict GroupInfo) :=
  match items with
  | [] => Ok PyDict.empty
  | (gname, values) :: rest =>
      mean <- series_mean values ;;
      let lift_abs := fsub mean control_mean in
      let lift_rel := relative_to lift_abs control_mean in
      sd <- series_std st values ;;
      more <- groups_info control_mean rest ;;
      Ok ((gname, {| gi_n := len values; gi_mean := mean; gi_std := sd;
                     gi_lift_absolute := lift_abs;
                     gi_lift_relative_percent := lift_rel |}) :: more)
  end.

Definition _multigroup_test (data : DataFrame) (group_col metric_col : string)
    (control : Cell) (alpha : PyFloat) : result MultiGroupResult :=
  gd <- groups_data data group_col metric_col ;;
  fp <- f_oneway st (PyDict.values gd) ;;
  let f_stat := fst fp in
  let p_value := snd fp in
  control_values <- PyDict.getitem gd (py_str st control) ;;
  control_mean <- series_mean control_values ;;
  info <- groups_info control_mean (PyDict.items gd) ;;
  Ok {| mg_test_type := "ANOVA";
        mg_n_groups := len gd;
        mg_control_group := py_str st control;
        mg_variant_groups :=
          filter (fun k => negb (String.eqb k (py_str st control)))
                 (PyDict.keys gd);
        mg_statistic := f_stat;
        mg_p_value := p_value;
        mg_is_significant := fltb p_value alpha;
        mg_alpha := alpha;
        mg_groups := info |}.
End Methods.

End ABTestEngine.

(** Stand-ins for the routines of the proportion test: a sum of the
    values that are present, a fixed test result, and [int] by
    truncation of a finite number. *)
Definition sample_prop_oracles : PropOracles :=
  {| series_sum := fun l => t <- cells_sum l ;; Ok (Fin t);
     proportions_ztest := fun _ _ _ _ => Ok (Fin 1, Fin (3 # 10));
     py_int := fun x => match x with
                        | Fin q => Ok (Z.quot (Qnum q) (Zpos (Qden q)))
                        | _ => Raise (ValueError "cannot convert float to integer")
                        end |}.

(** Conversions: group A has two rows, one of them without a value. *)
Definition conversion_table : DataFrame :=
  {| df_columns := ["group"; "converted"];
     df_rows := [[Str "A"; Num 1]; [Str "A"; NA];
                 [Str "B"; Num 1]; [Str "B"; Num 0]] |}.

(** Three groups; every value of group C is missing. *)
Definition three_group_table : DataFrame :=
  {| df_columns := ["group"; "value"];
     df_rows := [[Str "A"; Num 10]; [Str "B"; Num 12]; [Str "B"; Num 14];
                 [Str "C"; NA]] |}.

(** ** core/data_profiler.py and utils/helpers.py: column types *)

(** What [pd.api.types] answers about the dtype of a series. *)
Inductive DtypeKind : Type :=
| datetime64_dtype
| numeric_dtype
| other_dtype.

Record Series : Type := {
  s_dtype : DtypeKind;
  s_values : list Cell
}.

(** [v in {0, 1, True, False}] for a value of a numeric series *)
Definition zero_or_one (c : Cell) : bool :=
  match c with
  | Num q => Qeq_bool q 0 || Qeq_bool q 1
  | _ => false
  end.

(** [a / b] on Python integers *)
Definition py_int_div (a b : Z) : result PyFloat :=
  if (b =? 0)%Z then Raise ZeroDivisionError
  else Ok (Fin (inject_Z a / inject_Z b)).

(** [DataProfiler._infer_column_type]; [helpers.detect_column_type] has
    the same body. *)
Definition _infer_column_type (series : Series) : result string :=
  let clean_series := dropna (s_values series) in
  if (len clean_series =? 0)%Z then Ok "empty"
  else
    match s_dtype series with
    | datetime64_dtype => Ok "datetime"
    | numeric_dtype =>
        if forallb zero_or_one (unique clean_series) then Ok "binary"
        else if (nunique (s_values series) =? len (s_values series))%Z
             then Ok "id"
        else if (nunique (s_values series) <? 20)%Z
             then Ok "discrete_numeric"
        else Ok "continuous_numeric"
    | other_dtype =>
        unique_ratio <- py_int_div (nunique (s_values series))
                                   (len (s_values series)) ;;
        if fltb unique_ratio (Fin (5 # 100)) then Ok "categorical"
        else if fltb unique_ratio (Fin (5 # 10))
             then Ok "high_cardinality_categorical"
        else Ok "text"
    end.

(** Three measurements, all different. *)
Definition measurements : Series :=
  {| s_dtype := numeric_dtype;
     s_values := [Num (15 # 10); Num (27 # 10); Num (31 # 10)] |}.

(** ** utils/helpers.py: effect sizes *)

Section Helpers.
Variable st : Stats.

(** The branch of [calculate_effect_size] for ['cohens_d'], which the
    branch for ['hedges_g'] calls. *)
Definition cohens_d_branch (group1 group2 : list Cell) : result PyFloat :=
  std1 <- series_std st group1 ;;
  std2 <- series_std st group2 ;;
  let pooled_std :=
    np_sqrt st (pooled_variance (len group1) (len group2) std1 std2) in
  mean1 <- series_mean group1 ;;
  mean2 <- series_mean group2 ;;
  Ok (fdiv (fsub mean1 mean2) pooled_std).

Definition calculate_effect_size (group1 group2 : list Cell)
    (method : string) : result PyFloat :=
  if String.eqb method "cohens_d" then cohens_d_branch group1 group2
  else if String.eqb method "glass_delta" then
    mean1 <- series_mean group1 ;;
    mean2 <- series_mean group2 ;;
    std2 <- series_std st group2 ;;
    Ok (fdiv (fsub mean1 mean2) std2)
  else if String.eqb method "hedges_g" then
    cohens_d <- cohens_d_branch group1 group2 ;;
    let n := (len group1 + len group2)%Z in
    q <- py_int_div 3 (4 * n - 9) ;;
    let correction := fsub (of_int 1) q in
    Ok (fmul cohens_d correction)
  else Ok (Fin 0).
End Helpers.

Definition interpret_effect_size (effect_size : PyFloat) (metric : string)
    : string :=
  let abs_es := fabs effect_size in
  if mem metric ["cohens_d"; "hedges_g"; "glass_delta"] then
    if fltb abs_es (Fin (2 # 10)) then "negligible"
    else if fltb abs_es (Fin (5 # 10)) then "small"
    else if fltb abs_es (Fin (8 # 10)) then "medium"
    else "large"
  else if String.eqb metric "cramers_v" then
    if fltb abs_es (Fin (1 # 10)) then "negligible"
    else if fltb abs_es (Fin (3 # 10)) then "small"
    else if fltb abs_es (Fin (5 # 10)) then "medium"
    else "large"
  else if String.eqb metric "correlation" then
    if fltb abs_es (Fin (3 # 10)) then "weak"
    else if fltb abs_es (Fin (7 # 10)) then "moderate"
    else "strong"
  else "unknown".

(** ** core/recommender.py: the test for two columns *)

(** What [recommend_test_for_columns] reads of a column profile written
    by [DataProfiler._profile_columns]. *)
Record ColumnProfile : Type := {
  inferred_type : string
}.

(** The dictionaries [recommend_test_for_columns] returns. *)
Inductive TestAdvice : Type :=
| advice_error (msg : string)
| advice (recommended_test alternative : option string) (reason : string).

Definition is_numeric_type (t : string) : bool :=
  mem t ["continuous_numeric"; "discrete_numeric"].

Definition is_group_type (t : string) : bool :=
  mem t ["categorical"; "binary"].

Definition recommend_test_for_columns (columns : dict ColumnProfile)
    (col1 col2 : string) : TestAdvice :=
  match PyDict.get columns col1, PyDict.get columns col2 with
  | Some prof1, Some prof2 =>
      let type1 := inferred_type prof1 in
      let type2 := inferred_type prof2 in
      if is_numeric_type type1 && is_group_type type2 then
        if String.eqb type2 "binary" then
          advice (Some "t_test") (Some "mann_whitney")
            "Сравнение числовой переменной между двумя группами"
        else
          advice (Some "anova") (Some "kruskal_wallis")
            "Сравнение числовой переменной между несколькими группами"
      else if is_numeric_type type1 && is_numeric_type type2 then
        advice (Some "pearson_correlation") (Some "spearman_correlation")
          "Анализ взаимосвязи между двумя числовыми переменными"
      else if is_group_type type1 && is_group_type type2 then
        advice (Some "chi_square") (Some "fisher_exact")
          "Анализ связи между категориальными переменными"
      else
        advice None None
          "Не удалось подобрать подходящий тест для данных типов переменных"
  | _, _ => advice_error "Column not found in profile"
  end.

(** The profile of a binary flag and a numeric measurement. *)
Definition sample_profile : dict ColumnProfile :=
  [("treated", {| inferred_type := "binary" |});
   ("weight", {| inferred_type := "discrete_numeric" |})].

(** One producer with two consumers; the connection to [C] was made before
    the connection to [B], the block [B] was added before the block [C]. *)
Definition sample_fan : Workflow :=
  {| name := "fan";
     blocks := [("A", Block_init "A" LOAD_CSV);
                ("B", Block_init "B" FILTER_ROWS);
                ("C", Block_init "C" FILTER_ROWS)];
     connections := [mk_conn "A" "data" "C" "data";
                     mk_conn "A" "data" "B" "data"] |}.

(** [added] lists blocks in the order of their last occurrence in [ns]:
    an element of [added] occurs in [ns] a last time, the elements after
    it in [added] occur in [ns] after that place, the elements before it
    do not. *)
Definition by_last_occurrence (ns added : list string) : Prop :=
  forall a1 x a2, added = a1 ++ x :: a2 ->
    exists s1 s2, ns = s1 ++ x :: s2 /\ ~ In x s2 /\
                  (forall y, In y a2 -> In y s2) /\
                  (forall y, In y a1 -> ~ In y s2).

(** A stand-in for the external calls in which only the loader is
    available, and only the file [a.csv] exists: loading it returns
    [sample_table] with an empty metadata dictionary. *)
Definition sample_loader : External :=
  {| ext_load_csv := fun file_path =>
       match file_path with
       | VStr f => if String.eqb f "a.csv"
                   then Ok (VFrame sample_table, VDict [])
                   else Raise (LibraryError "unavailable")
       | _ => Raise (LibraryError "unavailable")
       end;
     ext_filter := fun _ _ _ _ => Raise (LibraryError "unavailable");
     ext_select := fun _ _ => Raise (LibraryError "unavailable");
     ext_copy := fun _ => Raise (LibraryError "unavailable");
     ext_columns := fun _ => Raise (LibraryError "unavailable");
     ext_fill := fun _ _ _ => Raise (LibraryError "unavailable");
     ext_drop_duplicates := fun _ _ => Raise (LibraryError "unavailable");
     ext_numeric_columns := fun _ => Raise (LibraryError "unavailable");
     ext_describe := fun _ _ => Raise (LibraryError "unavailable");
     ext_corr := fun _ _ _ => Raise (LibraryError "unavailable");
     ext_t_test := fun _ _ _ _ _ => Raise (LibraryError "unavailable");
     ext_run_ab_test := fun _ _ _ _ => Raise (LibraryError "unavailable") |}.

(* ===================================================================== *)
(** * Properties *)
(* ===================================================================== *)

(** ** Dictionaries *)

Section DictFacts.
Variable V : Type.
Implicit Types (d : dict V) (k : string) (v : V).

Lemma get_set_eq d k v : PyDict.get (PyDict.set d k v) k = Some v.
Proof.
  induction d as [|[k' v'] d IH]; simpl.
  - now rewrite String.eqb_refl.
  - destruct (String.eqb k' k) eqn:E; simpl; rewrite E; auto.
Qed.

Lemma get_set_ne d k k' v :
  k <> k' -> PyDict.get (PyDict.set d k v) k' = PyDict.get d k'.
Proof.
  intros Hne. induction d as [|[k0 v0] d IH]; simpl.
  - apply String.eqb_neq in Hne. now rewrite Hne.
  - destruct (String.eqb k0 k) eqn:E; simpl.
    + apply String.eqb_eq in E. subst k0.
      apply String.eqb_neq in Hne. now rewrite Hne.
    + destruct (String.eqb k0 k'); auto.
Qed.

Lemma get_in_keys d k : In k (PyDict.keys d) <-> PyDict.get d k <> None.
Proof.
  induction d as [|[k0 v0] d IH]; simpl.
  - split; [tauto | congruence].
  - destruct (String.eqb k0 k) eqn:E.
    + apply String.eqb_eq in E. split; [intros _; discriminate | auto].
    + apply String.eqb_neq in E. rewrite <- IH. tauto.
Qed.

Lemma get_not_in_keys d k : ~ In k (PyDict.keys d) <-> PyDict.get d k = None.
Proof.
  rewrite get_in_keys. destruct (PyDict.get d k); split; intro H.
  - exfalso. apply H. discriminate.
  - discriminate.
  - reflexivity.
  - intro H'. now apply H'.
Qed.

Lemma contains_in_keys d k :
  PyDict.contains d k = true <-> In k (PyDict.keys d).
Proof.
  unfold PyDict.contains. rewrite get_in_keys.
  destruct (PyDict.get d k); split; congruence.
Qed.

Lemma keys_set_present d k v :
  In k (PyDict.keys d) -> PyDict.keys (PyDict.set d k v) = PyDict.keys d.
Proof.
  induction d as [|[k0 v0] d IH]; simpl; [tauto|].
  intros H. destruct (String.eqb k0 k) eqn:E; simpl; auto.
  apply String.eqb_neq in E. f_equal. apply IH. tauto.
Qed.

Lemma keys_set_absent d k v :
  ~ In k (PyDict.keys d) ->
  PyDict.keys (PyDict.set d k v) = PyDict.keys d ++ [k].
Proof.
  induction d as [|[k0 v0] d IH]; simpl; auto.
  intros H. destruct (String.eqb k0 k) eqn:E; simpl.
  - apply String.eqb_eq in E. tauto.
  - f_equal. apply IH. tauto.
Qed.

Lemma in_keys_set d k v k' :
  In k' (PyDict.keys (PyDict.set d k v)) <-> k' = k \/ In k' (PyDict.keys d).
Proof.
  destruct (in_dec string_dec k (PyDict.keys d)) as [Hin|Hout].
  - rewrite keys_set_present by auto. split; auto.
    intros [->|]; auto.
  - rewrite keys_set_absent by auto. rewrite in_app_iff. simpl.
    split; intros; intuition auto.
Qed.

Lemma NoDup_keys_set d k v :
  NoDup (PyDict.keys d) -> NoDup (PyDict.keys (PyDict.set d k v)).
Proof.
  intros Hnd.
  destruct (in_dec string_dec k (PyDict.keys d)) as [Hin|Hout].
  - now rewrite keys_set_present.
  - rewrite keys_set_absent by auto.
    apply NoDup_app; auto.
    + constructor; [simpl; tauto | constructor].
    + intros x Hx [<-|[]]. tauto.
Qed.

Lemma keys_del d k :
  NoDup (PyDict.keys d) ->
  PyDict.keys (PyDict.del d k) =
  filter (fun k' => negb (String.eqb k' k)) (PyDict.keys d).
Proof.
  induction d as [|[k0 v0] d IH]; simpl; auto.
  intros Hnd. inversion Hnd as [|? ? Hnotin Hnd']; subst.
  destruct (String.eqb k0 k) eqn:E; simpl.
  - apply String.eqb_eq in E. subst k0.
    symmetry. apply forallb_filter_id.
    apply forallb_forall. intros x Hx.
    apply negb_true_iff, String.eqb_neq. intros ->. tauto.
  - f_equal. now apply IH.
Qed.

Lemma get_del_ne d k k' :
  k <> k' -> PyDict.get (PyDict.del d k) k' = PyDict.get d k'.
Proof.
  intros Hne. induction d as [|[k0 v0] d IH]; simpl; auto.
  destruct (String.eqb k0 k) eqn:E; simpl.
  - apply String.eqb_eq in E. subst k0.
    apply String.eqb_neq in Hne. now rewrite Hne.
  - destruct (String.eqb k0 k'); auto.
Qed.

Lemma length_set_present d k v :
  In k (PyDict.keys d) -> List.length (PyDict.set d k v) = List.length d.
Proof.
  intros H. apply (keys_set_present d k v) in H.
  apply (f_equal (@List.length string)) in H.
  unfold PyDict.keys in H. now rewrite !length_map in H.
Qed.

Lemma getitem_Ok d k v :
  PyDict.getitem d k = Ok v <-> PyDict.get d k = Some v.
Proof.
  unfold PyDict.getitem. destruct (PyDict.get d k); split; congruence.
Qed.
End DictFacts.

(** ** Kahn's algorithm *)

Lemma pos_count_set (d : dict Z) k x y :
  PyDict.get d k = Some x ->
  (pos_count (PyDict.set d k y) + (if (0 <? x)%Z then 1 else 0) =
   pos_count d + (if (0 <? y)%Z then 1 else 0))%nat.
Proof.
  unfold pos_count. induction d as [|[k0 v0] d IH]; simpl; [discriminate|].
  destruct (String.eqb k0 k) eqn:E; simpl.
  - intros [= ->]. destruct (0 <? x)%Z, (0 <? y)%Z; simpl; lia.
  - intros H. specialize (IH H). destruct (0 <? v0)%Z; simpl; lia.
Qed.

Lemma relax_measure ns : forall indeg q indeg' q',
  relax ns indeg q = Ok (indeg', q') ->
  (List.length q' + pos_count indeg' = List.length q + pos_count indeg)%nat.
Proof.
  induction ns as [|n ns IH]; simpl; intros indeg q indeg' q' H.
  - now inversion H.
  - unfold bind in H. destruct (PyDict.getitem indeg n) as [d|] eqn:G; [|discriminate].
    apply getitem_Ok in G. apply IH in H. rewrite H.
    pose proof (pos_count_set indeg n (d - 1) G) as P.
    destruct (d - 1 =? 0)%Z eqn:E.
    + apply Z.eqb_eq in E. rewrite length_app. simpl.
      replace (0 <? d)%Z with true in P by (symmetry; apply Z.ltb_lt; lia).
      replace (0 <? d - 1)%Z with false in P by (symmetry; apply Z.ltb_ge; lia).
      lia.
    + apply Z.eqb_neq in E.
      destruct (Z.ltb_spec 0 d), (Z.ltb_spec 0 (d - 1)); lia.
Qed.

Lemma kahn_loop_fuel fuel : forall graph indeg q res,
  (List.length q + pos_count indeg <= fuel)%nat ->
  kahn_loop fuel graph indeg q res <> None.
Proof.
  induction fuel as [|fuel IH]; intros graph indeg q res Hle.
  - destruct q; simpl in *; [discriminate | lia].
  - destruct q as [|b q]; simpl; [discriminate|].
    destruct (PyDict.getitem graph b) as [succs|]; [|discriminate].
    destruct (relax succs indeg q) as [[indeg' q']|] eqn:R; [|discriminate].
    apply IH. apply relax_measure in R. simpl in Hle. lia.
Qed.

Lemma mem_In x l : mem x l = true <-> In x l.
Proof.
  unfold mem. rewrite existsb_exists. split.
  - intros (y & Hy & E). apply String.eqb_eq in E. now subst.
  - intros H. exists x. split; auto. apply String.eqb_refl.
Qed.

Lemma mem_app x l1 l2 : mem x (l1 ++ l2) = mem x l1 || mem x l2.
Proof. unfold mem. apply existsb_app. Qed.

Lemma pending_in_cons conn conns done v :
  pending_in (conn :: conns) done v =
  ((if String.eqb (to_block conn) v && negb (mem (from_block conn) done)
    then 1 else 0) + pending_in conns done v)%nat.
Proof.
  unfold pending_in. simpl.
  destruct (String.eqb (to_block conn) v && negb (mem (from_block conn) done));
    reflexivity.
Qed.

Lemma succs_of_cons conn conns u :
  succs_of (conn :: conns) u =
  (if String.eqb (from_block conn) u then [to_block conn] else [])
    ++ succs_of conns u.
Proof.
  unfold succs_of. simpl. destruct (String.eqb (from_block conn) u); reflexivity.
Qed.

Lemma build_graph_inv conns : forall g d g' d',
  build_graph g d conns = Ok (g', d') ->
  PyDict.keys g' = PyDict.keys g /\ PyDict.keys d' = PyDict.keys d /\
  (forall conn, In conn conns ->
     In (from_block conn) (PyDict.keys g) /\ In (to_block conn) (PyDict.keys d)) /\
  (forall u l, PyDict.get g u = Some l ->
     PyDict.get g' u = Some (l ++ succs_of conns u)) /\
  (forall v x, PyDict.get d v = Some x ->
     PyDict.get d' v = Some (x + Z.of_nat (pending_in conns [] v))%Z).
Proof.
  induction conns as [|c conns IH]; simpl; intros g d g' d' H.
  - inversion H; subst. repeat split; try tauto.
    + intros u l Hu. now rewrite app_nil_r.
    + intros v x Hv. rewrite Hv. f_equal. unfold pending_in. simpl. lia.
  - unfold bind in H.
    destruct (PyDict.getitem g (from_block c)) as [succs|] eqn:G1; [|discriminate].
    destruct (PyDict.getitem d (to_block c)) as [x0|] eqn:G2; [|discriminate].
    apply getitem_Ok in G1, G2.
    assert (Hing : In (from_block c) (PyDict.keys g))
      by (apply get_in_keys; congruence).
    assert (Hind : In (to_block c) (PyDict.keys d))
      by (apply get_in_keys; congruence).
    apply IH in H. destruct H as (K1 & K2 & Hval & Hg & Hd).
    rewrite keys_set_present in K1, Hval by assumption.
    rewrite keys_set_present in K2, Hval by assumption.
    repeat split; auto.
    + destruct H as [<-|H]; auto. now apply Hval.
    + destruct H as [<-|H]; auto. now apply Hval.
    + intros u l Hu. rewrite succs_of_cons.
      destruct (String.eqb (from_block c) u) eqn:E.
      * apply String.eqb_eq in E. subst u.
        rewrite (Hg (from_block c) (succs ++ [to_block c])).
        -- assert (l = succs) by congruence. subst. now rewrite <- app_assoc.
        -- apply get_set_eq.
      * apply String.eqb_neq in E. simpl. apply Hg.
        rewrite get_set_ne; auto.
    + intros v x Hv. rewrite pending_in_cons. simpl. rewrite andb_true_r.
      destruct (String.eqb (to_block c) v) eqn:E.
      * apply String.eqb_eq in E. subst v.
        rewrite (Hd (to_block c) (x0 + 1)%Z) by apply get_set_eq.
        assert (x = x0) by congruence. subst. f_equal. lia.
      * apply String.eqb_neq in E. rewrite (Hd v x).
        -- f_equal.
        -- rewrite get_set_ne; auto.
Qed.

Lemma build_graph_total conns : forall g d,
  (forall conn, In conn conns ->
     In (from_block conn) (PyDict.keys g) /\ In (to_block conn) (PyDict.keys d)) ->
  exists g' d', build_graph g d conns = Ok (g', d').
Proof.
  induction conns as [|c conns IH]; simpl; intros g d Hval.
  - eauto.
  - destruct (Hval c (or_introl eq_refl)) as [Hf Ht].
    unfold bind, PyDict.getitem.
    apply get_in_keys in Hf, Ht.
    destruct (PyDict.get g (from_block c)) as [succs|] eqn:G1; [|congruence].
    destruct (PyDict.get d (to_block c)) as [x0|] eqn:G2; [|congruence].
    apply IH. intros conn Hin.
    assert (In (from_block c) (PyDict.keys g)) by (apply get_in_keys; congruence).
    assert (In (to_block c) (PyDict.keys d)) by (apply get_in_keys; congruence).
    rewrite !keys_set_present by assumption. apply Hval. now right.
Qed.

Lemma build_graph_Raise conns : forall g d e,
  build_graph g d conns = Raise e -> exists k, e = KeyError k.
Proof.
  induction conns as [|c conns IH]; simpl; intros g d e H; [discriminate|].
  unfold bind, PyDict.getitem in H.
  destruct (PyDict.get g (from_block c)); [|inversion H; eauto].
  destruct (PyDict.get d (to_block c)); [|inversion H; eauto].
  eapply IH; eauto.
Qed.

Lemma relax_spec ns : forall indeg q,
  (forall n, In n ns -> In n (PyDict.keys indeg)) ->
  exists indeg' added,
    relax ns indeg q = Ok (indeg', q ++ added) /\
    PyDict.keys indeg' = PyDict.keys indeg /\
    (forall v d, PyDict.get indeg v = Some d ->
       PyDict.get indeg' v = Some (d - Z.of_nat (count_occ string_dec ns v))%Z) /\
    (forall v, In v added <->
       exists d, PyDict.get indeg v = Some d /\
                 (1 <= d <= Z.of_nat (count_occ string_dec ns v))%Z) /\
    NoDup added.
Proof.
  induction ns as [|n ns IH]; intros indeg q Hin.
  - exists indeg, []. simpl. rewrite app_nil_r. repeat split; auto.
    + intros v d H. rewrite H. f_equal. lia.
    + intros [].
    + intros (d & _ & H). lia.
    + constructor.
  - assert (Hn : In n (PyDict.keys indeg)) by (apply Hin; now left).
    pose proof Hn as Hn'. apply get_in_keys in Hn'.
    destruct (PyDict.get indeg n) as [d|] eqn:G; [clear Hn'|congruence].
    set (indeg1 := PyDict.set indeg n (d - 1)%Z).
    set (q1 := if (d - 1 =? 0)%Z then q ++ [n] else q).
    destruct (IH indeg1 q1) as (indeg' & added1 & R & K & Hget & Hadd & Hnd).
    { intros m Hm. unfold indeg1. rewrite keys_set_present by assumption.
      apply Hin. now right. }
    exists indeg', ((if (d - 1 =? 0)%Z then [n] else []) ++ added1).
    assert (Hget1 : forall v, PyDict.get indeg1 v =
                      if string_dec n v then Some (d - 1)%Z else PyDict.get indeg v).
    { intros v. unfold indeg1. destruct (string_dec n v) as [->|Hne].
      - apply get_set_eq.
      - now apply get_set_ne. }
    repeat split.
    + simpl. unfold bind, PyDict.getitem. rewrite G. fold indeg1. fold q1.
      rewrite R. f_equal. f_equal. unfold q1.
      destruct (d - 1 =? 0)%Z; simpl; auto. now rewrite <- app_assoc.
    + rewrite K. unfold indeg1. now apply keys_set_present.
    + intros v dv Hv. simpl. specialize (Hget1 v).
      destruct (string_dec n v) as [->|Hne].
      * rewrite (Hget v (d - 1)%Z Hget1). f_equal.
        assert (dv = d) by congruence. subst. lia.
      * rewrite (Hget v dv) by congruence. reflexivity.
    + intros Hv. apply in_app_or in Hv. simpl. specialize (Hget1 v).
      destruct Hv as [Hv|Hv].
      * destruct (Z.eqb_spec (d - 1) 0) as [E|E]; [|destruct Hv].
        destruct Hv as [<-|[]]. exists d. split; auto.
        destruct (string_dec n n); [lia|congruence].
      * apply Hadd in Hv. destruct Hv as (d1 & Hd1 & Hr).
        destruct (string_dec n v) as [->|Hne].
        -- exists d. split; auto. rewrite Hget1 in Hd1.
           assert (d1 = d - 1)%Z by congruence. lia.
        -- exists d1. split; [congruence|lia].
    + intros (dv & Hv & Hr). simpl in Hr. apply in_or_app.
      specialize (Hget1 v).
      destruct (string_dec n v) as [->|Hne].
      * assert (dv = d) by congruence. subst dv.
        destruct (Z.eqb_spec (d - 1) 0) as [E|E]; [left; now left|].
        right. apply Hadd. exists (d - 1)%Z. split; auto. lia.
      * right. apply Hadd. exists dv. split; [congruence|lia].
    + apply NoDup_app; auto.
      * destruct (d - 1 =? 0)%Z; repeat constructor. simpl. tauto.
      * intros x Hx Hx'. destruct (Z.eqb_spec (d - 1) 0) as [E|E]; [|destruct Hx].
        destruct Hx as [<-|[]]. apply Hadd in Hx'.
        destruct Hx' as (d1 & Hd1 & Hr). rewrite Hget1 in Hd1.
        destruct (string_dec n n); [|congruence].
        assert (d1 = d - 1)%Z by congruence. lia.
Qed.

Lemma pending_in_snoc conns done b v :
  ~ In b done ->
  (pending_in conns (done ++ [b]) v + count_occ string_dec (succs_of conns b) v
   = pending_in conns done v)%nat.
Proof.
  intros Hb. induction conns as [|c conns IH].
  - reflexivity.
  - rewrite !pending_in_cons, succs_of_cons, count_occ_app, mem_app.
    simpl (mem _ [b]). rewrite orb_false_r.
    destruct (String.eqb (from_block c) b) eqn:Eb.
    + apply String.eqb_eq in Eb. rewrite Eb.
      replace (mem b done) with false
        by (symmetry; apply not_true_iff_false; now rewrite mem_In).
      simpl.
      destruct (string_dec (to_block c) v) as [->|Hne].
      * rewrite String.eqb_refl. simpl. lia.
      * apply String.eqb_neq in Hne. rewrite Hne. simpl. lia.
    + rewrite orb_false_r. simpl. lia.
Qed.

Lemma pending_in_zero conns done v :
  pending_in conns done v = 0%nat ->
  forall conn, In conn conns -> to_block conn = v -> In (from_block conn) done.
Proof.
  unfold pending_in. intros H conn Hin Hto.
  apply length_zero_iff_nil in H.
  destruct (mem (from_block conn) done) eqn:M; [now apply mem_In|].
  assert (Hf : In conn
            (filter (fun c => String.eqb (to_block c) v
                              && negb (mem (from_block c) done)) conns)).
  { apply filter_In. split; auto. rewrite Hto, String.eqb_refl, M. reflexivity. }
  rewrite H in Hf. destruct Hf.
Qed.

Lemma pending_in_pos conns done v :
  pending_in conns done v <> 0%nat ->
  exists conn, In conn conns /\ to_block conn = v /\ ~ In (from_block conn) done.
Proof.
  unfold pending_in. intros H.
  destruct (filter (fun c => String.eqb (to_block c) v
                             && negb (mem (from_block c) done)) conns)
    as [|c l] eqn:F; [now simpl in H|].
  assert (Hc : In c (c :: l)) by now left.
  rewrite <- F in Hc. apply filter_In in Hc. destruct Hc as [Hin Hc].
  apply andb_true_iff in Hc. destruct Hc as [E M].
  apply String.eqb_eq in E. apply negb_true_iff in M.
  exists c. repeat split; auto. intros Hd. apply mem_In in Hd. congruence.
Qed.

Section KahnLoop.
Variable conns : list Connection.
Variable ids : list string.
Variable graph : dict (list string).
Hypothesis Hvalid : forall conn, In conn conns ->
  In (from_block conn) ids /\ In (to_block conn) ids.
Hypothesis Hgraph : forall u, In u ids ->
  PyDict.get graph u = Some (succs_of conns u).

Lemma succs_in_ids u n : In n (succs_of conns u) -> In n ids.
Proof.
  unfold succs_of. rewrite in_map_iff. intros (c & <- & Hc).
  apply filter_In in Hc. now apply Hvalid.
Qed.

Lemma kahn_step indeg b q res :
  kahn_inv conns ids indeg (b :: q) res ->
  exists indeg' added,
    relax (succs_of conns b) indeg q = Ok (indeg', q ++ added) /\
    kahn_inv conns ids indeg' (q ++ added) (res ++ [b]).
Proof.
  intros (K & G & ND & INC & Zr & T).
  assert (Hb_ids : In b ids) by (apply INC, in_or_app; right; now left).
  assert (Hb_res : ~ In b res).
  { apply NoDup_remove_2 in ND. intros H. apply ND, in_or_app. now left. }
  destruct (relax_spec (succs_of conns b) indeg q)
    as (indeg' & added & R & K' & Hget & Hadd & Hnd).
  { intros n Hn. rewrite K. eapply succs_in_ids; eauto. }
  exists indeg', added. split; [exact R|].
  assert (Hre : (res ++ [b]) ++ q ++ added = (res ++ b :: q) ++ added)
    by (rewrite <- !app_assoc; reflexivity).
  assert (Hadd_pos : forall x, In x added ->
            In x ids /\ pending_in conns res x <> 0%nat /\
            pending_in conns (res ++ [b]) x = 0%nat).
  { intros x Hx. apply Hadd in Hx. destruct Hx as (d & Hd & Hr).
    assert (Hx_ids : In x ids)
      by (rewrite <- K; apply get_in_keys; congruence).
    rewrite (G x Hx_ids) in Hd. inversion Hd; subst d.
    pose proof (@pending_in_snoc conns res b x Hb_res). repeat split; auto; lia. }
  unfold kahn_inv. rewrite Hre. repeat split.
  - congruence.
  - intros v Hv. rewrite (Hget v _ (G v Hv)). f_equal.
    pose proof (@pending_in_snoc conns res b v Hb_res). lia.
  - apply NoDup_app; auto.
    intros x Hx Hx'. apply Hadd_pos in Hx'. destruct Hx' as (Hi & Hp & _).
    apply Hp. now apply Zr.
  - intros x Hx. apply in_app_or in Hx. destruct Hx as [Hx|Hx].
    + now apply INC.
    + now apply Hadd_pos in Hx.
  - intros Hin. apply in_app_or in Hin. destruct Hin as [Hin|Hin].
    + apply Zr in Hin; auto.
      pose proof (@pending_in_snoc conns res b v Hb_res). lia.
    + now apply Hadd_pos in Hin.
  - intros Hp. pose proof (@pending_in_snoc conns res b v Hb_res) as Hs.
    apply in_or_app.
    destruct (Nat.eq_dec (pending_in conns res v) 0) as [E|E].
    + left. now apply Zr.
    + right. apply Hadd. exists (Z.of_nat (pending_in conns res v)).
      split; [now apply G | lia].
  - intros l1 v l2 c Heq Hin Hto.
    destruct (list_eq_dec string_dec l2 []) as [->|Hne].
    + apply app_inj_tail in Heq. destruct Heq as [<- <-].
      apply (@pending_in_zero conns res b); auto.
      apply Zr; auto. apply in_or_app. right. now left.
    + destruct (exists_last Hne) as (l2' & x & ->).
      change (l1 ++ v :: l2' ++ [x]) with (l1 ++ (v :: l2') ++ [x]) in Heq.
      rewrite app_assoc in Heq. apply app_inj_tail in Heq.
      destruct Heq as [Heq _]. eapply T; eauto.
Qed.

Lemma kahn_loop_spec fuel : forall indeg q res,
  kahn_inv conns ids indeg q res ->
  (List.length q + pos_count indeg <= fuel)%nat ->
  exists r indeg_f rest,
    kahn_loop fuel graph indeg q res = Some (Ok r) /\
    kahn_inv conns ids indeg_f [] r /\
    r = res ++ q ++ rest.
Proof.
  induction fuel as [|fuel IH]; intros indeg q res Hinv Hle.
  - destruct q as [|b q]; [|simpl in Hle; lia].
    exists res, indeg, []. simpl.
    split; [reflexivity | split; [assumption | now rewrite app_nil_r]].
  - destruct q as [|b q].
    + exists res, indeg, []. simpl.
      split; [reflexivity | split; [assumption | now rewrite app_nil_r]].
    + assert (Hb_ids : In b ids).
      { destruct Hinv as (_ & _ & _ & INC & _).
        apply INC, in_or_app. right. now left. }
      destruct (kahn_step Hinv) as (indeg' & added & R & Hinv').
      simpl. unfold PyDict.getitem. rewrite (Hgraph b Hb_ids), R.
      destruct (IH indeg' (q ++ added) (res ++ [b]) Hinv')
        as (r & indeg_f & rest & Hl & Hf & Hr).
      { apply relax_measure in R. simpl in Hle. lia. }
      exists r, indeg_f, (added ++ rest).
      split; [assumption | split; [assumption|]].
      rewrite Hr. rewrite <- !app_assoc. reflexivity.
Qed.
End KahnLoop.

(** ** Cycles *)

Lemma dup_or_NoDup (l : list string) :
  NoDup l \/ exists a l1 l2 l3, l = l1 ++ a :: l2 ++ a :: l3.
Proof.
  induction l as [|a l [IH|(x & l1 & l2 & l3 & ->)]].
  - left. constructor.
  - destruct (in_dec string_dec a l) as [Hin|Hout].
    + right. apply in_split in Hin. destruct Hin as (l2 & l3 & ->).
      now exists a, [], l2, l3.
    + left. now constructor.
  - right. now exists x, (a :: l1), l2, l3.
Qed.

Section Walks.
Variable conns : list Connection.

Lemma is_walk_app_r l1 : forall l2, is_walk conns (l1 ++ l2) -> is_walk conns l2.
Proof.
  induction l1 as [|a l1 IH]; intros l2 H; auto.
  apply IH. simpl in H. destruct (l1 ++ l2); [exact I | apply H].
Qed.

Lemma is_walk_app_l l1 : forall l2, is_walk conns (l1 ++ l2) -> is_walk conns l1.
Proof.
  induction l1 as [|a l1 IH]; intros l2 H; [exact I|].
  destruct l1 as [|b l1]; [exact I|].
  simpl in H. destruct H as [He Hw]. split; auto.
  apply (IH l2). exact Hw.
Qed.

Lemma is_walk_path l : forall x y,
  is_walk conns (x :: l ++ [y]) -> clos_trans string (edge conns) x y.
Proof.
  induction l as [|a l IH]; intros x y H.
  - apply t_step. simpl in H. tauto.
  - destruct H as [He Hw]. eapply t_trans.
    + apply t_step. exact He.
    + apply IH. exact Hw.
Qed.

(** A set of blocks inside a finite list in which every member has a
    predecessor in the set contains a cycle. *)
Lemma no_source_cycle (ids : list string) (P : string -> Prop) :
  (forall v, P v -> In v ids) ->
  (forall v, P v -> exists u, edge conns u v /\ P u) ->
  (exists v, P v) ->
  exists x, clos_trans string (edge conns) x x.
Proof.
  intros Hfin Hpred [v0 Hv0].
  assert (Hwalk : forall n, exists h l,
            List.length (h :: l) = S n /\ is_walk conns (h :: l) /\
            Forall P (h :: l)).
  { induction n as [|n (h & l & Hlen & Hw & HP)].
    - exists v0, []. repeat split; auto.
    - inversion HP as [|? ? Hh _]; subst.
      destruct (Hpred h Hh) as (u & Hu & HPu).
      exists u, (h :: l). repeat split; auto.
      simpl in *. lia. }
  destruct (Hwalk (List.length ids)) as (h & l & Hlen & Hw & HP).
  destruct (dup_or_NoDup (h :: l)) as [Hnd|(x & l1 & l2 & l3 & E)].
  - apply NoDup_incl_length with (l' := ids) in Hnd; [lia|].
    intros y Hy. apply Hfin. rewrite Forall_forall in HP. now apply HP.
  - exists x. rewrite E in Hw. apply is_walk_app_r in Hw.
    change (x :: l2 ++ x :: l3) with ((x :: l2) ++ [x] ++ l3) in Hw.
    rewrite app_assoc in Hw. apply is_walk_app_l in Hw.
    now apply is_walk_path with (l := l2).
Qed.

Lemma path_before (order : list string) :
  topologically_ordered conns order ->
  forall u v, clos_trans string (edge conns) u v ->
  forall l1 l2, order = l1 ++ v :: l2 -> In u l1.
Proof.
  intros T u v Hp. apply clos_trans_tn1 in Hp.
  induction Hp as [v (c & Hc & Hf & Ht) | y z (c & Hc & Hf & Ht) Hp IH];
    intros l1 l2 E.
  - rewrite <- Hf. eapply T; eauto.
  - assert (Hy : In y l1) by (rewrite <- Hf; eapply T; eauto).
    apply in_split in Hy. destruct Hy as (a & b & ->).
    rewrite <- app_assoc in E. simpl in E.
    apply in_or_app. left. eapply IH. exact E.
Qed.

Lemma path_target u v :
  clos_trans string (edge conns) u v ->
  exists conn, In conn conns /\ to_block conn = v.
Proof.
  intros Hp. apply clos_trans_tn1 in Hp.
  destruct Hp as [v (c & Hc & _ & Ht) | y z (c & Hc & _ & Ht) _]; eauto.
Qed.

Lemma ordered_no_cycle (order : list string) :
  NoDup order ->
  topologically_ordered conns order ->
  (forall conn, In conn conns -> In (to_block conn) order) ->
  forall v, ~ clos_trans string (edge conns) v v.
Proof.
  intros Hnd T Hall v Hp.
  destruct (path_target Hp) as (c & Hc & Ht).
  assert (Hv : In v order) by (rewrite <- Ht; auto).
  apply in_split in Hv. destruct Hv as (l1 & l2 & E).
  pose proof (path_before T Hp l1 l2 E) as Hin.
  rewrite E in Hnd. apply NoDup_remove_2 in Hnd.
  apply Hnd, in_or_app. now left.
Qed.
End Walks.

(** ** [_topological_sort] *)

Lemma keys_map_const (A B : Type) (c : B) (bs : dict A) :
  PyDict.keys (map (fun kv : string * A => (fst kv, c)) bs) = PyDict.keys bs.
Proof.
  unfold PyDict.keys. rewrite map_map. reflexivity.
Qed.

Lemma get_map_const (A B : Type) (c : B) (bs : dict A) v :
  In v (PyDict.keys bs) ->
  PyDict.get (map (fun kv : string * A => (fst kv, c)) bs) v = Some c.
Proof.
  induction bs as [|[k a] bs IH]; simpl; [tauto|].
  intros H. destruct (String.eqb k v) eqn:E; auto.
  apply String.eqb_neq in E. apply IH. tauto.
Qed.

Lemma NoDup_keys_In_get (A : Type) (d : dict A) k x :
  NoDup (PyDict.keys d) -> In (k, x) d -> PyDict.get d k = Some x.
Proof.
  induction d as [|[k0 x0] d IH]; simpl; [tauto|].
  intros Hnd Hin. inversion Hnd as [|? ? Hout Hnd']; subst.
  destruct Hin as [[= -> ->]|Hin].
  - now rewrite String.eqb_refl.
  - destruct (String.eqb k0 k) eqn:E; auto.
    apply String.eqb_eq in E. subst k0. exfalso. apply Hout.
    unfold PyDict.keys. apply in_map_iff. now exists (k, x).
Qed.

Lemma map_fst_filter (A : Type) (f : string * A -> bool) (g : string -> bool)
    (d : list (string * A)) :
  (forall kv, In kv d -> f kv = g (fst kv)) ->
  map fst (filter f d) = filter g (map fst d).
Proof.
  induction d as [|kv d IH]; simpl; intros H; auto.
  rewrite <- (H kv) by now left.
  destruct (f kv); simpl; rewrite IH; auto.
Qed.

Lemma filter_two_length (A : Type) (f g : A -> bool) (l : list A) :
  (forall x, f x = true -> g x = true -> False) ->
  (List.length (filter f l) + List.length (filter g l) <= List.length l)%nat.
Proof.
  intros H. induction l as [|x l IH]; simpl; auto.
  destruct (f x) eqn:Ef, (g x) eqn:Eg; simpl; try lia.
  exfalso. eauto.
Qed.

Lemma keys_length (A B : Type) (d : dict A) (d' : dict B) :
  PyDict.keys d = PyDict.keys d' -> List.length d = List.length d'.
Proof.
  intros H. apply (f_equal (@List.length string)) in H.
  unfold PyDict.keys in H. now rewrite !length_map in H.
Qed.

(** The loop of [_topological_sort] empties its queue within one
    iteration per block, whatever the workflow. *)
Lemma topological_sort_fuel_enough (w : Workflow) :
  topological_sort_fuel (PyDict.len (blocks w)) w <> None.
Proof.
  unfold topological_sort_fuel.
  destruct (build_graph _ _ (connections w)) as [[g d]|e] eqn:B; [|discriminate].
  apply build_graph_inv in B. destruct B as (_ & Kd & _).
  rewrite keys_map_const in Kd.
  match goal with
  | |- context [kahn_loop ?f ?g ?d ?q ?r] =>
      pose proof (@kahn_loop_fuel f g d q r) as Hk;
      destruct (kahn_loop f g d q r) as [[r'|e]|]
  end; try discriminate.
  - destruct (negb _); discriminate.
  - exfalso. apply Hk; auto.
    rewrite length_map. unfold pos_count, PyDict.items, PyDict.len.
    rewrite <- (keys_length _ _ Kd).
    apply filter_two_length. intros [k x]. simpl. lia.
Qed.

Lemma initial_kahn_inv (w : Workflow) g d :
  wf_workflow w ->
  build_graph (map (fun kv : string * Block => (fst kv, @nil string)) (blocks w))
              (map (fun kv : string * Block => (fst kv, 0%Z)) (blocks w))
              (connections w) = Ok (g, d) ->
  (forall u, In u (PyDict.keys (blocks w)) ->
     PyDict.get g u = Some (succs_of (connections w) u)) /\
  map fst (filter (fun kv : string * Z => (snd kv =? 0)%Z) (PyDict.items d))
    = initial_queue w /\
  kahn_inv (connections w) (PyDict.keys (blocks w)) d (initial_queue w) [].
Proof.
  intros [Hnd Hval] B. apply build_graph_inv in B.
  destruct B as (Kg & Kd & _ & Hg & Hd).
  rewrite keys_map_const in Kg, Kd.
  assert (Hget : forall v, In v (PyDict.keys (blocks w)) ->
            PyDict.get d v = Some (Z.of_nat (pending_in (connections w) [] v))).
  { intros v Hv. rewrite (Hd v 0%Z); [reflexivity|]. now apply get_map_const. }
  split; [|split].
  - intros u Hu. rewrite (Hg u []); [reflexivity|]. now apply get_map_const.
  - unfold initial_queue, PyDict.items. rewrite <- Kd. apply map_fst_filter.
    intros [k x] Hin. simpl.
    assert (Hk : In k (PyDict.keys (blocks w))).
    { rewrite <- Kd. unfold PyDict.keys. apply in_map_iff. now exists (k, x). }
    apply NoDup_keys_In_get in Hin; [|now rewrite Kd].
    rewrite (Hget k Hk) in Hin. inversion Hin.
    destruct (Nat.eqb_spec (pending_in (connections w) [] k) 0) as [E|E].
    + rewrite E. reflexivity.
    + apply Z.eqb_neq. lia.
  - unfold kahn_inv. simpl. repeat split; auto.
    + unfold initial_queue. now apply NoDup_filter.
    + unfold initial_queue. intros x Hx. apply filter_In in Hx. tauto.
    + unfold initial_queue. intros Hx. apply filter_In in Hx.
      now apply Nat.eqb_eq.
    + unfold initial_queue. intros Hx. apply filter_In. split; auto.
      now apply Nat.eqb_eq.
    + intros l1 v l2 c E. destruct l1; discriminate.
Qed.

Lemma topological_sort_run (w : Workflow) :
  wf_workflow w ->
  exists r indeg_f rest,
    _topological_sort w =
      Ok (if negb (List.length r =? PyDict.len (blocks w))%nat then [] else r) /\
    kahn_inv (connections w) (PyDict.keys (blocks w)) indeg_f [] r /\
    r = initial_queue w ++ rest.
Proof.
  intros Hwf. pose proof Hwf as [Hnd Hval].
  unfold _topological_sort, topological_sort_fuel.
  destruct (build_graph_total (connections w)
              (map (fun kv : string * Block => (fst kv, @nil string)) (blocks w))
              (map (fun kv : string * Block => (fst kv, 0%Z)) (blocks w)))
    as (g & d & B).
  { intros c Hc. rewrite !keys_map_const. now apply Hval. }
  rewrite B. destruct (initial_kahn_inv Hwf B) as (Hg & Hq & Hinv).
  rewrite Hq.
  destruct (@kahn_loop_spec (connections w) (PyDict.keys (blocks w)) g Hval Hg
              (PyDict.len (blocks w)) d (initial_queue w) [] Hinv)
    as (r & indeg_f & rest & Hl & Hf & Hr).
  { rewrite <- Hq, length_map. unfold pos_count, PyDict.items, PyDict.len.
    apply build_graph_inv in B. destruct B as (_ & Kd & _).
    rewrite keys_map_const in Kd. rewrite <- (keys_length _ _ Kd).
    apply filter_two_length. intros [k x]. simpl. lia. }
  exists r, indeg_f, rest. rewrite Hl. split; [|split]; auto.
  destruct (negb _); reflexivity.
Qed.

Lemma kahn_final_sound (w : Workflow) indeg_f r :
  wf_workflow w ->
  kahn_inv (connections w) (PyDict.keys (blocks w)) indeg_f [] r ->
  List.length r = PyDict.len (blocks w) ->
  NoDup r /\ Permutation r (PyDict.keys (blocks w)) /\
  topologically_ordered (connections w) r /\ is_dag w.
Proof.
  intros [Hnd Hval] (_ & _ & ND & INC & _ & T) Hlen.
  rewrite app_nil_r in ND, INC.
  assert (Hperm : Permutation r (PyDict.keys (blocks w))).
  { apply NoDup_Permutation_bis; auto.
    unfold PyDict.keys. rewrite length_map. unfold PyDict.len in Hlen. lia. }
  repeat split; auto.
  intros [v Hv]. revert Hv. apply ordered_no_cycle with (order := r); auto.
  intros c Hc. apply Permutation_in with (l := PyDict.keys (blocks w)).
  - now apply Permutation_sym.
  - now apply Hval.
Qed.

Lemma kahn_final_complete (w : Workflow) indeg_f r :
  wf_workflow w ->
  kahn_inv (connections w) (PyDict.keys (blocks w)) indeg_f [] r ->
  is_dag w ->
  List.length r = PyDict.len (blocks w).
Proof.
  intros [Hnd Hval] (_ & _ & ND & INC & Zr & _) Hdag.
  rewrite app_nil_r in ND, INC.
  assert (Hle : (List.length r <= List.length (PyDict.keys (blocks w)))%nat)
    by now apply NoDup_incl_length.
  unfold PyDict.len. unfold PyDict.keys in Hle. rewrite length_map in Hle.
  destruct (Nat.eq_dec (List.length r) (List.length (blocks w))) as [E|E]; auto.
  exfalso. apply Hdag.
  set (P := fun v => In v (PyDict.keys (blocks w)) /\ ~ In v r).
  destruct (@no_source_cycle (connections w) (PyDict.keys (blocks w)) P)
    as [x Hx].
  - intros v [Hv _]. exact Hv.
  - intros v [Hv Hnr].
    assert (Hp : pending_in (connections w) r v <> 0%nat).
    { intros Hz. apply Hnr. apply Zr in Hz; auto.
      now rewrite app_nil_r in Hz. }
    apply pending_in_pos in Hp. destruct Hp as (c & Hc & Ht & Hf).
    exists (from_block c). split.
    + now exists c.
    + split; auto. now apply Hval.
  - unfold P.
    { destruct (Forall_Exists_dec (fun v => In v r)
                  (fun v => in_dec string_dec v r) (PyDict.keys (blocks w)))
        as [Hall|Hex].
      - exfalso. rewrite Forall_forall in Hall.
        assert (Hge : (List.length (PyDict.keys (blocks w)) <= List.length r)%nat)
          by (apply NoDup_incl_length; auto).
        unfold PyDict.keys in Hge. rewrite length_map in Hge. lia.
      - apply Exists_exists in Hex. exact Hex. }
  - now exists x.
Qed.

Lemma topological_sort_dag (w : Workflow) :
  wf_workflow w -> is_dag w ->
  exists order,
    _topological_sort w = Ok order /\
    NoDup order /\
    Permutation order (PyDict.keys (blocks w)) /\
    topologically_ordered (connections w) order /\
    exists rest, order = initial_queue w ++ rest.
Proof.
  intros Hwf Hdag.
  destruct (topological_sort_run Hwf) as (r & indeg_f & rest & Hts & Hinv & Hr).
  pose proof (kahn_final_complete Hwf Hinv Hdag) as Hlen.
  destruct (kahn_final_sound Hwf Hinv Hlen) as (ND & Hperm & T & _).
  exists r. rewrite Hts, Hlen, Nat.eqb_refl. simpl.
  repeat split; auto. now exists rest.
Qed.

Lemma topological_sort_cycle (w : Workflow) :
  wf_workflow w -> has_cycle w -> _topological_sort w = Ok [].
Proof.
  intros Hwf Hcyc.
  destruct (topological_sort_run Hwf) as (r & indeg_f & rest & Hts & Hinv & Hr).
  rewrite Hts.
  destruct (Nat.eqb_spec (List.length r) (PyDict.len (blocks w))) as [E|E];
    [|reflexivity].
  exfalso. now destruct (kahn_final_sound Hwf Hinv E) as (_ & _ & _ & Hdag).
Qed.

(** A complete order is returned only for acyclic workflows. *)
Lemma topological_sort_complete_dag (w : Workflow) order :
  wf_workflow w -> _topological_sort w = Ok order ->
  List.length order = PyDict.len (blocks w) -> is_dag w.
Proof.
  intros Hwf Hts Hlen.
  destruct (topological_sort_run Hwf) as (r & indeg_f & rest & Hts' & Hinv & Hr).
  rewrite Hts in Hts'. inversion Hts' as [Ho]. clear Hts'.
  destruct (Nat.eqb_spec (List.length r) (PyDict.len (blocks w))) as [E|E].
  - now destruct (kahn_final_sound Hwf Hinv E) as (_ & _ & _ & Hdag).
  - simpl in Ho. subst order. simpl in Hlen.
    destruct Hinv as (_ & _ & ND & INC & _).
    rewrite app_nil_r in ND, INC.
    apply NoDup_incl_length in INC; auto.
    unfold PyDict.keys in INC. rewrite length_map in INC.
    unfold PyDict.len in *. lia.
Qed.

(** ** [WorkflowEngine.execute] *)

Section EngineFacts.
Variable block_execute : Block -> result (dict PyValue).

Lemma bind_inputs_app res pre post bid blk :
  bind_inputs res (pre ++ post) bid blk =
  bind_inputs res post bid (bind_inputs res pre bid blk).
Proof. unfold bind_inputs. apply fold_left_app. Qed.

Lemma bind_inputs_untouched res conns bid port : forall blk,
  (forall conn, In conn conns ->
     to_block conn = bid -> to_input conn <> port) ->
  PyDict.get (inputs (bind_inputs res conns bid blk)) port =
  PyDict.get (inputs blk) port.
Proof.
  induction conns as [|c conns IH]; intros blk H; [reflexivity|].
  change (bind_inputs res (c :: conns) bid blk)
    with (bind_inputs res conns bid (bind_inputs res [c] bid blk)).
  rewrite IH by (intros; apply H; auto; now right).
  unfold bind_inputs. simpl.
  destruct (String.eqb (to_block c) bid) eqn:E; [|reflexivity].
  apply String.eqb_eq in E. simpl.
  apply get_set_ne. apply H; auto. now left.
Qed.

Lemma bind_inputs_fields res conns bid : forall blk,
  block_type (bind_inputs res conns bid blk) = block_type blk /\
  parameters (bind_inputs res conns bid blk) = parameters blk /\
  block_id (bind_inputs res conns bid blk) = block_id blk.
Proof.
  induction conns as [|c conns IH]; intros blk; [now simpl|].
  change (bind_inputs res (c :: conns) bid blk)
    with (bind_inputs res conns bid (bind_inputs res [c] bid blk)).
  destruct (IH (bind_inputs res [c] bid blk)) as (H1 & H2 & H3).
  rewrite H1, H2, H3. unfold bind_inputs. simpl.
  destruct (String.eqb (to_block c) bid); now simpl.
Qed.

(** What one call of [_execute_block] leaves behind. *)
Lemma execute_block_step eng bid blk :
  PyDict.get (blocks (workflow eng)) bid = Some blk ->
  let bound := bind_inputs (results eng) (connections (workflow eng)) bid blk in
  let eng' := fst (_execute_block block_execute eng bid) in
  invoked eng' = invoked eng ++ [bid] /\
  connections (workflow eng') = connections (workflow eng) /\
  name (workflow eng') = name (workflow eng) /\
  blocks (workflow eng') = PyDict.set (blocks (workflow eng)) bid bound /\
  exists entry,
    execution_log eng' = execution_log eng ++ [entry] /\
    log_block_id entry = bid /\
    log_block_type entry = BlockType_value (block_type blk) /\
    match block_execute bound with
    | Ok r =>
        snd (_execute_block block_execute eng bid) = Ok tt /\
        results eng' = PyDict.set (results eng) bid r /\
        log_status entry = "success" /\
        log_result_keys entry = Some (PyDict.keys r)
    | Raise e =>
        snd (_execute_block block_execute eng bid) = Raise e /\
        results eng' = results eng /\
        log_status entry = "error" /\
        log_error entry = Some (exn_str e)
    end.
Proof.
  intros Hget. unfold _execute_block. rewrite Hget.
  destruct (bind_inputs_fields (results eng) (connections (workflow eng)) bid blk)
    as (Ht & _ & _).
  destruct (block_execute _) as [r|e] eqn:E; simpl;
    repeat split; auto; eexists; repeat split; simpl; rewrite ?E, ?Ht;
    repeat split; reflexivity.
Qed.

Lemma execute_block_missing eng bid :
  PyDict.get (blocks (workflow eng)) bid = None ->
  _execute_block block_execute eng bid = (eng, Raise (KeyError bid)).
Proof. intros H. unfold _execute_block. now rewrite H. Qed.

Lemma run_blocks_app pre : forall eng post,
  run_blocks block_execute eng (pre ++ post) =
  match run_blocks block_execute eng pre with
  | (eng1, Ok _) => run_blocks block_execute eng1 post
  | (eng1, Raise e) => (eng1, Raise e)
  end.
Proof.
  induction pre as [|b pre IH]; intros eng post; simpl; [reflexivity|].
  destruct (_execute_block block_execute eng b) as [eng1 [u|e]]; auto.
Qed.

(** A successful run of the loop logs one success entry per block, in
    order, and invokes exactly those blocks. *)
Lemma run_blocks_ok order : forall eng eng',
  run_blocks block_execute eng order = (eng', Ok tt) ->
  invoked eng' = invoked eng ++ order /\
  connections (workflow eng') = connections (workflow eng) /\
  PyDict.keys (blocks (workflow eng')) = PyDict.keys (blocks (workflow eng)) /\
  exists entries,
    execution_log eng' = execution_log eng ++ entries /\
    map log_block_id entries = order /\
    Forall (fun en => log_status en = "success") entries.
Proof.
  induction order as [|b order IH]; intros eng eng' H; simpl in H.
  - inversion H; subst. rewrite app_nil_r. repeat split; auto.
    exists []. rewrite app_nil_r. repeat split; auto.
  - destruct (PyDict.get (blocks (workflow eng)) b) as [blk|] eqn:G.
    + pose proof (execute_block_step eng b G) as S. cbv zeta in S.
      destruct (_execute_block block_execute eng b) as [eng1 [u|e]];
        [|discriminate].
      simpl in S. destruct S as (Si & Sc & _ & Sb & entry & Sl & Sid & _ & Sr).
      destruct (block_execute _) as [r|e]; [|destruct Sr; discriminate].
      destruct Sr as (_ & _ & Sst & _).
      apply IH in H. destruct H as (Hi & Hc & Hk & entries & Hl & Hm & Hf).
      rewrite Hi, Si, Hc, Sc, Hk, Sb, <- app_assoc. repeat split; auto.
      * apply keys_set_present. apply get_in_keys. congruence.
      * exists (entry :: entries). rewrite Hl, Sl, <- app_assoc.
        repeat split; auto. simpl. congruence.
    + rewrite execute_block_missing in H by assumption. discriminate.
Qed.

Lemma run_blocks_invoked_prefix order : forall eng,
  exists k, invoked (fst (run_blocks block_execute eng order))
            = invoked eng ++ firstn k order.
Proof.
  induction order as [|b order IH]; intros eng; simpl.
  - exists 0%nat. now rewrite app_nil_r.
  - destruct (PyDict.get (blocks (workflow eng)) b) as [blk|] eqn:G.
    + pose proof (execute_block_step eng b G) as S. cbv zeta in S.
      destruct S as (Si & _).
      destruct (_execute_block block_execute eng b) as [eng1 [u|e]];
        simpl in Si.
      * destruct (IH eng1) as [k Hk]. exists (S k).
        rewrite Hk, Si, <- app_assoc. reflexivity.
      * exists 1%nat. simpl. rewrite Si. reflexivity.
    + rewrite execute_block_missing by assumption.
      exists 0%nat. simpl. now rewrite app_nil_r.
Qed.
End EngineFacts.

Lemma topological_sort_NoDup (w : Workflow) order :
  wf_workflow w -> _topological_sort w = Ok order -> NoDup order.
Proof.
  intros Hwf Hts.
  destruct (topological_sort_run Hwf) as (r & indeg_f & rest & Hts' & Hinv & _).
  rewrite Hts in Hts'. inversion Hts' as [Ho].
  destruct (negb _); [constructor|].
  destruct Hinv as (_ & _ & ND & _). now rewrite app_nil_r in ND.
Qed.

(** C2.  If the blocks before [B] in the execution order run successfully
    and [B.execute()] raises [e], the report has status error and carries
    [str(e)]; its log holds one success entry per block before [B], then
    an error entry for [B] with the message, and nothing for later blocks,
    none of which is invoked. *)
Theorem fail_fast (block_execute : Block -> result (dict PyValue))
    (eng eng1 : WorkflowEngine) (order pre post : list string) (B : string)
    (blk : Block) (e : exn) :
  wf_workflow (workflow eng) ->
  _topological_sort (workflow eng) = Ok order ->
  order = pre ++ B :: post ->
  run_blocks block_execute (reset_engine eng) pre = (eng1, Ok tt) ->
  PyDict.get (blocks (workflow eng1)) B = Some blk ->
  block_execute
    (bind_inputs (results eng1) (connections (workflow eng1)) B blk) = Raise e ->
  exists eng' rep log_pre entry,
    execute block_execute eng = (eng', Ok rep) /\
    status rep = "error" /\
    message rep = Some (exn_str e) /\
    report_log rep = Some (log_pre ++ [entry]) /\
    map log_block_id log_pre = pre /\
    Forall (fun en => log_status en = "success") log_pre /\
    log_block_id entry = B /\
    log_status entry = "error" /\
    log_error entry = Some (exn_str e) /\
    invoked eng' = pre ++ [B] /\
    (forall x, In x post ->
       ~ In x (map log_block_id (log_pre ++ [entry])) /\ ~ In x (invoked eng')).
Proof.
  intros Hwf Hts Ho Hpre Hget Hraise.
  pose proof (topological_sort_NoDup Hwf Hts) as ND.
  apply run_blocks_ok in Hpre as Hok.
  destruct Hok as (Hi & _ & _ & log_pre & Hl & Hm & Hf).
  simpl in Hi, Hl.
  pose proof (execute_block_step block_execute eng1 B Hget) as S.
  cbv zeta in S. rewrite Hraise in S.
  destruct S as (Si & _ & _ & _ & entry & Sl & Sid & _ & Sr & _ & Sst & Serr).
  assert (Hrun : run_blocks block_execute (reset_engine eng) order =
                 (fst (_execute_block block_execute eng1 B), Raise e)).
  { rewrite Ho, run_blocks_app, Hpre. simpl.
    destruct (_execute_block block_execute eng1 B) as [eng2 r].
    simpl in Sr. now subst r. }
  exists (fst (_execute_block block_execute eng1 B)).
  eexists. exists log_pre, entry.
  assert (Hpost : forall x, In x post -> ~ In x (pre ++ [B])).
  { intros x Hx Hx'. rewrite Ho in ND.
    apply in_app_or in Hx'. destruct Hx' as [Hx'|[<-|[]]].
    - apply in_split in Hx'. destruct Hx' as (l1 & l2 & ->).
      rewrite <- app_assoc in ND. simpl in ND.
      apply NoDup_remove_2 in ND. apply ND, in_or_app. right.
      apply in_or_app. right. now right.
    - apply NoDup_remove_2 in ND. apply ND, in_or_app. now right. }
  split; [|repeat split].
  - unfold execute. cbv zeta.
    change (workflow (reset_engine eng)) with (workflow eng). rewrite Hts.
    destruct order as [|b0 order0]; [destruct pre; discriminate|].
    rewrite Hrun. reflexivity.
  - reflexivity.
  - reflexivity.
  - simpl. rewrite Sl, Hl. reflexivity.
  - exact Hm.
  - exact Hf.
  - exact Sid.
  - exact Sst.
  - exact Serr.
  - rewrite Si, Hi. reflexivity.
  - rewrite map_app, Hm. simpl. rewrite Sid. now apply Hpost.
  - rewrite Si, Hi. now apply Hpost.
Qed.

(** C10.  When the producer of a connection into [bid] has no stored
    result, or its result has no entry for the named output, the engine
    binds [None] to the target port at that connection (and the port still
    holds [None] at execution unless a later connection rebinds it); the
    block is invoked all the same and [_execute_block] fails exactly when
    the block's own [execute()] raises. *)
Theorem missing_input_is_none (block_execute : Block -> result (dict PyValue))
    (eng : WorkflowEngine) (bid : string) (blk : Block)
    (pre post : list Connection) (conn : Connection) :
  PyDict.get (blocks (workflow eng)) bid = Some blk ->
  connections (workflow eng) = pre ++ conn :: post ->
  to_block conn = bid ->
  (PyDict.get (results eng) (from_block conn) = None \/
   exists r, PyDict.get (results eng) (from_block conn) = Some r /\
             PyDict.get r (from_output conn) = None) ->
  let bound := bind_inputs (results eng) (connections (workflow eng)) bid blk in
  bound = bind_inputs (results eng) post bid
            (set_input (bind_inputs (results eng) pre bid blk)
                       (to_input conn) VNone) /\
  ((forall c, In c post -> to_block c = bid -> to_input c <> to_input conn) ->
   PyDict.get (inputs bound) (to_input conn) = Some VNone) /\
  invoked (fst (_execute_block block_execute eng bid)) = invoked eng ++ [bid] /\
  snd (_execute_block block_execute eng bid) =
    match block_execute bound with
    | Ok _ => Ok tt
    | Raise e => Raise e
    end.
Proof.
  intros Hget Hc Hto Hmiss bound.
  assert (Hb : bound = bind_inputs (results eng) post bid
            (set_input (bind_inputs (results eng) pre bid blk)
                       (to_input conn) VNone)).
  { unfold bound. rewrite Hc, bind_inputs_app.
    change (conn :: post) with ([conn] ++ post). rewrite bind_inputs_app.
    f_equal. unfold bind_inputs at 1. simpl.
    rewrite Hto, String.eqb_refl.
    destruct Hmiss as [Hn|(r & Hr & Hn)].
    - rewrite Hn. reflexivity.
    - rewrite Hr, Hn. reflexivity. }
  split; [exact Hb|]. split; [|split].
  - intros Hlast. rewrite Hb, bind_inputs_untouched by assumption.
    simpl. apply get_set_eq.
  - now destruct (execute_block_step block_execute eng bid Hget) as (Si & _).
  - destruct (execute_block_step block_execute eng bid Hget)
      as (_ & _ & _ & _ & entry & _ & _ & _ & Sr).
    fold bound in Sr. destruct (block_execute bound); tauto.
Qed.

Lemma fail_fast_witness :
  exists eng' rep log_pre entry,
    execute sample_execute (WorkflowEngine_init sample_chain) = (eng', Ok rep) /\
    status rep = "error" /\
    message rep = Some "'group_column'" /\
    report_log rep = Some (log_pre ++ [entry]) /\
    map log_block_id log_pre = ["load"] /\
    log_block_id entry = "test" /\
    log_status entry = "error" /\
    invoked eng' = ["load"; "test"] /\
    ~ In "filter" (invoked eng').
Proof.
  destruct (@fail_fast sample_execute (WorkflowEngine_init sample_chain)
              (fst (run_blocks sample_execute
                      (reset_engine (WorkflowEngine_init sample_chain)) ["load"]))
              ["load"; "test"; "filter"] ["load"] ["filter"] "test"
              (Block_init "test" T_TEST) (KeyError "group_column"))
    as (eng' & rep & log_pre & entry & H1 & H2 & H3 & H4 & H5 & H6 & H7 & H8
        & H9 & H10 & H11).
  - split.
    + repeat constructor; simpl; intuition discriminate.
    + intros c [<-|[<-|[<-|[]]]]; simpl; tauto.
  - reflexivity.
  - reflexivity.
  - reflexivity.
  - reflexivity.
  - reflexivity.
  - exists eng', rep, log_pre, entry. repeat split; auto.
    apply H11. now left.
Defined.

Lemma missing_input_is_none_witness :
  PyDict.get
    (inputs (bind_inputs [("load", [("data", VInt 1)])]
               (connections sample_chain) "filter"
               (Block_init "filter" FILTER_ROWS))) "meta" = Some VNone /\
  PyDict.get
    (inputs (bind_inputs [("load", [("data", VInt 1)])]
               (connections sample_chain) "filter"
               (Block_init "filter" FILTER_ROWS))) "data" = Some VNone /\
  invoked (fst (_execute_block sample_execute
             {| workflow := sample_chain; execution_log := [];
                results := [("load", [("data", VInt 1)])]; invoked := [] |}
             "filter")) = ["filter"].
Proof.
  set (eng := {| workflow := sample_chain; execution_log := [];
                 results := [("load", [("data", VInt 1)])]; invoked := [] |}).
  (* the producer "load" has a result without the port "metadata" *)
  destruct (@missing_input_is_none sample_execute eng "filter"
              (Block_init "filter" FILTER_ROWS)
              [mk_conn "load" "data" "test" "data";
               mk_conn "test" "result" "filter" "data"]
              [] (mk_conn "load" "metadata" "filter" "meta"))
    as (_ & Hmeta & Hinv & _).
  - reflexivity.
  - reflexivity.
  - reflexivity.
  - right. exists [("data", VInt 1)]. split; reflexivity.
  - (* the producer "test" has no stored result *)
    destruct (@missing_input_is_none sample_execute eng "filter"
                (Block_init "filter" FILTER_ROWS)
                [mk_conn "load" "data" "test" "data"]
                [mk_conn "load" "metadata" "filter" "meta"]
                (mk_conn "test" "result" "filter" "data"))
      as (_ & Hdata & _).
    + reflexivity.
    + reflexivity.
    + reflexivity.
    + left. reflexivity.
    + split; [|split].
      * apply Hmeta. intros c [].
      * apply Hdata. intros c [<-|[]] _. simpl. discriminate.
      * exact Hinv.
Defined.

(** ** Workflow mutation *)

Lemma in_set_inv (V : Type) (d : dict V) k v kv :
  In kv (PyDict.set d k v) -> kv = (k, v) \/ In kv d.
Proof.
  induction d as [|[k0 v0] d IH]; simpl.
  - intros [<-|[]]. now left.
  - destruct (String.eqb k0 k) eqn:E; simpl.
    + apply String.eqb_eq in E. subst k0. intros [<-|H]; auto.
    + intros [<-|H]; auto. apply IH in H. tauto.
Qed.

Lemma in_del_inv (V : Type) (d : dict V) k kv :
  In kv (PyDict.del d k) -> In kv d.
Proof.
  induction d as [|[k0 v0] d IH]; simpl; auto.
  destruct (String.eqb k0 k); simpl; intuition auto.
Qed.

Lemma get_Some_In (V : Type) (d : dict V) k v :
  PyDict.get d k = Some v -> In (k, v) d.
Proof.
  induction d as [|[k0 v0] d IH]; simpl; [discriminate|].
  destruct (String.eqb k0 k) eqn:E.
  - apply String.eqb_eq in E. subst k0. intros [= ->]. now left.
  - intros H. right. now apply IH.
Qed.

Lemma remove_block_wf w bid :
  wf_workflow w ->
  wf_workflow (remove_block w bid) /\
  ~ In bid (PyDict.keys (blocks (remove_block w bid))) /\
  (In bid (PyDict.keys (blocks w)) ->
   connections (remove_block w bid) =
   filter (fun conn => negb (String.eqb (from_block conn) bid)
                       && negb (String.eqb (to_block conn) bid))
          (connections w)).
Proof.
  intros [Hnd Hval]. unfold remove_block.
  destruct (PyDict.contains (blocks w) bid) eqn:C.
  - simpl. split; [split|split]; simpl.
    + rewrite keys_del by assumption. now apply NoDup_filter.
    + intros c Hc. simpl in Hc. apply filter_In in Hc. destruct Hc as [Hc Hb].
      apply andb_true_iff in Hb. destruct Hb as [Hf Ht]. simpl.
      rewrite keys_del by assumption. destruct (Hval c Hc) as [H1 H2].
      split; apply filter_In; auto.
    + rewrite keys_del by assumption. intros H. apply filter_In in H.
      destruct H as [_ H]. now rewrite String.eqb_refl in H.
    + reflexivity.
  - split; [now split|]. split.
    + intros H. apply contains_in_keys in H. congruence.
    + intros H. apply contains_in_keys in H. congruence.
Qed.

Lemma add_block_wf uuid8 w bt bid w' bid' :
  wf_workflow w -> add_block uuid8 w bt bid = Ok (w', bid') -> wf_workflow w'.
Proof.
  intros [Hnd Hval] H. unfold add_block, bind, create_block in H.
  destruct (registered bt); [|discriminate]. inversion H; subst. clear H.
  split; simpl.
  - now apply NoDup_keys_set.
  - intros c Hc. simpl in Hc. destruct (Hval c Hc).
    split; apply in_keys_set; now right.
Qed.

Lemma connect_wf w fb fo tb ti :
  wf_workflow w ->
  match connect w fb fo tb ti with
  | Ok w' => wf_workflow w' /\
             In fb (PyDict.keys (blocks w)) /\ In tb (PyDict.keys (blocks w))
  | Raise e => e = ValueError "Block not found in workflow" /\
               ~ (In fb (PyDict.keys (blocks w)) /\ In tb (PyDict.keys (blocks w)))
  end.
Proof.
  intros [Hnd Hval]. unfold connect.
  destruct (PyDict.contains (blocks w) fb) eqn:C1;
    destruct (PyDict.contains (blocks w) tb) eqn:C2; simpl;
    try (split; [reflexivity|]; intros [H1 H2];
         apply contains_in_keys in H1, H2; congruence).
  apply contains_in_keys in C1, C2. split; [split|split]; auto.
  intros c Hc. simpl in Hc. apply in_app_or in Hc.
  destruct Hc as [Hc|[<-|[]]]; simpl; auto.
Qed.

Lemma disconnect_wf w fb tb : wf_workflow w -> wf_workflow (disconnect w fb tb).
Proof.
  intros [Hnd Hval]. split; simpl; auto.
  intros c Hc. simpl in Hc. apply filter_In in Hc. now apply Hval.
Qed.

Lemma set_block_parameter_wf w bid pname value :
  wf_workflow w -> wf_workflow (set_block_parameter w bid pname value).
Proof.
  intros [Hnd Hval]. unfold set_block_parameter.
  destruct (PyDict.get (blocks w) bid) as [b|] eqn:G; [|now split].
  assert (Hin : In bid (PyDict.keys (blocks w)))
    by (apply get_in_keys; congruence).
  split; simpl.
  - now rewrite keys_set_present.
  - intros c Hc. simpl in Hc |- *. rewrite keys_set_present by assumption.
    now apply Hval.
Qed.

Lemma reachable_wf w : reachable w -> wf_workflow w /\ registered_blocks w.
Proof.
  induction 1 as [nm | w uuid8 bt bid w' bid' _ [IH IR] Hadd
                  | w bid _ [IH IR] | w fb fo tb ti w' _ [IH IR] Hc
                  | w fb tb _ [IH IR] | w bid pname value _ [IH IR]].
  - split; [split|]; simpl.
    + constructor.
    + intros c [].
    + intros bid b [].
  - split; [eapply add_block_wf; eauto|].
    unfold add_block, bind, create_block in Hadd.
    destruct (registered bt) eqn:R; [|discriminate]. inversion Hadd; subst.
    intros k b Hin. simpl in Hin. apply in_set_inv in Hin.
    destruct Hin as [[= -> ->]|Hin]; [|now apply (IR k)].
    simpl. split; [assumption|constructor].
  - split; [now apply remove_block_wf|].
    unfold remove_block. destruct (PyDict.contains (blocks w) bid); auto.
    intros k b Hin. simpl in Hin. apply in_del_inv in Hin. now apply (IR k).
  - pose proof (connect_wf fb fo tb ti IH) as Hw. rewrite Hc in Hw.
    split; [tauto|]. unfold connect in Hc.
    destruct (_ || _); [discriminate|]. inversion Hc; subst. exact IR.
  - split; [now apply disconnect_wf|exact IR].
  - split; [now apply set_block_parameter_wf|].
    unfold set_block_parameter.
    destruct (PyDict.get (blocks w) bid) as [b0|] eqn:G; auto.
    intros k b Hin. simpl in Hin. apply in_set_inv in Hin.
    destruct Hin as [[= -> ->]|Hin]; [|now apply (IR k)].
    apply get_Some_In in G. destruct (IR _ _ G) as [R ND].
    simpl. split; auto. now apply NoDup_keys_set.
Qed.

(** C9.  On a workflow whose connections all reference its blocks,
    [remove_block] deletes the block together with every connection that
    starts or ends at it, [connect] rejects an endpoint that is not a
    block, and [remove_block], [add_block], [connect], [disconnect] and
    [set_block_parameter] all return a workflow whose connections again
    reference its blocks. *)
Theorem connections_stay_valid (w : Workflow) :
  wf_workflow w ->
  (forall bid,
     wf_workflow (remove_block w bid) /\
     ~ In bid (PyDict.keys (blocks (remove_block w bid))) /\
     (In bid (PyDict.keys (blocks w)) ->
      forall conn, In conn (connections w) ->
        (In conn (connections (remove_block w bid)) <->
         from_block conn <> bid /\ to_block conn <> bid))) /\
  (forall uuid8 bt bid w' bid',
     add_block uuid8 w bt bid = Ok (w', bid') -> wf_workflow w') /\
  (forall fb fo tb ti,
     match connect w fb fo tb ti with
     | Ok w' => wf_workflow w' /\
                In fb (PyDict.keys (blocks w)) /\ In tb (PyDict.keys (blocks w))
     | Raise e => e = ValueError "Block not found in workflow" /\
                  ~ (In fb (PyDict.keys (blocks w)) /\
                     In tb (PyDict.keys (blocks w)))
     end) /\
  (forall fb tb, wf_workflow (disconnect w fb tb)) /\
  (forall bid pname value, wf_workflow (set_block_parameter w bid pname value)).
Proof.
  intros Hwf. split; [|split; [|split; [|split]]].
  - intros bid. destruct (remove_block_wf bid Hwf) as (H1 & H2 & H3).
    split; [exact H1|]. split; [exact H2|].
    intros Hin conn Hc.
    rewrite (H3 Hin), filter_In, andb_true_iff, !negb_true_iff, !String.eqb_neq.
    tauto.
  - intros. eapply add_block_wf; eauto.
  - intros. now apply connect_wf.
  - intros. now apply disconnect_wf.
  - intros. now apply set_block_parameter_wf.
Qed.

Lemma connections_stay_valid_witness :
  wf_workflow (remove_block sample_chain "test") /\
  connections (remove_block sample_chain "test")
    = [mk_conn "load" "metadata" "filter" "meta"] /\
  ~ In "test" (PyDict.keys (blocks (remove_block sample_chain "test"))) /\
  wf_workflow (disconnect sample_chain "load" "test").
Proof.
  assert (Hwf : wf_workflow sample_chain).
  { split.
    - repeat constructor; simpl; intuition discriminate.
    - intros c [<-|[<-|[<-|[]]]]; simpl; tauto. }
  destruct (connections_stay_valid Hwf) as (Hrm & _ & _ & Hdis & _).
  destruct (Hrm "test") as (H1 & H2 & _).
  split; [exact H1|]. split; [reflexivity|]. split; [exact H2|].
  apply Hdis.
Defined.

(** ** Serialisation *)

Lemma BlockType_roundtrip bt : BlockType_of_value (BlockType_value bt) = Ok bt.
Proof. destruct bt; reflexivity. Qed.

Lemma set_absent (V : Type) (d : dict V) k v :
  ~ In k (PyDict.keys d) -> PyDict.set d k v = d ++ [(k, v)].
Proof.
  induction d as [|[k0 v0] d IH]; simpl; auto.
  intros H. destruct (String.eqb k0 k) eqn:E.
  - apply String.eqb_eq in E. tauto.
  - f_equal. apply IH. tauto.
Qed.

Lemma set_app_last (V : Type) (d : dict V) k a b :
  ~ In k (PyDict.keys d) -> PyDict.set (d ++ [(k, a)]) k b = d ++ [(k, b)].
Proof.
  induction d as [|[k0 v0] d IH]; simpl.
  - now rewrite String.eqb_refl.
  - intros H. destruct (String.eqb k0 k) eqn:E.
    + apply String.eqb_eq in E. tauto.
    + f_equal. apply IH. tauto.
Qed.

Lemma get_app_last (V : Type) (d : dict V) k a :
  ~ In k (PyDict.keys d) -> PyDict.get (d ++ [(k, a)]) k = Some a.
Proof.
  induction d as [|[k0 v0] d IH]; simpl.
  - now rewrite String.eqb_refl.
  - intros H. destruct (String.eqb k0 k) eqn:E.
    + apply String.eqb_eq in E. tauto.
    + apply IH. tauto.
Qed.

Lemma set_set (V : Type) (d : dict V) k a b :
  PyDict.set (PyDict.set d k a) k b = PyDict.set d k b.
Proof.
  induction d as [|[k0 v0] d IH]; simpl.
  - now rewrite String.eqb_refl.
  - destruct (String.eqb k0 k) eqn:E; simpl; rewrite E; congruence.
Qed.

Lemma set_get_id (V : Type) (d : dict V) k v :
  PyDict.get d k = Some v -> PyDict.set d k v = d.
Proof.
  induction d as [|[k0 v0] d IH]; simpl; [discriminate|].
  destruct (String.eqb k0 k) eqn:E.
  - intros [= ->]. reflexivity.
  - intros H. f_equal. now apply IH.
Qed.

Lemma fold_set_items (V : Type) (ps : list (string * V)) : forall acc,
  NoDup (PyDict.keys acc ++ PyDict.keys ps) ->
  fold_left (fun d kv => PyDict.set d (fst kv) (snd kv)) ps acc = acc ++ ps.
Proof.
  induction ps as [|[k v] ps IH]; intros acc Hnd; simpl.
  - now rewrite app_nil_r.
  - simpl in Hnd. rewrite set_absent.
    + rewrite IH.
      * now rewrite <- app_assoc.
      * unfold PyDict.keys in *. rewrite map_app, <- app_assoc. exact Hnd.
    + apply NoDup_remove_2 in Hnd. intros H. apply Hnd, in_or_app. now left.
Qed.

Lemma from_dict_params_spec bid ps : forall w b,
  PyDict.get (blocks w) bid = Some b ->
  from_dict_params w bid ps =
  {| name := name w;
     blocks := PyDict.set (blocks w) bid
       {| block_id := block_id b; block_type := block_type b;
          parameters := fold_left (fun d kv => PyDict.set d (fst kv) (snd kv))
                          ps (parameters b);
          inputs := inputs b; outputs := outputs b |};
     connections := connections w |}.
Proof.
  induction ps as [|[k v] ps IH]; intros w b G; simpl.
  - destruct w as [nm bs cs], b as [i t p ii oo]. simpl in *.
    now rewrite set_get_id.
  - unfold from_dict_params in *. simpl.
    unfold set_block_parameter at 2. rewrite G.
    rewrite (IH _ (set_parameter b k v)); simpl.
    + now rewrite set_set.
    + apply get_set_eq.
Qed.

Lemma from_dict_blocks_spec rest : forall acc,
  NoDup (PyDict.keys (blocks acc) ++ PyDict.keys rest) ->
  (forall bid b, In (bid, b) rest ->
     registered (block_type b) = true /\ NoDup (PyDict.keys (parameters b))) ->
  from_dict_blocks acc
    (map (fun kv : string * Block =>
            {| bd_id := fst kv;
               bd_type := BlockType_value (block_type (snd kv));
               bd_parameters := Some (parameters (snd kv)) |}) rest)
  = Ok {| name := name acc;
          blocks := blocks acc ++ map rebuilt_block rest;
          connections := connections acc |}.
Proof.
  induction rest as [|[k b] rest IH]; intros acc Hnd Hreg; simpl.
  - rewrite app_nil_r. now destruct acc.
  - destruct (Hreg k b (or_introl eq_refl)) as [R Hp].
    assert (Hk : ~ In k (PyDict.keys (blocks acc))).
    { simpl in Hnd. apply NoDup_remove_2 in Hnd.
      intros H. apply Hnd, in_or_app. now left. }
    rewrite BlockType_roundtrip. unfold bind at 1.
    unfold add_block, create_block. rewrite R. unfold bind at 1. simpl.
    rewrite set_absent by assumption.
    rewrite (@from_dict_params_spec k (PyDict.items (parameters b)) _
               (Block_init k (block_type b))); simpl.
    2:{ now apply get_app_last. }
    rewrite set_app_last by assumption.
    unfold PyDict.items.
    rewrite (@fold_set_items _ (parameters b) PyDict.empty) by exact Hp.
    rewrite IH; simpl.
    + rewrite <- app_assoc. reflexivity.
    + unfold PyDict.keys in *. rewrite map_app, <- app_assoc. exact Hnd.
    + intros bid b' Hin. apply (Hreg bid b'). now right.
Qed.

Lemma from_dict_connections_spec conns : forall w,
  (forall c, In c conns ->
     In (from_block c) (PyDict.keys (blocks w)) /\
     In (to_block c) (PyDict.keys (blocks w))) ->
  from_dict_connections w conns =
  Ok {| name := name w; blocks := blocks w;
        connections := connections w ++ conns |}.
Proof.
  induction conns as [|c conns IH]; intros w Hval; simpl.
  - rewrite app_nil_r. now destruct w.
  - destruct (Hval c (or_introl eq_refl)) as [Hf Ht].
    apply contains_in_keys in Hf, Ht. unfold connect. rewrite Hf, Ht. simpl.
    rewrite IH; simpl.
    + rewrite <- app_assoc. destruct c. reflexivity.
    + intros c' Hc'. apply Hval. now right.
Qed.

Lemma keys_rebuilt bs : PyDict.keys (map rebuilt_block bs) = PyDict.keys bs.
Proof.
  unfold PyDict.keys. rewrite map_map. reflexivity.
Qed.

Lemma from_dict_to_dict (w : Workflow) :
  wf_workflow w -> registered_blocks w ->
  from_dict (to_dict w) =
  Ok {| name := name w; blocks := map rebuilt_block (blocks w);
        connections := connections w |}.
Proof.
  intros [Hnd Hval] Hreg. unfold from_dict, to_dict. simpl.
  unfold PyDict.items.
  rewrite (@from_dict_blocks_spec (blocks w) (Workflow_init (name w))); simpl; auto.
  replace (map (fun conn : Connection =>
                  {| from_block := from_block conn;
                     from_output := from_output conn;
                     to_block := to_block conn;
                     to_input := to_input conn |}) (connections w))
    with (connections w).
  - rewrite from_dict_connections_spec; simpl; auto.
    intros c Hc. rewrite keys_rebuilt. now apply Hval.
  - rewrite <- (map_id (connections w)) at 1. apply map_ext.
    intros []. reflexivity.
Qed.

(** Every workflow built through the methods of [Workflow] survives the
    round trip. *)
Lemma reachable_roundtrip (w : Workflow) :
  reachable w ->
  from_dict (to_dict w) =
  Ok {| name := name w; blocks := map rebuilt_block (blocks w);
        connections := connections w |}.
Proof.
  intros H. apply reachable_wf in H. destruct H as [Hwf Hreg].
  now apply from_dict_to_dict.
Qed.

(** C3.  For a workflow whose blocks have registered types and whose
    connections reference its blocks, [from_dict (to_dict w)] succeeds and
    yields a workflow with the same name, the same block ids mapped to the
    same type and parameters (in the same order), and the same
    connections. *)
Theorem serialization_roundtrip (w : Workflow) :
  wf_workflow w -> registered_blocks w ->
  exists w',
    from_dict (to_dict w) = Ok w' /\
    name w' = name w /\
    map block_summary (blocks w') = map block_summary (blocks w) /\
    (forall bid, option_map (fun b => (block_type b, parameters b))
                   (PyDict.get (blocks w') bid)
                 = option_map (fun b => (block_type b, parameters b))
                     (PyDict.get (blocks w) bid)) /\
    connections w' = connections w /\
    (forall conn, In conn (connections w') <-> In conn (connections w)).
Proof.
  intros Hwf Hreg. eexists. split; [now apply from_dict_to_dict|]. simpl.
  split; [reflexivity|]. split; [|split; [|split]].
  - rewrite map_map. reflexivity.
  - intros bid. induction (blocks w) as [|[k b] bs IH]; simpl; auto.
    destruct (String.eqb k bid); auto.
  - reflexivity.
  - tauto.
Qed.

Lemma serialization_roundtrip_witness :
  exists w',
    from_dict (to_dict sample_configured) = Ok w' /\
    name w' = "chain" /\
    option_map (fun b => (block_type b, parameters b))
      (PyDict.get (blocks w') "filter")
      = Some (FILTER_ROWS, [("column", VStr "age"); ("operator", VStr ">")]) /\
    connections w' = connections sample_chain.
Proof.
  destruct (@serialization_roundtrip sample_configured)
    as (w' & H1 & H2 & _ & H3 & H4 & _).
  - split.
    + repeat constructor; simpl; intuition discriminate.
    + intros c [<-|[<-|[<-|[]]]]; simpl; tauto.
  - intros bid b [[= <- <-]|[[= <- <-]|[[= <- <-]|[]]]]; simpl;
      (split; [reflexivity|]); repeat constructor; simpl; intuition discriminate.
  - exists w'. split; [exact H1|]. split; [exact H2|]. split; [|exact H4].
    rewrite (H3 "filter"). reflexivity.
Defined.

(** ** Data quality score *)











(** ** Block parameters *)

Lemma get_or_set_ne d name v k default :
  name <> k -> get_or (PyDict.set d name v) k default = get_or d k default.
Proof. intros H. unfold get_or. now rewrite get_set_ne. Qed.

Lemma getitem_set_ne (d : dict PyValue) name v k :
  name <> k -> PyDict.getitem (PyDict.set d name v) k = PyDict.getitem d k.
Proof. intros H. unfold PyDict.getitem. now rewrite get_set_ne. Qed.

Lemma unknown_parameter_ignored ext b name v :
  ~ In name (map bp_name (PARAMETERS (block_type b))) ->
  Block_execute ext (set_parameter b name v) = Block_execute ext b.
Proof.
  intros H. unfold Block_execute. simpl block_type.
  destruct (block_type b); simpl in H; try reflexivity;
    unfold LoadCSVBlock_execute, FilterRowsBlock_execute,
      SelectColumnsBlock_execute, HandleMissingBlock_execute,
      RemoveDuplicatesBlock_execute, TTestBlock_execute, ABTestBlock_execute,
      DescriptiveStatsBlock_execute, CorrelationBlock_execute, get_or_none;
    simpl parameters; simpl inputs;
    rewrite ?get_or_set_ne, ?getitem_set_ne by (intro; subst; tauto);
    reflexivity.
Qed.

Lemma filter_chain_none ext ops data column value :
  filter_chain ext ops VNone data column value = Ok data.
Proof. induction ops as [|op ops IH]; simpl; auto. Qed.

Lemma get_or_set_eq d k v default :
  get_or (PyDict.set d k v) k default = v.
Proof. unfold get_or. now rewrite get_set_eq. Qed.

(** An absent parameter read with [get] behaves as the default. *)
Lemma absent_is_default ext b pname d :
  In pname (map bp_name (PARAMETERS (block_type b))) ->
  PyDict.get (parameters b) pname = None ->
  read_default (block_type b) pname = Some d ->
  Block_execute ext b = Block_execute ext (set_parameter b pname d).
Proof.
  intros Hin Hnone Hd. unfold Block_execute. simpl block_type.
  destruct (block_type b); simpl in Hin, Hd; try tauto; try discriminate;
    unfold LoadCSVBlock_execute, FilterRowsBlock_execute,
      SelectColumnsBlock_execute, HandleMissingBlock_execute,
      RemoveDuplicatesBlock_execute, ABTestBlock_execute,
      DescriptiveStatsBlock_execute, CorrelationBlock_execute, get_or_none;
    simpl parameters; simpl inputs;
    repeat match goal with
    | H : _ \/ _ |- _ => destruct H
    | H : False |- _ => destruct H
    end; subst pname; simpl in Hd; inversion Hd; subst d;
    rewrite ?get_or_set_eq;
    rewrite ?get_or_set_ne, ?getitem_set_ne by discriminate;
    unfold get_or; rewrite ?Hnone; reflexivity.
Qed.

(** An absent parameter read with [parameters[name]] raises [KeyError]. *)
Lemma absent_raises_KeyError ext b pname :
  In pname (map bp_name (PARAMETERS (block_type b))) ->
  PyDict.get (parameters b) pname = None ->
  read_default (block_type b) pname = None ->
  exists k, In k (map bp_name (PARAMETERS (block_type b))) /\
            PyDict.get (parameters b) k = None /\
            Block_execute ext b = Raise (KeyError k).
Proof.
  intros Hin Hnone Hd. unfold Block_execute.
  destruct (block_type b); simpl in Hin, Hd; try discriminate.
  - destruct (String.eqb pname "method"); discriminate.
  - unfold TTestBlock_execute, bind, PyDict.getitem.
    destruct (PyDict.get (parameters b) "group_column") eqn:G1;
      [|exists "group_column"; simpl; auto].
    destruct (PyDict.get (parameters b) "value_column") eqn:G2;
      [|exists "value_column"; simpl; auto].
    destruct (PyDict.get (parameters b) "group1") eqn:G3;
      [|exists "group1"; simpl; auto].
    destruct (PyDict.get (parameters b) "group2") eqn:G4;
      [|exists "group2"; simpl; auto 6].
    exfalso. destruct Hin as [<-|[<-|[<-|[<-|[]]]]]; congruence.
  - unfold ABTestBlock_execute, bind, PyDict.getitem.
    destruct (PyDict.get (parameters b) "group_column") eqn:G1;
      [|exists "group_column"; simpl; auto].
    destruct (PyDict.get (parameters b) "metric_column") eqn:G2;
      [|exists "metric_column"; simpl; auto].
    exfalso. destruct Hin as [<-|[<-|[<-|[]]]]; try congruence.
    simpl in Hd. discriminate.
Qed.

(** C8, as the code has it.  No block checks its parameters against the
    schema.  When a schema parameter is absent, a block that reads it
    with [parameters.get] executes as if it were configured with the
    default of that read ([None], ['continuous'] for ['metric_type'],
    ['pearson'] for the correlation ['method']), and a block that reads
    it with [parameters[...]] (the t-test block, and the A/B block for
    its two columns) raises [KeyError] on an absent key.  In particular a
    filter block without ['operator'] returns its input unchanged.  A
    parameter whose name is not in the schema changes nothing. *)
Theorem parameters_unchecked (ext : External) (b : Block) :
  (forall pname,
     In pname (map bp_name (PARAMETERS (block_type b))) ->
     PyDict.get (parameters b) pname = None ->
     match read_default (block_type b) pname with
     | Some d => Block_execute ext b = Block_execute ext (set_parameter b pname d)
     | None =>
         exists k, In k (map bp_name (PARAMETERS (block_type b))) /\
                   PyDict.get (parameters b) k = None /\
                   Block_execute ext b = Raise (KeyError k)
     end) /\
  (block_type b = FILTER_ROWS ->
   PyDict.get (parameters b) "operator" = None ->
   Block_execute ext b = Ok [("data", get_or_none (inputs b) "data")]) /\
  (forall name v,
     ~ In name (map bp_name (PARAMETERS (block_type b))) ->
     Block_execute ext (set_parameter b name v) = Block_execute ext b).
Proof.
  split; [|split].
  - intros pname Hin Hnone.
    destruct (read_default (block_type b) pname) as [d|] eqn:Hd.
    + now apply absent_is_default.
    + now apply absent_raises_KeyError with (pname := pname).
  - intros Ht Hop. unfold Block_execute. rewrite Ht.
    unfold FilterRowsBlock_execute, get_or_none, get_or. rewrite Hop.
    now rewrite filter_chain_none.
  - intros name v. apply unknown_parameter_ignored.
Qed.

Lemma parameters_unchecked_witness :
  Block_execute no_external unconfigured_filter
    = Ok [("data", VFrame sample_table)] /\
  Block_execute no_external (Block_init "t" T_TEST)
    = Raise (KeyError "group_column") /\
  Block_execute no_external
    (set_parameter unconfigured_filter "colour" (VStr "red"))
    = Block_execute no_external unconfigured_filter.
Proof.
  destruct (parameters_unchecked no_external unconfigured_filter)
    as (_ & Hf & Hu).
  destruct (parameters_unchecked no_external (Block_init "t" T_TEST))
    as (Ht & _).
  split; [|split].
  - apply Hf; reflexivity.
  - destruct (Ht "group_column") as (k & _ & _ & Hk).
    + simpl. auto.
    + reflexivity.
    + reflexivity.
  - apply Hu. simpl. intuition discriminate.
Defined.

(** C8 as stated fails: ['operator'] is a required parameter of the
    filter block, it is absent, and the block executes. *)
Lemma missing_parameter_not_raised :
  exists p out,
    In p (PARAMETERS (block_type unconfigured_filter)) /\
    bp_required p = true /\
    PyDict.get (parameters unconfigured_filter) (bp_name p) = None /\
    Block_execute no_external unconfigured_filter = Ok out.
Proof.
  exists (mk_param "operator" "string" true VNone
            (Some ["=="; "!="; ">"; "<"; ">="; "<="; "contains"])).
  exists [("data", VFrame sample_table)].
  repeat split. simpl. auto.
Qed.

(** ** Statistical procedures *)

(** Inversion of a successful chain of binds. *)
Ltac inv_bind H :=
  repeat match type of H with
  | bind ?x _ = Ok _ =>
      let E := fresh "E" in
      destruct x eqn:E;
      [cbn beta iota zeta delta [bind] in H
      |cbn beta iota zeta delta [bind] in H; discriminate H]
  end.

(** Closes [f = Ok (fst p, snd p)] from [f = Ok p]. *)
Ltac pair_done :=
  match goal with
  | E : ?f = Ok ?p |- ?f = Ok _ =>
      rewrite E; clear E;
      repeat match goal with q : (_ * _)%type |- _ => destruct q end;
      reflexivity
  end.

Lemma both_normal_spec a b :
  both_normal (Some a) (Some b)
  = fgtb a (Fin (5 # 100)) && fgtb b (Fin (5 # 100)).
Proof.
  unfold both_normal.
  destruct (ftruthy a && ftruthy b) eqn:T; [reflexivity|].
  apply andb_false_iff in T. symmetry. apply andb_false_iff.
  destruct T as [T|T]; [left|right];
    unfold ftruthy, fneb, feqb in T; apply negb_false_iff in T.
  - destruct a as [q| | |]; try discriminate. apply Qeq_bool_iff in T.
    unfold fgtb, fltb. apply negb_false_iff. apply Qle_bool_iff.
    rewrite T. unfold Qle. simpl. lia.
  - destruct b as [q| | |]; try discriminate. apply Qeq_bool_iff in T.
    unfold fgtb, fltb. apply negb_false_iff. apply Qle_bool_iff.
    rewrite T. unfold Qle. simpl. lia.
Qed.

Lemma t_test_inv st data gc vc g1 g2 r :
  t_test st data gc vc g1 g2 = Ok r ->
  exists s1 s2 n1 n2 lv m1 m2 sd1 sd2,
    select_sample data gc g1 vc = Ok s1 /\
    select_sample data gc g2 vc = Ok s2 /\
    shapiro_p st s1 None = Ok n1 /\
    shapiro_p st s2 None = Ok n2 /\
    levene st s1 s2 = Ok lv /\
    ttest_ind st s1 s2 (fgtb (snd lv) (Fin (5 # 100)))
      = Ok (tt_statistic r, tt_p_value r) /\
    series_mean s1 = Ok m1 /\ series_mean s2 = Ok m2 /\
    series_std st s1 = Ok sd1 /\ series_std st s2 = Ok sd2 /\
    tt_test r = "t-test" /\
    tt_equal_variance r = fgtb (snd lv) (Fin (5 # 100)) /\
    tt_normality_group1_p r = float_if n1 /\
    tt_normality_group2_p r = float_if n2 /\
    tt_effect_size r =
      fdiv (fsub m1 m2)
           (np_sqrt st (pooled_variance (len s1) (len s2) sd1 sd2)).
Proof.
  intros H. unfold t_test in H. inv_bind H.
  inversion H; subst r; clear H. simpl.
  repeat eexists; try eassumption.
  match goal with E : ttest_ind _ _ _ _ = Ok ?p |- _ => destruct p; exact E end.
Qed.

Lemma two_sample_test_inv st data gc mc control variant alpha r :
  _two_sample_test st data gc mc control variant alpha = Ok r ->
  exists sc sv pc pv,
    select_sample data gc control mc = Ok sc /\
    select_sample data gc variant mc = Ok sv /\
    shapiro_p st sc (Some (Fin (5 # 10))) = Ok pc /\
    shapiro_p st sv (Some (Fin (5 # 10))) = Ok pv /\
    normality r = both_normal pc pv /\
    control_group r = py_str st control /\
    variant_groups r = [py_str st variant] /\
    (exists cm vm,
       series_mean sc = Ok cm /\ series_mean sv = Ok vm /\
       absolute (lift r) = fsub vm cm /\
       relative_percent (lift r) = relative_to (fsub vm cm) cm) /\
    (both_normal pc pv = true ->
     test_type r = "t-test" /\
     exists lv cs vs cm vm,
       levene st sc sv = Ok lv /\
       ttest_ind st sc sv (fgtb (snd lv) (Fin (5 # 100)))
         = Ok (statistic r, p_value r) /\
       equal_variance r = Some (fgtb (snd lv) (Fin (5 # 100))) /\
       series_std st sc = Ok cs /\ series_std st sv = Ok vs /\
       series_mean sc = Ok cm /\ series_mean sv = Ok vm /\
       effect_size r =
         nonzero (fdiv (fsub vm cm)
                    (np_sqrt st (pooled_variance (len sc) (len sv) cs vs)))) /\
    (both_normal pc pv = false ->
     test_type r = "Mann-Whitney U" /\
     mannwhitneyu st sc sv = Ok (statistic r, p_value r) /\
     effect_size r = None /\
     equal_variance r = None /\
     confidence_interval (lift r) = None /\
     statistical_power r = None).
Proof.
  intros H. unfold _two_sample_test in H.
  inv_bind H.
  repeat match goal with p : (_ * _)%type |- _ => destruct p end.
  inv_bind H.
  inversion H; subst r; clear H. simpl.
  do 4 eexists. do 7 (split; [first [eassumption | reflexivity]|]).
  split; [do 2 eexists; repeat split; eassumption|].
  match goal with
  | E : (if both_normal ?a ?b then _ else _) = Ok _ |- _ =>
      destruct (both_normal a b) eqn:N
  end.
  - split; [|discriminate]. intros _.
    repeat match goal with
    | E : bind _ _ = Ok _ |- _ => inv_bind E; inversion E; subst; clear E
    end.
    split; [reflexivity|]. do 5 eexists.
    repeat split; try eassumption.
    match goal with
    | E : ttest_ind _ _ _ _ = Ok ?p |- _ => destruct p; exact E
    end.
  - split; [discriminate|]. intros _.
    repeat match goal with
    | E : bind _ _ = Ok _ |- _ => inv_bind E; inversion E; subst; clear E
    end.
    repeat split; try reflexivity.
    + match goal with
      | |- Ok ?p = _ => destruct p; reflexivity
      end.
    + match goal with
      | E : Ok None = Ok ?c |- match ?c with Some _ => _ | None => _ end = _ =>
          inversion E; reflexivity
      end.
    + match goal with
      | E : Ok None = Ok ?c |- match ?c with Some _ => _ | None => _ end = _ =>
          inversion E; reflexivity
      end.
Qed.

Lemma shapiro_p_None st s n :
  shapiro_p st s None = Ok n ->
  ((len s < 5000)%Z ->
   exists w p, shapiro st s = Ok (w, p) /\ n = Some p) /\
  ((5000 <= len s)%Z -> n = None).
Proof.
  unfold shapiro_p. destruct (Z.ltb_spec (len s) 5000) as [L|L]; intros H.
  - inv_bind H. inversion H; subst. split; [|lia]. intros _.
    match goal with |- exists w p, Ok ?q = _ /\ _ => destruct q; eauto end.
  - inversion H; subst. split; [lia|auto].
Qed.

Lemma shapiro_p_Some st s x p :
  shapiro_p st s (Some x) = Ok p ->
  exists a, p = Some a /\
    ((len s < 5000)%Z -> exists w, shapiro st s = Ok (w, a)) /\
    ((5000 <= len s)%Z -> a = x).
Proof.
  unfold shapiro_p. destruct (Z.ltb_spec (len s) 5000) as [L|L]; intros H.
  - inv_bind H. inversion H; subst. eexists. split; [reflexivity|].
    split; [|lia]. intros _.
    match goal with |- exists w, Ok ?q = _ => destruct q; eauto end.
  - inversion H; subst. exists x. split; [reflexivity|]. split; [lia|auto].
Qed.

(** C4, as the code has it.  [StatisticalTests.t_test], when it returns,
    has run the t-test, pooled when Levene's p-value exceeds 0.05 and
    Welch otherwise, and reports Cohen's d; the Shapiro-Wilk p-values do
    not enter the choice: they are only recorded, for a sample of fewer
    than 5000 observations the p-value of the library ([None] if it is
    exactly zero) and [None] for a larger sample.  The selection is made
    by [ABTestEngine._two_sample_test]: the p-value of a sample of fewer
    than 5000 observations is the one the Shapiro-Wilk test returns, a
    larger sample is not tested and its p-value is taken to be 0.5; when
    both p-values exceed 0.05 it runs that t-test and reports the pooled
    effect size, or [None] if that effect size is exactly zero, and
    otherwise it runs the two-sided Mann-Whitney U test and reports no
    effect size. *)
Theorem two_sample_selection (st : Stats) (data : DataFrame)
    (gc vc : string) (g1 g2 : Cell) (alpha : PyFloat) :
  (forall r, t_test st data gc vc g1 g2 = Ok r ->
     tt_test r = "t-test" /\
     exists s1 s2 lv m1 m2 sd1 sd2,
       select_sample data gc g1 vc = Ok s1 /\
       select_sample data gc g2 vc = Ok s2 /\
       levene st s1 s2 = Ok lv /\
       tt_equal_variance r = fgtb (snd lv) (Fin (5 # 100)) /\
       ttest_ind st s1 s2 (fgtb (snd lv) (Fin (5 # 100)))
         = Ok (tt_statistic r, tt_p_value r) /\
       series_mean s1 = Ok m1 /\ series_mean s2 = Ok m2 /\
       series_std st s1 = Ok sd1 /\ series_std st s2 = Ok sd2 /\
       tt_effect_size r =
         fdiv (fsub m1 m2)
              (np_sqrt st (pooled_variance (len s1) (len s2) sd1 sd2)) /\
       ((len s1 < 5000)%Z ->
        exists w p, shapiro st s1 = Ok (w, p) /\
                    tt_normality_group1_p r = nonzero p) /\
       ((5000 <= len s1)%Z -> tt_normality_group1_p r = None) /\
       ((len s2 < 5000)%Z ->
        exists w p, shapiro st s2 = Ok (w, p) /\
                    tt_normality_group2_p r = nonzero p) /\
       ((5000 <= len s2)%Z -> tt_normality_group2_p r = None)) /\
  (forall r, _two_sample_test st data gc vc g1 g2 alpha = Ok r ->
     exists sc sv pc pv,
       select_sample data gc g1 vc = Ok sc /\
       select_sample data gc g2 vc = Ok sv /\
       shapiro_p st sc (Some (Fin (5 # 10))) = Ok (Some pc) /\
       shapiro_p st sv (Some (Fin (5 # 10))) = Ok (Some pv) /\
       ((len sc < 5000)%Z -> exists w, shapiro st sc = Ok (w, pc)) /\
       ((5000 <= len sc)%Z -> pc = Fin (5 # 10)) /\
       ((len sv < 5000)%Z -> exists w, shapiro st sv = Ok (w, pv)) /\
       ((5000 <= len sv)%Z -> pv = Fin (5 # 10)) /\
       normality r = fgtb pc (Fin (5 # 100)) && fgtb pv (Fin (5 # 100)) /\
       (fgtb pc (Fin (5 # 100)) && fgtb pv (Fin (5 # 100)) = true ->
        test_type r = "t-test" /\
        exists lv cs vs cm vm,
          levene st sc sv = Ok lv /\
          ttest_ind st sc sv (fgtb (snd lv) (Fin (5 # 100)))
            = Ok (statistic r, p_value r) /\
          equal_variance r = Some (fgtb (snd lv) (Fin (5 # 100))) /\
          series_std st sc = Ok cs /\ series_std st sv = Ok vs /\
          series_mean sc = Ok cm /\ series_mean sv = Ok vm /\
          effect_size r =
            nonzero (fdiv (fsub vm cm)
                       (np_sqrt st (pooled_variance (len sc) (len sv) cs vs)))) /\
       (fgtb pc (Fin (5 # 100)) && fgtb pv (Fin (5 # 100)) = false ->
        test_type r = "Mann-Whitney U" /\
        mannwhitneyu st sc sv = Ok (statistic r, p_value r) /\
        effect_size r = None)).
Proof.
  split.
  - intros r H. apply t_test_inv in H.
    destruct H as (s1 & s2 & n1 & n2 & lv & m1 & m2 & sd1 & sd2 & H1 & H2 & H3
                   & H4 & H5 & H6 & H7 & H8 & H9 & H10 & H11 & H12 & H13 & H14
                   & H15).
    split; [exact H11|]. exists s1, s2, lv, m1, m2, sd1, sd2.
    destruct (shapiro_p_None _ _ H3) as (A1 & B1).
    destruct (shapiro_p_None _ _ H4) as (A2 & B2).
    do 10 (split; [assumption|]).
    split; [|split; [|split]].
    + intros L. destruct (A1 L) as (w & p & Hs & ->).
      exists w, p. split; [exact Hs|exact H13].
    + intros L. rewrite H13, (B1 L). reflexivity.
    + intros L. destruct (A2 L) as (w & p & Hs & ->).
      exists w, p. split; [exact Hs|exact H14].
    + intros L. rewrite H14, (B2 L). reflexivity.
  - intros r H. apply two_sample_test_inv in H.
    destruct H as (sc & sv & pc & pv & H1 & H2 & H3 & H4 & H5 & _ & _ & _
                   & Hn & Hm).
    destruct (@shapiro_p_Some _ _ _ _ H3) as (a & -> & Ha1 & Ha2).
    destruct (@shapiro_p_Some _ _ _ _ H4) as (b & -> & Hb1 & Hb2).
    rewrite both_normal_spec in *.
    exists sc, sv, a, b. repeat split; auto.
    + now apply Hn.
    + now apply Hn.
    + now apply Hm.
    + now apply Hm.
    + now apply Hm.
Qed.

Lemma two_sample_selection_witness :
  (exists r,
     t_test (sample_stats (Fin (9 # 10)) (Fin (3 # 10))) ab_table
       "group" "value" (Str "A") (Str "B") = Ok r /\
     tt_test r = "t-test" /\ tt_equal_variance r = true) /\
  (exists r,
     _two_sample_test (sample_stats (Fin (1 # 1000)) (Fin (3 # 10)))
       skewed_table "group" "value" (Str "A") (Str "B") (Fin (5 # 100)) = Ok r /\
     normality r = false /\
     test_type r = "Mann-Whitney U" /\ effect_size r = None).
Proof.
  split.
  - destruct (two_sample_selection (sample_stats (Fin (9 # 10)) (Fin (3 # 10)))
                ab_table "group" "value" (Str "A") (Str "B") (Fin (5 # 100)))
      as [Ht _].
    eexists. split; [reflexivity|].
    match goal with
    | |- tt_test ?r = _ /\ _ => destruct (Ht r eq_refl) as (H1 & _)
    end.
    split; [exact H1|reflexivity].
  - destruct (two_sample_selection (sample_stats (Fin (1 # 1000)) (Fin (3 # 10)))
                skewed_table "group" "value" (Str "A") (Str "B") (Fin (5 # 100)))
      as [_ Hs].
    destruct (_two_sample_test (sample_stats (Fin (1 # 1000)) (Fin (3 # 10)))
                skewed_table "group" "value" (Str "A") (Str "B") (Fin (5 # 100)))
      as [r|e] eqn:E; [|vm_compute in E; discriminate E].
    exists r. split; [reflexivity|].
    destruct (Hs r eq_refl)
      as (sc & sv & pc & pv & H1 & H2 & H3 & H4 & _ & _ & _ & _ & Hn & _ & Hm).
    vm_compute in H1. injection H1 as <-.
    vm_compute in H2. injection H2 as <-.
    vm_compute in H3. injection H3 as <-.
    vm_compute in H4. injection H4 as <-.
    split; [exact Hn|]. destruct (Hm eq_refl) as (M1 & _ & M3). now split.
Defined.

(** C4 as stated fails.  Each group of [skewed_table] has nine equal
    observations and one far away, for which the Shapiro-Wilk statistic
    is W = 0.366, below the 1% critical value 0.781 for ten observations:
    both samples fail the normality check, with a p-value below 0.01
    (here 0.001).  [t_test] records the p-values, runs the t-test all the
    same and reports Cohen's d. *)
Lemma t_test_ignores_normality :
  exists r,
    t_test (sample_stats (Fin (1 # 1000)) (Fin (3 # 10))) skewed_table
      "group" "value" (Str "A") (Str "B") = Ok r /\
    tt_normality_group1_p r = Some (Fin (1 # 1000)) /\
    tt_normality_group2_p r = Some (Fin (1 # 1000)) /\
    fgtb (Fin (1 # 1000)) (Fin (5 # 100)) = false /\
    tt_test r = "t-test" /\
    tt_test r <> "Mann-Whitney U" /\
    is_finite (tt_effect_size r) = true.
Proof.
  eexists. split; [reflexivity|]. simpl.
  repeat split; try reflexivity. discriminate.
Qed.

Lemma anova_inv st data gc vc r :
  anova st data gc vc = Ok (anova_report r) ->
  exists groups,
    anova_groups st data gc vc = Ok groups /\
    (2 <= len groups)%Z /\
    f_oneway st (map snd groups) = Ok (an_statistic r, an_p_value r).
Proof.
  intros H. unfold anova in H. inv_bind H.
  destruct (Z.ltb_spec (len a) 2) as [L|L]; [discriminate|].
  inv_bind H. inversion H; subst r; clear H. simpl.
  eexists. split; [reflexivity|]. split; [exact L|].
  match goal with E : f_oneway _ _ = Ok ?p |- _ => destruct p; exact E end.
Qed.

(** C5, as the code has it.  [anova] on fewer than two non-empty groups
    returns the dictionary [{'error': 'Need at least 2 groups for ANOVA'}]
    and raises nothing; with two or more groups the statistic and the
    p-value of [anova], and those of [t_test], [mann_whitney_test],
    [chi_square_test] and [correlation_test], are the numbers the library
    returned, passed on without a finiteness check, and an exception of
    the library propagates as it is. *)
Theorem degenerate_inputs (st : Stats) (data : DataFrame) (gc vc : string) :
  (forall groups,
     anova_groups st data gc vc = Ok groups -> (len groups < 2)%Z ->
     anova st data gc vc = Ok (anova_error "Need at least 2 groups for ANOVA")) /\
  (forall r,
     anova st data gc vc = Ok (anova_report r) ->
     exists groups,
       anova_groups st data gc vc = Ok groups /\
       (2 <= len groups)%Z /\
       f_oneway st (map snd groups) = Ok (an_statistic r, an_p_value r)) /\
  (forall groups e,
     anova_groups st data gc vc = Ok groups -> (2 <= len groups)%Z ->
     f_oneway st (map snd groups) = Raise e ->
     anova st data gc vc = Raise e) /\
  (forall g1 g2 r,
     t_test st data gc vc g1 g2 = Ok r ->
     exists s1 s2 lv,
       select_sample data gc g1 vc = Ok s1 /\
       select_sample data gc g2 vc = Ok s2 /\
       levene st s1 s2 = Ok lv /\
       ttest_ind st s1 s2 (fgtb (snd lv) (Fin (5 # 100)))
         = Ok (tt_statistic r, tt_p_value r)) /\
  (forall g1 g2 r,
     mann_whitney_test st data gc vc g1 g2 = Ok r ->
     exists s1 s2,
       select_sample data gc g1 vc = Ok s1 /\
       select_sample data gc g2 vc = Ok s2 /\
       mannwhitneyu st s1 s2 = Ok (mw_statistic r, mw_p_value r)) /\
  (forall r,
     chi_square_test st data gc vc = Ok r ->
     exists c1 c2 table,
       getcol data gc = Ok c1 /\ getcol data vc = Ok c2 /\
       crosstab st c1 c2 = Ok table /\
       chi2_contingency st table
         = Ok (cs_statistic r, cs_p_value r, cs_degrees_of_freedom r)) /\
  (forall method r,
     correlation_test st data gc vc method = Ok r ->
     exists d1 d2,
       (if String.eqb method "pearson" then pearsonr st d1 d2
        else spearmanr st d1 d2) = Ok (co_correlation r, co_p_value r)).
Proof.
  split; [|split; [|split; [|split; [|split; [|split]]]]].
  - intros groups Hg L. unfold anova. rewrite Hg. cbn [bind].
    apply Z.ltb_lt in L. now rewrite L.
  - intros r. apply anova_inv.
  - intros groups e Hg L Hf. unfold anova. rewrite Hg. cbn [bind].
    apply Z.ltb_ge in L. rewrite L, Hf. reflexivity.
  - intros g1 g2 r H. apply t_test_inv in H.
    destruct H as (s1 & s2 & n1 & n2 & lv & m1 & m2 & sd1 & sd2 & H1 & H2 & _
                   & _ & H5 & H6 & _).
    exists s1, s2, lv. tauto.
  - intros g1 g2 r H. unfold mann_whitney_test in H. inv_bind H.
    inversion H; subst r; clear H. simpl.
    do 2 eexists. repeat split. pair_done.
  - intros r H. unfold chi_square_test in H. inv_bind H.
    inversion H; subst r; clear H. simpl.
    do 3 eexists. repeat split; try eassumption. pair_done.
  - intros method r H. unfold correlation_test in H. inv_bind H.
    inversion H; subst r; clear H. simpl.
    do 2 eexists.
    match goal with
    | E : _ = Ok ?p |- _ = Ok (fst ?p, snd ?p) => destruct p; exact E
    end.
Qed.

Lemma degenerate_inputs_witness :
  anova (sample_stats (Fin (9 # 10)) NaN) one_group_table "group" "value"
    = Ok (anova_error "Need at least 2 groups for ANOVA") /\
  (exists r,
     anova (sample_stats (Fin (9 # 10)) NaN) ab_table "group" "value"
       = Ok (anova_report r) /\
     an_p_value r = NaN).
Proof.
  split.
  - destruct (degenerate_inputs (sample_stats (Fin (9 # 10)) NaN)
                one_group_table "group" "value") as (H1 & _).
    apply (H1 [("A", [Num 1; Num 2; Num 3])]).
    + reflexivity.
    + reflexivity.
  - destruct (degenerate_inputs (sample_stats (Fin (9 # 10)) NaN)
                ab_table "group" "value") as (_ & H2 & _).
    eexists. split; [reflexivity|].
    match goal with
    | |- an_p_value ?r = _ =>
        destruct (H2 r eq_refl) as (groups & Hg & _ & Hf)
    end.
    reflexivity.
Defined.

(** C5 as stated fails: a table with a single group is a degenerate
    input, and [anova] returns a dictionary instead of raising. *)
Lemma anova_one_group_returns :
  anova (sample_stats (Fin (9 # 10)) (Fin (3 # 10)))
    one_group_table "group" "value"
  = Ok (anova_error "Need at least 2 groups for ANOVA").
Proof. reflexivity. Qed.

(** ** A/B test *)

Lemma run_ab_test_two_groups st other data gc mc cg alpha body ps recs :
  run_ab_test st other data gc mc cg alpha "continuous"
    = Ok (ab_report body ps recs) ->
  exists gcol,
    getcol data gc = Ok gcol /\
    (len (unique gcol) = 2%Z ->
     exists r,
       body = two_sample r /\
       _two_sample_test st data gc mc
         (match cg with Some c => c | None => nth 0 (unique gcol) NA end)
         (nth 1 (unique gcol) NA) alpha = Ok r).
Proof.
  intros H. unfold run_ab_test in H. inv_bind H.
  exists a. split; [reflexivity|]. intros L.
  rewrite L in H. cbn in H. inv_bind H.
  inversion H; subst; clear H.
  match goal with
  | E : bind (_two_sample_test _ _ _ _ _ _ _) _ = Ok _ |- _ =>
      inv_bind E; inversion E; subst; clear E
  end.
  eexists. split; reflexivity.
Qed.

(** C6, on the code.  With the default control group, the test of a
    two-group table takes the first group as control and the second as
    variant: for means 10 and 11 the absolute lift is 1 and the relative
    lift 10 percent.  Naming the second group as control does not swap
    the roles: the variant stays the second group, so that group is
    compared with itself and the absolute lift is 0, not -1. *)
Theorem control_swap_evaluated :
  (exists r ps recs,
     run_ab_test (sample_stats (Fin (9 # 10)) (Fin (3 # 10))) sample_other
       ab_table "group" "value" None (Fin (5 # 100)) "continuous"
       = Ok (ab_report (two_sample r) ps recs) /\
     control_group r = "A" /\ variant_groups r = ["B"] /\
     feqb (absolute (lift r)) (Fin 1) = true /\
     feqb (relative_percent (lift r)) (Fin 10) = true) /\
  (exists r ps recs,
     run_ab_test (sample_stats (Fin (9 # 10)) (Fin (3 # 10))) sample_other
       ab_table "group" "value" (Some (Str "B")) (Fin (5 # 100)) "continuous"
       = Ok (ab_report (two_sample r) ps recs) /\
     control_group r = "B" /\ variant_groups r = ["B"] /\
     PyDict.keys (groups r) = ["B"] /\
     feqb (absolute (lift r)) (Fin 0) = true /\
     feqb (absolute (lift r)) (Fin (- (1))) = false).
Proof.
  split; do 3 eexists; (split; [reflexivity|]); repeat split; reflexivity.
Qed.

(** ** The loop of [_topological_sort] *)

Lemma kahn_loop_more_fuel fuel : forall graph indeg q res r,
  kahn_loop fuel graph indeg q res = Some r ->
  forall fuel', (fuel <= fuel')%nat -> kahn_loop fuel' graph indeg q res = Some r.
Proof.
  induction fuel as [|fuel IH]; intros graph indeg q res r H fuel' Hle.
  - destruct q; simpl in H; [|discriminate]. destruct fuel'; simpl; auto.
  - destruct fuel' as [|fuel']; [lia|].
    destruct q as [|b q]; simpl in *; auto.
    destruct (PyDict.getitem graph b) as [l|e]; auto.
    destruct (relax l indeg q) as [[i' q']|]; auto.
    apply IH with (fuel' := fuel'); auto. lia.
Qed.

(** X1.  The [while queue] loop of [_topological_sort] ends within
    [len(blocks)] iterations on every workflow, cyclic or with dangling
    connections included: a budget of at least that many iterations always
    reaches the value [_topological_sort] returns. *)
Theorem topological_sort_terminates (w : Workflow) (fuel : nat) :
  (PyDict.len (blocks w) <= fuel)%nat ->
  topological_sort_fuel fuel w = Some (_topological_sort w).
Proof.
  intros Hle. unfold _topological_sort.
  pose proof (topological_sort_fuel_enough w) as Hne.
  destruct (topological_sort_fuel (PyDict.len (blocks w)) w) as [r|] eqn:E;
    [|contradiction].
  clear Hne. unfold topological_sort_fuel in *.
  destruct (build_graph _ _ (connections w)) as [[g d]|e]; [|exact E].
  match type of E with
  | context [kahn_loop ?f ?g ?d ?q ?r0] =>
      destruct (kahn_loop f g d q r0) as [kr|] eqn:K; [|discriminate]
  end.
  rewrite (@kahn_loop_more_fuel _ _ _ _ _ _ K _ Hle). exact E.
Qed.

Lemma topological_sort_terminates_witness :
  topological_sort_fuel 7 sample_chain = Some (_topological_sort sample_chain) /\
  topological_sort_fuel 2 sample_cycle = Some (Ok []).
Proof.
  split.
  - apply topological_sort_terminates. simpl. lia.
  - apply (topological_sort_terminates sample_cycle). simpl. lia.
Defined.

(** ** Connections to blocks that do not exist *)

Lemma build_graph_dangling conns : forall (g : dict (list string)) (d : dict Z),
  PyDict.keys g = PyDict.keys d ->
  (exists conn, In conn conns /\
     (~ In (from_block conn) (PyDict.keys g) \/
      ~ In (to_block conn) (PyDict.keys g))) ->
  exists k, ~ In k (PyDict.keys g) /\ build_graph g d conns = Raise (KeyError k).
Proof.
  induction conns as [|c conns IH]; intros g d Hk (conn & Hin & Hbad).
  - destruct Hin.
  - simpl. unfold PyDict.getitem.
    destruct (PyDict.get g (from_block c)) as [succs|] eqn:Gf.
    + destruct (PyDict.get d (to_block c)) as [x|] eqn:Gt.
      * cbn [bind].
        assert (Hf : In (from_block c) (PyDict.keys g)).
        { apply get_in_keys. rewrite Gf. discriminate. }
        assert (Ht : In (to_block c) (PyDict.keys d)).
        { apply get_in_keys. rewrite Gt. discriminate. }
        destruct (IH (PyDict.set g (from_block c) (succs ++ [to_block c]))
                     (PyDict.set d (to_block c) (x + 1)%Z)) as (k & Hk1 & Hk2).
        -- rewrite !keys_set_present; auto.
        -- exists conn. rewrite keys_set_present by auto.
           destruct Hin as [<-|Hin]; [|auto].
           exfalso. rewrite Hk in Hbad at 2. tauto.
        -- exists k. rewrite keys_set_present in Hk1 by auto. auto.
      * cbn [bind]. exists (to_block c). split; auto.
        rewrite Hk. apply get_not_in_keys. exact Gt.
    + cbn [bind]. exists (from_block c). split; auto.
      apply get_not_in_keys. exact Gf.
Qed.

(** X2.  A connection with an endpoint that is not a block of the workflow
    makes [_topological_sort] raise [KeyError] for a missing id.  [execute]
    calls it outside its [try]: the exception leaves [execute], no error
    report is returned and no block is executed. *)
Theorem dangling_connection_raises
    (block_execute : Block -> result (dict PyValue)) (eng : WorkflowEngine)
    (conn : Connection) :
  In conn (connections (workflow eng)) ->
  ~ In (from_block conn) (PyDict.keys (blocks (workflow eng))) \/
  ~ In (to_block conn) (PyDict.keys (blocks (workflow eng))) ->
  exists k,
    ~ In k (PyDict.keys (blocks (workflow eng))) /\
    _topological_sort (workflow eng) = Raise (KeyError k) /\
    execute block_execute eng = (reset_engine eng, Raise (KeyError k)) /\
    invoked (fst (execute block_execute eng)) = [].
Proof.
  intros Hin Hbad.
  destruct (@build_graph_dangling (connections (workflow eng))
              (map (fun kv : string * Block => (fst kv, @nil string))
                   (blocks (workflow eng)))
              (map (fun kv : string * Block => (fst kv, 0%Z))
                   (blocks (workflow eng)))) as (k & Hk & Hb).
  - now rewrite !keys_map_const.
  - exists conn. rewrite keys_map_const. auto.
  - rewrite keys_map_const in Hk.
    assert (Hts : _topological_sort (workflow eng) = Raise (KeyError k)).
    { unfold _topological_sort, topological_sort_fuel. now rewrite Hb. }
    exists k. split; [exact Hk|]. split; [exact Hts|].
    unfold execute. simpl. rewrite Hts. auto.
Qed.

Lemma dangling_connection_raises_witness :
  exists k,
    ~ In k (PyDict.keys (blocks sample_dangling)) /\
    _topological_sort sample_dangling = Raise (KeyError k) /\
    execute sample_execute (WorkflowEngine_init sample_dangling)
      = (reset_engine (WorkflowEngine_init sample_dangling), Raise (KeyError k)) /\
    invoked (fst (execute sample_execute (WorkflowEngine_init sample_dangling)))
      = [].
Proof.
  apply (@dangling_connection_raises sample_execute
           (WorkflowEngine_init sample_dangling)
           (mk_conn "load" "data" "filter" "data")).
  - simpl. auto.
  - left. simpl. intros [H|[]]. discriminate H.
Defined.

(** ** The empty execution order *)

Lemma kahn_incomplete_cycle (w : Workflow) indeg_f r :
  wf_workflow w ->
  kahn_inv (connections w) (PyDict.keys (blocks w)) indeg_f [] r ->
  List.length r <> PyDict.len (blocks w) ->
  has_cycle w.
Proof.
  intros [Hnd Hval] (_ & _ & ND & INC & Zr & _) E.
  rewrite app_nil_r in ND, INC.
  set (P := fun v => In v (PyDict.keys (blocks w)) /\ ~ In v r).
  destruct (@no_source_cycle (connections w) (PyDict.keys (blocks w)) P)
    as [x Hx].
  - intros v [Hv _]. exact Hv.
  - intros v [Hv Hnr].
    assert (Hp : pending_in (connections w) r v <> 0%nat).
    { intros Hz. apply Hnr. apply Zr in Hz; auto.
      now rewrite app_nil_r in Hz. }
    apply pending_in_pos in Hp. destruct Hp as (c & Hc & Ht & Hf).
    exists (from_block c). split.
    + now exists c.
    + split; auto. now apply Hval.
  - unfold P.
    destruct (Forall_Exists_dec (fun v => In v r)
                (fun v => in_dec string_dec v r) (PyDict.keys (blocks w)))
      as [Hall|Hex].
    + exfalso. rewrite Forall_forall in Hall.
      assert (Hge : (List.length (PyDict.keys (blocks w)) <= List.length r)%nat)
        by (apply NoDup_incl_length; auto).
      assert (Hle : (List.length r <= List.length (PyDict.keys (blocks w)))%nat)
        by now apply NoDup_incl_length.
      unfold PyDict.keys in Hge, Hle. rewrite length_map in Hge, Hle.
      unfold PyDict.len in E. lia.
    + apply Exists_exists in Hex. exact Hex.
  - now exists x.
Qed.

(** X3.  For a workflow whose connections are valid, [_topological_sort]
    returns the empty list exactly when the workflow has a cycle or has
    no block at all; so [execute] answers an empty workflow with the
    error ['Workflow has cycles or is invalid'] too. *)
Theorem empty_order_iff (w : Workflow) :
  wf_workflow w ->
  (_topological_sort w = Ok [] <-> has_cycle w \/ blocks w = []) /\
  (blocks w = [] ->
   forall block_execute eng, workflow eng = w ->
     snd (execute block_execute eng)
     = Ok {| status := "error";
             message := Some "Workflow has cycles or is invalid";
             report_results := None; report_log := None |}).
Proof.
  intros Hwf.
  assert (Hiff : _topological_sort w = Ok [] <-> has_cycle w \/ blocks w = []).
  { destruct (topological_sort_run Hwf) as (r & indeg_f & rest & Hts & Hinv & Hr).
    split.
    - intros H0. rewrite Hts in H0.
      destruct (Nat.eqb_spec (List.length r) (PyDict.len (blocks w))) as [E|E].
      + simpl in H0. inversion H0 as [Hr0]. rewrite Hr0 in E. simpl in E.
        right. unfold PyDict.len in E. destruct (blocks w); [auto|discriminate].
      + left. exact (kahn_incomplete_cycle Hwf Hinv E).
    - intros [Hc|He].
      + now apply topological_sort_cycle.
      + rewrite Hts.
        destruct (negb _) eqn:N; [reflexivity|].
        apply negb_false_iff, Nat.eqb_eq in N. rewrite He in N.
        destruct r; [reflexivity|discriminate]. }
  split; [exact Hiff|].
  intros He be eng Hw. subst w. unfold execute. simpl.
  replace (_topological_sort (workflow eng)) with (@Ok (list string) []).
  - reflexivity.
  - symmetry. apply Hiff. now right.
Qed.

Lemma empty_order_iff_witness :
  (_topological_sort (Workflow_init "w") = Ok [] <->
   has_cycle (Workflow_init "w") \/ blocks (Workflow_init "w") = []) /\
  _topological_sort sample_cycle = Ok [].
Proof.
  split.
  - apply (empty_order_iff (w := Workflow_init "w")).
    split; [constructor|intros c []].
  - reflexivity.
Defined.

(** ** Data flow of a successful run *)

Lemma bind_inputs_ext res1 res2 conns bid : forall blk,
  (forall c, In c conns -> to_block c = bid ->
     PyDict.get res1 (from_block c) = PyDict.get res2 (from_block c)) ->
  bind_inputs res1 conns bid blk = bind_inputs res2 conns bid blk.
Proof.
  unfold bind_inputs. induction conns as [|c conns IH]; intros blk H; simpl; auto.
  destruct (String.eqb_spec (to_block c) bid) as [E|E].
  - rewrite (H c (or_introl eq_refl) E). apply IH. intros; apply H; simpl; auto.
  - apply IH. intros; apply H; simpl; auto.
Qed.

(** The value a connection leaves on its input port, when no later
    connection writes the same port. *)
Lemma bind_inputs_last res pre c post bid blk :
  to_block c = bid ->
  (forall c', In c' post -> to_block c' = bid -> to_input c' <> to_input c) ->
  PyDict.get (inputs (bind_inputs res (pre ++ c :: post) bid blk)) (to_input c)
  = Some (get_or_none (match PyDict.get res (from_block c) with
                       | Some r => r
                       | None => PyDict.empty
                       end) (from_output c)).
Proof.
  intros Hb Hpost.
  rewrite bind_inputs_app.
  change (c :: post) with ([c] ++ post). rewrite bind_inputs_app.
  rewrite bind_inputs_untouched by exact Hpost.
  unfold bind_inputs at 1. simpl. rewrite Hb, String.eqb_refl. simpl.
  rewrite get_set_eq. reflexivity.
Qed.

Section Dataflow.
Variable block_execute : Block -> result (dict PyValue).
Variable w0 : Workflow.

Lemma sources_done done b rest b' c :
  NoDup (done ++ b :: rest) ->
  topologically_ordered (connections w0) (done ++ b :: rest) ->
  In b' (done ++ [b]) -> In c (connections w0) -> to_block c = b' ->
  In (from_block c) done /\ from_block c <> b.
Proof.
  intros ND T Hb' Hc Ht.
  assert (Hnb : ~ In b done).
  { intros Hin. apply NoDup_remove_2 in ND. apply ND.
    apply in_or_app. now left. }
  assert (Hd : In (from_block c) done).
  { apply in_app_or in Hb'. destruct Hb' as [Hb'|[<-|[]]].
    - apply in_split in Hb'. destruct Hb' as (l1 & l2 & ->).
      apply in_or_app. left.
      apply (T l1 b' (l2 ++ b :: rest) c); auto.
      now rewrite <- app_assoc.
    - apply (T done b rest c); auto. }
  split; [exact Hd|]. intros E. apply Hnb. now rewrite <- E.
Qed.

Lemma dataflow_step eng b done rest eng' :
  dataflow_inv block_execute w0 eng done ->
  NoDup (done ++ b :: rest) ->
  topologically_ordered (connections w0) (done ++ b :: rest) ->
  _execute_block block_execute eng b = (eng', Ok tt) ->
  dataflow_inv block_execute w0 eng' (done ++ [b]).
Proof.
  intros (Ic & Ik & Iu & Id) ND T H.
  assert (Hnb : ~ In b done).
  { intros Hin. apply NoDup_remove_2 in ND. apply ND.
    apply in_or_app. now left. }
  destruct (PyDict.get (blocks (workflow eng)) b) as [blk0|] eqn:G;
    [|rewrite execute_block_missing in H by assumption; discriminate].
  pose proof (execute_block_step block_execute eng b G) as S. cbv zeta in S.
  rewrite H in S. simpl in S.
  destruct S as (_ & Sc & _ & Sb & entry & _ & _ & _ & Sr).
  destruct (block_execute _) as [r|e] eqn:Ex; [|destruct Sr; discriminate].
  destruct Sr as (_ & Sres & _).
  rewrite Ic in Ex.
  assert (Hext : forall b' blk,
            In b' (done ++ [b]) ->
            bind_inputs (results eng') (connections w0) b' blk
            = bind_inputs (results eng) (connections w0) b' blk).
  { intros b' blk Hb'. apply bind_inputs_ext. intros c Hc Ht.
    destruct (@sources_done done b rest b' c ND T Hb' Hc Ht) as [_ Hne].
    rewrite Sres. apply get_set_ne. congruence. }
  unfold dataflow_inv. split; [congruence|]. split; [|split].
  - rewrite Sres, keys_set_absent; [now rewrite Ik|now rewrite Ik].
  - intros b' Hb'. rewrite Sb.
    rewrite get_set_ne.
    + apply Iu. intros Hin. apply Hb'. apply in_or_app. now left.
    + intros E. apply Hb'. apply in_or_app. right. simpl. auto.
  - intros b' Hb'. pose proof Hb' as Hb''.
    apply in_app_or in Hb'. destruct Hb' as [Hb'|[<-|[]]].
    + destruct (Id b' Hb') as (blk & r' & G0 & Gb & Gr & Ge).
      exists blk, r'. rewrite (Hext b' blk Hb''). split; [exact G0|].
      assert (Hne : b <> b') by congruence.
      split; [|split]; auto.
      * rewrite Sb. now rewrite get_set_ne.
      * rewrite Sres. now rewrite get_set_ne.
    + exists blk0, r. rewrite (Hext b blk0 Hb'').
      split; [now rewrite <- (Iu b Hnb)|].
      split; [|split]; auto.
      * rewrite Sb, Ic. apply get_set_eq.
      * rewrite Sres. apply get_set_eq.
Qed.

Lemma run_blocks_dataflow order : forall eng done eng',
  dataflow_inv block_execute w0 eng done ->
  NoDup (done ++ order) ->
  topologically_ordered (connections w0) (done ++ order) ->
  run_blocks block_execute eng order = (eng', Ok tt) ->
  dataflow_inv block_execute w0 eng' (done ++ order).
Proof.
  induction order as [|b order IH]; intros eng done eng' I ND T H; simpl in H.
  - inversion H; subst. now rewrite app_nil_r.
  - destruct (_execute_block block_execute eng b) as [eng1 [[]|e]] eqn:Ex;
      [|discriminate].
    pose proof (@dataflow_step eng b done order eng1 I ND T Ex) as I1.
    replace (done ++ b :: order) with ((done ++ [b]) ++ order) in *
      by (rewrite <- app_assoc; reflexivity).
    now apply (IH eng1 (done ++ [b]) eng').
Qed.
End Dataflow.

Lemma dataflow_inv_init block_execute eng :
  dataflow_inv block_execute (workflow eng) (reset_engine eng) [].
Proof.
  unfold dataflow_inv. simpl. repeat split; auto. intros b [].
Qed.

(** A successful [execute]: the order it ran and the state it left. *)
Lemma execute_success_inv block_execute eng eng' rep :
  wf_workflow (workflow eng) ->
  execute block_execute eng = (eng', Ok rep) ->
  status rep = "success" ->
  exists order,
    _topological_sort (workflow eng) = Ok order /\
    Permutation order (PyDict.keys (blocks (workflow eng))) /\
    run_blocks block_execute (reset_engine eng) order = (eng', Ok tt) /\
    rep = {| status := "success"; message := None;
             report_results := Some (results eng');
             report_log := Some (execution_log eng') |} /\
    dataflow_inv block_execute (workflow eng) eng' order.
Proof.
  intros Hwf Hex Hst. unfold execute in Hex.
  change (workflow (reset_engine eng)) with (workflow eng) in Hex.
  destruct (_topological_sort (workflow eng)) as [order|e] eqn:Hts;
    [|discriminate].
  destruct order as [|b order].
  { inversion Hex; subst. discriminate. }
  destruct (run_blocks block_execute (reset_engine eng) (b :: order))
    as [eng1 [[]|e]] eqn:Hrun.
  2:{ inversion Hex; subst. discriminate. }
  inversion Hex; subst eng1 rep. clear Hex Hst.
  destruct (topological_sort_run Hwf) as (r & indeg_f & rest & Hts' & Hinv & _).
  rewrite Hts in Hts'. inversion Hts' as [Ho]. clear Hts'.
  destruct (Nat.eqb_spec (List.length r) (PyDict.len (blocks (workflow eng))))
    as [E|E]; [|discriminate].
  simpl in Ho. subst r.
  destruct (kahn_final_sound Hwf Hinv E) as (ND & Hperm & T & _).
  exists (b :: order). split; [reflexivity|]. split; [exact Hperm|].
  split; [exact Hrun|]. split; [reflexivity|].
  apply (@run_blocks_dataflow block_execute (workflow eng) (b :: order)
           (reset_engine eng) [] eng'); auto.
  apply dataflow_inv_init.
Qed.

(** X4.  After a successful [execute] the results satisfy the data-flow
    equations of the workflow: the result stored for a block is what its
    [execute()] returned on the block with its inputs bound from the
    final results, and an input port holds the value the producing block
    returned under the connected output name ([None] if it has no such
    output).  The results are keyed in execution order. *)
Theorem results_satisfy_dataflow
    (block_execute : Block -> result (dict PyValue))
    (eng eng' : WorkflowEngine) (rep : Report) :
  wf_workflow (workflow eng) ->
  execute block_execute eng = (eng', Ok rep) ->
  status rep = "success" ->
  _topological_sort (workflow eng) = Ok (PyDict.keys (results eng')) /\
  report_results rep = Some (results eng') /\
  (forall b blk0,
     PyDict.get (blocks (workflow eng)) b = Some blk0 ->
     let bound :=
       bind_inputs (results eng') (connections (workflow eng)) b blk0 in
     PyDict.get (blocks (workflow eng')) b = Some bound /\
     (exists r, PyDict.get (results eng') b = Some r /\
                block_execute bound = Ok r) /\
     (forall pre c post,
        connections (workflow eng) = pre ++ c :: post ->
        to_block c = b ->
        (forall c', In c' post -> to_block c' = b ->
                    to_input c' <> to_input c) ->
        exists rf,
          PyDict.get (results eng') (from_block c) = Some rf /\
          PyDict.get (inputs bound) (to_input c)
          = Some (get_or_none rf (from_output c)))).
Proof.
  intros Hwf Hex Hst.
  destruct (@execute_success_inv block_execute eng eng' rep Hwf Hex Hst)
    as (order & Hts & Hperm & Hrun & Hrep & (Ic & Ik & Iu & Id)).
  split; [now rewrite Ik|]. split; [now rewrite Hrep|].
  assert (Hin : forall b, In b (PyDict.keys (blocks (workflow eng))) ->
                          In b order).
  { intros b Hb. apply Permutation_in with (l := PyDict.keys (blocks (workflow eng)));
      auto. now apply Permutation_sym. }
  intros b blk0 G bound.
  assert (Hb : In b order).
  { apply Hin. apply get_in_keys. rewrite G. discriminate. }
  destruct (Id b Hb) as (blk & r & G0 & Gb & Gr & Ge).
  rewrite G in G0. inversion G0; subst blk. clear G0.
  split; [exact Gb|]. split; [now exists r|].
  intros pre c post Hc Ht Hpost.
  assert (Hf : In (from_block c) order).
  { apply Hin. destruct Hwf as [_ Hval]. apply Hval.
    rewrite Hc. apply in_or_app. right. simpl. auto. }
  destruct (Id _ Hf) as (_ & rf & _ & _ & Grf & _).
  exists rf. split; [exact Grf|].
  unfold bound. rewrite Hc, bind_inputs_last by assumption.
  now rewrite Grf.
Qed.

Lemma results_satisfy_dataflow_witness :
  _topological_sort sample_loaded
  = Ok (PyDict.keys
          (results (fst (execute sample_passthrough
                           (WorkflowEngine_init sample_loaded))))) /\
  PyDict.get
    (results (fst (execute sample_passthrough
                     (WorkflowEngine_init sample_loaded)))) "clean"
  = Some [("data", VStr "a.csv")].
Proof.
  split; [|reflexivity].
  apply (@results_satisfy_dataflow sample_passthrough
           (WorkflowEngine_init sample_loaded)
           (fst (execute sample_passthrough (WorkflowEngine_init sample_loaded)))
           {| status := "success"; message := None;
              report_results :=
                Some (results (fst (execute sample_passthrough
                                      (WorkflowEngine_init sample_loaded))));
              report_log :=
                Some (execution_log
                        (fst (execute sample_passthrough
                                (WorkflowEngine_init sample_loaded)))) |}).
  - split.
    + simpl. repeat constructor; simpl; intuition discriminate.
    + intros c [<-|[]]. simpl. auto.
  - reflexivity.
  - reflexivity.
Defined.

(** ** Runs in which every block succeeds *)

Section RunSucceeds.
Variable block_execute : Block -> result (dict PyValue).
Variable eng0 : WorkflowEngine.

(** If each block of [pre ++ post] succeeds on the inputs bound when its
    turn comes, the loop runs through. *)
Lemma run_blocks_succeeds post : forall pre eng1,
  run_blocks block_execute eng0 pre = (eng1, Ok tt) ->
  (forall b, In b post -> In b (PyDict.keys (blocks (workflow eng1)))) ->
  (forall pre' b post' eng2 blk,
     pre ++ post = pre' ++ b :: post' ->
     run_blocks block_execute eng0 pre' = (eng2, Ok tt) ->
     PyDict.get (blocks (workflow eng2)) b = Some blk ->
     exists r,
       block_execute
         (bind_inputs (results eng2) (connections (workflow eng2)) b blk)
       = Ok r) ->
  exists eng', run_blocks block_execute eng0 (pre ++ post) = (eng', Ok tt).
Proof.
  induction post as [|b post IH]; intros pre eng1 Hpre Hin Hall.
  - exists eng1. now rewrite app_nil_r.
  - assert (Hb : In b (PyDict.keys (blocks (workflow eng1))))
      by (apply Hin; simpl; auto).
    apply get_in_keys in Hb.
    destruct (PyDict.get (blocks (workflow eng1)) b) as [blk|] eqn:G;
      [|congruence].
    destruct (Hall pre b post eng1 blk eq_refl Hpre G) as [r Hr].
    pose proof (execute_block_step block_execute eng1 b G) as S. cbv zeta in S.
    destruct S as (_ & _ & _ & Sb & entry & _ & _ & _ & Sr).
    rewrite Hr in Sr. destruct Sr as (Sok & _).
    destruct (_execute_block block_execute eng1 b) as [eng2 res] eqn:Ex.
    simpl in Sok, Sb. subst res.
    replace (pre ++ b :: post) with ((pre ++ [b]) ++ post) in *
      by (rewrite <- app_assoc; reflexivity).
    apply (IH (pre ++ [b]) eng2).
    + rewrite run_blocks_app, Hpre. simpl. now rewrite Ex.
    + intros b' Hb'. rewrite Sb.
      apply in_keys_set. right. apply Hin. simpl. auto.
    + exact Hall.
Qed.
End RunSucceeds.

(** X5.  On a non-empty acyclic workflow with valid connections, if the
    [execute()] of each block returns on the inputs bound to it when its
    turn comes in the order (the blocks before it having run), [execute]
    reports ['success']: every block is run exactly once in the
    topological order, the log holds one ['success'] entry per block in
    that order, and the results are keyed by the blocks in that order. *)
Theorem execute_succeeds
    (block_execute : Block -> result (dict PyValue)) (eng : WorkflowEngine) :
  wf_workflow (workflow eng) ->
  is_dag (workflow eng) ->
  blocks (workflow eng) <> [] ->
  (forall order pre b post eng1 blk,
     _topological_sort (workflow eng) = Ok order ->
     order = pre ++ b :: post ->
     run_blocks block_execute (reset_engine eng) pre = (eng1, Ok tt) ->
     PyDict.get (blocks (workflow eng1)) b = Some blk ->
     exists r,
       block_execute
         (bind_inputs (results eng1) (connections (workflow eng1)) b blk)
       = Ok r) ->
  exists eng' order,
    _topological_sort (workflow eng) = Ok order /\
    Permutation order (PyDict.keys (blocks (workflow eng))) /\
    execute block_execute eng
      = (eng', Ok {| status := "success"; message := None;
                     report_results := Some (results eng');
                     report_log := Some (execution_log eng') |}) /\
    invoked eng' = order /\
    map log_block_id (execution_log eng') = order /\
    Forall (fun en => log_status en = "success") (execution_log eng') /\
    PyDict.keys (results eng') = order.
Proof.
  intros Hwf Hdag Hne Hall.
  destruct (topological_sort_dag Hwf Hdag) as (order & Hts & ND & Hperm & T & _).
  destruct (@run_blocks_succeeds block_execute (reset_engine eng) order []
              (reset_engine eng) eq_refl)
    as [eng' Hrun].
  { intros b Hb. simpl. now apply Permutation_in with (l := order). }
  { intros pre' b post' eng2 blk Ho Hpre G.
    exact (Hall order pre' b post' eng2 blk Hts Ho Hpre G). }
  simpl in Hrun.
  assert (Hex : execute block_execute eng
                = (eng', Ok {| status := "success"; message := None;
                               report_results := Some (results eng');
                               report_log := Some (execution_log eng') |})).
  { unfold execute.
    change (workflow (reset_engine eng)) with (workflow eng).
    rewrite Hts. destruct order as [|b order].
    - exfalso. apply Permutation_nil in Hperm. apply Hne.
      unfold PyDict.keys in Hperm. now apply map_eq_nil in Hperm.
    - now rewrite Hrun. }
  exists eng', order. split; [exact Hts|]. split; [exact Hperm|].
  split; [exact Hex|].
  pose proof (@run_blocks_dataflow block_execute (workflow eng) order
                (reset_engine eng) [] eng' (dataflow_inv_init _ eng) ND T Hrun)
    as (_ & Ik & _).
  apply run_blocks_ok in Hrun.
  destruct Hrun as (Hi & _ & _ & entries & Hl & Hm & Hf).
  simpl in Hi, Hl. rewrite Hi, Hl. auto.
Qed.

Lemma execute_succeeds_witness :
  exists eng' order,
    _topological_sort sample_loaded = Ok order /\
    Permutation order ["clean"; "load"] /\
    execute (Block_execute sample_loader) (WorkflowEngine_init sample_loaded)
      = (eng', Ok {| status := "success"; message := None;
                     report_results := Some (results eng');
                     report_log := Some (execution_log eng') |}) /\
    invoked eng' = order /\
    map log_block_id (execution_log eng') = order /\
    Forall (fun en => log_status en = "success") (execution_log eng') /\
    PyDict.keys (results eng') = order.
Proof.
  assert (Hwf : wf_workflow sample_loaded).
  { split.
    - simpl. repeat constructor; simpl; intuition discriminate.
    - intros c [<-|[]]. simpl. auto. }
  apply (@execute_succeeds (Block_execute sample_loader)
           (WorkflowEngine_init sample_loaded)).
  - exact Hwf.
  - apply (@topological_sort_complete_dag sample_loaded ["load"; "clean"]);
      [exact Hwf|reflexivity|reflexivity].
  - discriminate.
  - intros order pre b post eng1 blk Hts Ho Hpre G.
    assert (E : order = ["load"; "clean"]).
    { cbv in Hts. now inversion Hts. }
    rewrite E in Ho. clear E Hts.
    destruct pre as [|b1 [|b2 [|b3 pre]]]; simpl in Ho.
    + injection Ho as Hb Hpost. subst b.
      cbv in Hpre. inversion Hpre; subst eng1.
      cbv in G. inversion G; subst blk. eexists. reflexivity.
    + injection Ho as Hb1 Hb Hpost. subst b1 b.
      cbv in Hpre. inversion Hpre; subst eng1.
      cbv in G. inversion G; subst blk. eexists. reflexivity.
    + injection Ho as _ _ Hc. discriminate.
    + injection Ho as _ _ Hc. destruct pre; discriminate.
Defined.

(** ** What a run leaves of the blocks *)

Section BlocksKept.
Variable block_execute : Block -> result (dict PyValue).

Lemma execute_block_keeps eng bid b blk :
  PyDict.get (blocks (workflow eng)) b = Some blk ->
  let eng1 := fst (_execute_block block_execute eng bid) in
  connections (workflow eng1) = connections (workflow eng) /\
  exists blk',
    PyDict.get (blocks (workflow eng1)) b = Some blk' /\
    parameters blk' = parameters blk /\
    block_type blk' = block_type blk /\
    forall port,
      (forall c, In c (connections (workflow eng)) ->
         to_block c = b -> to_input c <> port) ->
      PyDict.get (inputs blk') port = PyDict.get (inputs blk) port.
Proof.
  intros G. cbv zeta.
  destruct (PyDict.get (blocks (workflow eng)) bid) as [blk0|] eqn:G0.
  - pose proof (execute_block_step block_execute eng bid G0) as S.
    cbv zeta in S. destruct S as (_ & Sc & _ & Sb & _).
    split; [exact Sc|]. rewrite Sb.
    destruct (String.eqb_spec bid b) as [E|E].
    + subst bid. rewrite get_set_eq. eexists. split; [reflexivity|].
      rewrite G in G0. inversion G0; subst blk0.
      destruct (bind_inputs_fields (results eng) (connections (workflow eng))
                  b blk) as (Ht & Hp & _).
      split; [exact Hp|]. split; [exact Ht|].
      intros port Hport. now apply bind_inputs_untouched.
    + rewrite get_set_ne by exact E. exists blk. auto.
  - rewrite execute_block_missing by exact G0. simpl.
    split; [reflexivity|]. exists blk. auto.
Qed.

Lemma run_blocks_keeps order : forall eng b blk,
  PyDict.get (blocks (workflow eng)) b = Some blk ->
  let eng1 := fst (run_blocks block_execute eng order) in
  connections (workflow eng1) = connections (workflow eng) /\
  exists blk',
    PyDict.get (blocks (workflow eng1)) b = Some blk' /\
    parameters blk' = parameters blk /\
    block_type blk' = block_type blk /\
    forall port,
      (forall c, In c (connections (workflow eng)) ->
         to_block c = b -> to_input c <> port) ->
      PyDict.get (inputs blk') port = PyDict.get (inputs blk) port.
Proof.
  induction order as [|bid order IH]; intros eng b blk G; cbv zeta.
  - simpl. split; [reflexivity|]. exists blk. auto.
  - simpl.
    destruct (@execute_block_keeps eng bid b blk G)
      as (Hc & blk1 & G1 & Hp1 & Ht1 & Hi1).
    destruct (_execute_block block_execute eng bid) as [eng1 [u|e]];
      simpl in Hc, G1.
    + destruct (IH eng1 b blk1 G1) as (Hc2 & blk2 & G2 & Hp2 & Ht2 & Hi2).
      cbv zeta in *. split; [congruence|].
      exists blk2. split; [exact G2|]. split; [congruence|].
      split; [congruence|].
      intros port Hport. rewrite Hi2, Hi1; auto.
      now rewrite Hc.
    + simpl. split; [exact Hc|]. exists blk1. auto.
Qed.
End BlocksKept.

(** X6.  [execute] never clears an input and never touches parameters,
    types or connections: whatever the outcome of the run, every block is
    still there with its type and parameters, and an input port that no
    connection writes keeps the value it had before, for instance from an
    earlier run over a connection that was removed since. *)
Theorem inputs_never_cleared
    (block_execute : Block -> result (dict PyValue)) (eng : WorkflowEngine)
    (b : string) (blk : Block) :
  PyDict.get (blocks (workflow eng)) b = Some blk ->
  let eng' := fst (execute block_execute eng) in
  connections (workflow eng') = connections (workflow eng) /\
  exists blk',
    PyDict.get (blocks (workflow eng')) b = Some blk' /\
    parameters blk' = parameters blk /\
    block_type blk' = block_type blk /\
    forall port,
      (forall c, In c (connections (workflow eng)) ->
         to_block c = b -> to_input c <> port) ->
      PyDict.get (inputs blk') port = PyDict.get (inputs blk) port.
Proof.
  intros G. cbv zeta.
  assert (Hsame : connections (workflow (reset_engine eng))
                  = connections (workflow eng) /\
                  exists blk',
                    PyDict.get (blocks (workflow (reset_engine eng))) b
                      = Some blk' /\
                    parameters blk' = parameters blk /\
                    block_type blk' = block_type blk /\
                    forall port,
                      (forall c, In c (connections (workflow eng)) ->
                         to_block c = b -> to_input c <> port) ->
                      PyDict.get (inputs blk') port = PyDict.get (inputs blk) port).
  { split; [reflexivity|]. exists blk. auto. }
  unfold execute.
  destruct (_topological_sort (workflow (reset_engine eng))) as [order|e];
    [|exact Hsame].
  destruct order as [|b0 order]; [exact Hsame|].
  pose proof (@run_blocks_keeps block_execute (b0 :: order) (reset_engine eng)
                b blk G) as Hrun.
  cbv zeta in Hrun.
  destruct (run_blocks block_execute (reset_engine eng) (b0 :: order))
    as [eng1 [u|e]]; exact Hrun.
Qed.

Lemma inputs_never_cleared_witness :
  exists blk',
    PyDict.get
      (blocks (workflow (fst (execute sample_passthrough
         (WorkflowEngine_init
            (disconnect
               (workflow (fst (execute sample_passthrough
                                 (WorkflowEngine_init sample_loaded))))
               "load" "clean")))))) "clean" = Some blk' /\
    PyDict.get (inputs blk') "data" = Some (VStr "a.csv").
Proof.
  destruct (@inputs_never_cleared sample_passthrough
              (WorkflowEngine_init
                 (disconnect
                    (workflow (fst (execute sample_passthrough
                                      (WorkflowEngine_init sample_loaded))))
                    "load" "clean"))
              "clean"
              (set_input (Block_init "clean" FILTER_ROWS) "data" (VStr "a.csv")))
    as (_ & blk' & G & _ & _ & Hi).
  - reflexivity.
  - exists blk'. split; [exact G|].
    rewrite Hi; [reflexivity|]. intros c [].
Defined.

(** ** Editing a workflow *)

(** X7.  [add_block] with an id that is already in use does not fail and
    does not add anything: the block stored under the id is replaced by a
    fresh block of the new type, with no parameters and no inputs, at the
    same position; the other blocks and all connections, those of the
    replaced block included, stay. *)
Theorem add_block_replaces (uuid8 : string) (w : Workflow) (bt : BlockType)
    (bid : string) (old : Block) :
  registered bt = true ->
  PyDict.get (blocks w) bid = Some old ->
  exists w',
    add_block uuid8 w bt (Some bid) = Ok (w', bid) /\
    PyDict.keys (blocks w') = PyDict.keys (blocks w) /\
    connections w' = connections w /\
    name w' = name w /\
    PyDict.get (blocks w') bid = Some (Block_init bid bt) /\
    (forall b, b <> bid -> PyDict.get (blocks w') b = PyDict.get (blocks w) b).
Proof.
  intros R G. unfold add_block, create_block. rewrite R. simpl.
  eexists. split; [reflexivity|]. simpl.
  split; [|split; [|split; [|split]]]; auto.
  - apply keys_set_present. apply get_in_keys. rewrite G. discriminate.
  - apply get_set_eq.
  - intros b Hb. apply get_set_ne. congruence.
Qed.

Lemma add_block_replaces_witness :
  exists w',
    add_block "0" sample_configured SELECT_COLUMNS (Some "filter")
      = Ok (w', "filter") /\
    PyDict.keys (blocks w') = PyDict.keys (blocks sample_configured) /\
    connections w' = connections sample_configured /\
    name w' = name sample_configured /\
    PyDict.get (blocks w') "filter" = Some (Block_init "filter" SELECT_COLUMNS) /\
    (forall b, b <> "filter" ->
       PyDict.get (blocks w') b = PyDict.get (blocks sample_configured) b).
Proof.
  apply (@add_block_replaces "0" sample_configured SELECT_COLUMNS "filter"
           (set_parameter
              (set_parameter (Block_init "filter" FILTER_ROWS)
                 "column" (VStr "age")) "operator" (VStr ">"))).
  - reflexivity.
  - reflexivity.
Defined.

Lemma filter_id (A : Type) (f : A -> bool) (l : list A) :
  (forall x, In x l -> f x = true) -> filter f l = l.
Proof.
  induction l as [|a l IH]; simpl; intros H; auto.
  rewrite (H a (or_introl eq_refl)). f_equal. apply IH. auto.
Qed.

(** X8.  [disconnect] removes every connection from the first block to
    the second, whatever the ports, and nothing else; doing it twice
    changes nothing more; and it undoes a [connect] between two blocks
    that were not connected before. *)
Theorem disconnect_spec (w : Workflow) (fb tb : string) :
  (forall c, In c (connections (disconnect w fb tb)) <->
     In c (connections w) /\ ~ (from_block c = fb /\ to_block c = tb)) /\
  blocks (disconnect w fb tb) = blocks w /\
  disconnect (disconnect w fb tb) fb tb = disconnect w fb tb /\
  (forall fo ti w',
     (forall c, In c (connections w) ->
        ~ (from_block c = fb /\ to_block c = tb)) ->
     connect w fb fo tb ti = Ok w' ->
     disconnect w' fb tb = w).
Proof.
  assert (Hf : forall c : Connection,
            negb (String.eqb (from_block c) fb && String.eqb (to_block c) tb)
            = true <-> ~ (from_block c = fb /\ to_block c = tb)).
  { intros c. rewrite negb_true_iff, andb_false_iff.
    destruct (String.eqb_spec (from_block c) fb),
             (String.eqb_spec (to_block c) tb); split; intros H;
      try tauto; try (destruct H; discriminate); auto. }
  split; [|split; [|split]].
  - intros c. unfold disconnect. simpl. rewrite filter_In, Hf. tauto.
  - reflexivity.
  - unfold disconnect. simpl. f_equal. apply filter_id.
    intros c Hc. apply filter_In in Hc. tauto.
  - intros fo ti w' Hno Hc. unfold connect in Hc.
    destruct (negb _ || negb _); [discriminate|]. inversion Hc; subst w'.
    unfold disconnect. simpl. rewrite filter_app. simpl.
    rewrite !String.eqb_refl. simpl. rewrite app_nil_r.
    rewrite filter_id.
    + now destruct w.
    + intros c Hin. apply Hf. now apply Hno.
Qed.

Lemma set_block_parameter_keys (w : Workflow) (bid pname : string)
    (value : PyValue) :
  PyDict.keys (blocks (set_block_parameter w bid pname value))
    = PyDict.keys (blocks w) /\
  connections (set_block_parameter w bid pname value) = connections w /\
  name (set_block_parameter w bid pname value) = name w.
Proof.
  unfold set_block_parameter.
  destruct (PyDict.get (blocks w) bid) as [blk|] eqn:G; simpl; auto.
  split; auto.
  apply keys_set_present. apply get_in_keys. rewrite G. discriminate.
Qed.

Lemma disconnect_spec_witness :
  disconnect sample_pipeline "load" "clean"
  = {| name := "pipeline"; blocks := blocks sample_pipeline; connections := [] |}.
Proof.
  apply (proj2 (proj2 (proj2 (disconnect_spec
           {| name := "pipeline"; blocks := blocks sample_pipeline;
              connections := [] |} "load" "clean")))
           "data" "data" sample_pipeline).
  - intros c [].
  - reflexivity.
Defined.

(** X9.  [set_block_parameter] followed by [get_block]: the block shows
    the value under the parameter name, its other parameters, its type
    and its inputs are as before, and no other block changes.  For an id
    that is not in the workflow the call does nothing. *)
Theorem set_then_get_parameter (w : Workflow) (bid pname : string)
    (value : PyValue) :
  (forall blk, get_block w bid = Some blk ->
     exists blk',
       get_block (set_block_parameter w bid pname value) bid = Some blk' /\
       PyDict.get (parameters blk') pname = Some value /\
       (forall p, p <> pname ->
          PyDict.get (parameters blk') p = PyDict.get (parameters blk) p) /\
       block_type blk' = block_type blk /\
       inputs blk' = inputs blk) /\
  (forall b, b <> bid ->
     get_block (set_block_parameter w bid pname value) b = get_block w b) /\
  PyDict.keys (blocks (set_block_parameter w bid pname value))
    = PyDict.keys (blocks w) /\
  connections (set_block_parameter w bid pname value) = connections w /\
  (get_block w bid = None -> set_block_parameter w bid pname value = w).
Proof.
  unfold get_block, set_block_parameter.
  destruct (PyDict.get (blocks w) bid) as [blk|] eqn:G; simpl.
  - split; [|split; [|split; [|split]]]; auto.
    + intros blk0 [= <-]. eexists. rewrite get_set_eq. split; [reflexivity|].
      simpl. split; [apply get_set_eq|]. split; auto.
      intros p Hp. apply get_set_ne. congruence.
    + intros b Hb. apply get_set_ne. congruence.
    + apply keys_set_present. apply get_in_keys. rewrite G. discriminate.
    + discriminate.
  - split; [|split; [|split; [|split]]]; auto. discriminate.
Qed.

Lemma set_then_get_parameter_witness :
  exists blk',
    get_block (set_block_parameter sample_chain "filter" "column" (VStr "age"))
      "filter" = Some blk' /\
    PyDict.get (parameters blk') "column" = Some (VStr "age") /\
    block_type blk' = FILTER_ROWS.
Proof.
  destruct (proj1 (set_then_get_parameter sample_chain "filter" "column"
                     (VStr "age")) (Block_init "filter" FILTER_ROWS) eq_refl)
    as (blk' & G & Hp & _ & Ht & _).
  exists blk'. auto.
Defined.

(** ** Reading a serialised workflow *)

Lemma from_dict_params_keys bid ps : forall w,
  PyDict.keys (blocks (from_dict_params w bid ps)) = PyDict.keys (blocks w) /\
  connections (from_dict_params w bid ps) = connections w /\
  name (from_dict_params w bid ps) = name w.
Proof.
  unfold from_dict_params.
  induction ps as [|[k v] ps IH]; intros w; simpl; auto.
  destruct (IH (set_block_parameter w bid k v)) as (E1 & E2 & E3).
  destruct (set_block_parameter_keys w bid k v) as (K1 & K2 & K3).
  rewrite E1, E2, E3. auto.
Qed.

Lemma from_dict_blocks_keys bds : forall acc w,
  from_dict_blocks acc bds = Ok w ->
  connections w = connections acc /\
  name w = name acc /\
  forall k, In k (PyDict.keys (blocks w)) <->
            In k (PyDict.keys (blocks acc)) \/ In k (map bd_id bds).
Proof.
  induction bds as [|bd bds IH]; intros acc w H; simpl in H.
  - inversion H; subst. split; [reflexivity|]. split; [reflexivity|].
    simpl. tauto.
  - destruct (BlockType_of_value (bd_type bd)) as [bt|e]; [|discriminate].
    cbn [bind] in H.
    destruct (add_block "" acc bt (Some (bd_id bd))) as [[w1 bid]|e] eqn:A;
      [|discriminate].
    cbn [bind fst snd] in H.
    unfold add_block in A. destruct (create_block bt (bd_id bd)) as [blk|e];
      [|discriminate].
    cbn [bind] in A. inversion A; subst w1 bid. clear A.
    apply IH in H. destruct H as (Hc & Hn & Hk).
    match type of Hc with
    | _ = connections (from_dict_params ?w1 ?b ?ps) =>
        destruct (from_dict_params_keys b ps w1) as (E1 & E2 & E3)
    end.
    rewrite E2 in Hc. rewrite E3 in Hn. simpl in Hc, Hn.
    split; [exact Hc|]. split; [exact Hn|].
    intros k. rewrite Hk, E1. simpl. rewrite in_keys_set. intuition.
Qed.

Lemma from_dict_blocks_bad pre : forall acc bd post,
  (forall x, In x pre ->
     exists bt, BlockType_of_value (bd_type x) = Ok bt /\ registered bt = true) ->
  from_dict_blocks acc (pre ++ bd :: post)
  = match BlockType_of_value (bd_type bd) with
    | Raise e => Raise e
    | Ok bt =>
        if registered bt
        then from_dict_blocks acc (pre ++ bd :: post)
        else Raise (ValueError
                      ("Unknown block type: BlockType." ++ BlockType_name bt)%string)
    end.
Proof.
  induction pre as [|x pre IH]; intros acc bd post Hpre; simpl.
  - destruct (BlockType_of_value (bd_type bd)) as [bt|e]; [|reflexivity].
    cbn [bind]. unfold add_block, create_block.
    destruct (registered bt); reflexivity.
  - destruct (Hpre x (or_introl eq_refl)) as (bt & Hb & R).
    rewrite Hb. cbn [bind]. unfold add_block, create_block. rewrite R.
    cbn [bind fst snd].
    rewrite IH by (intros y Hy; apply Hpre; now right).
    destruct (BlockType_of_value (bd_type bd)) as [bt'|e]; [|reflexivity].
    destruct (registered bt'); reflexivity.
Qed.

Lemma from_dict_connections_bad conns : forall w,
  (exists c, In c conns /\
     (~ In (from_block c) (PyDict.keys (blocks w)) \/
      ~ In (to_block c) (PyDict.keys (blocks w)))) ->
  from_dict_connections w conns = Raise (ValueError "Block not found in workflow").
Proof.
  induction conns as [|c conns IH]; intros w (c0 & Hin & Hbad).
  - destruct Hin.
  - simpl. unfold connect.
    destruct (PyDict.contains (blocks w) (from_block c)) eqn:Cf;
      [|reflexivity].
    destruct (PyDict.contains (blocks w) (to_block c)) eqn:Ct;
      [|reflexivity].
    simpl. apply IH. exists c0. simpl.
    destruct Hin as [<-|Hin]; [|auto].
    apply contains_in_keys in Cf, Ct. tauto.
Qed.

(** X10.  [from_dict] returns no workflow for a serialised workflow it
    cannot rebuild: a block whose ['type'] is not the value of a
    [BlockType] member, a block whose type has no class in
    [BLOCK_REGISTRY], and a connection naming an id that no block entry
    declares each raise [ValueError]. *)
Theorem from_dict_rejects (data : WorkflowData) :
  (forall pre bd post e,
     wd_blocks data = Some (pre ++ bd :: post) ->
     (forall x, In x pre ->
        exists bt, BlockType_of_value (bd_type x) = Ok bt /\
                   registered bt = true) ->
     BlockType_of_value (bd_type bd) = Raise e ->
     from_dict data = Raise e /\
     e = ValueError ("'" ++ bd_type bd ++ "' is not a valid BlockType")%string) /\
  (forall pre bd post bt,
     wd_blocks data = Some (pre ++ bd :: post) ->
     (forall x, In x pre ->
        exists bt, BlockType_of_value (bd_type x) = Ok bt /\
                   registered bt = true) ->
     bd_type bd = BlockType_value bt -> registered bt = false ->
     from_dict data
     = Raise (ValueError
                ("Unknown block type: BlockType." ++ BlockType_name bt)%string)) /\
  (forall bds conns c w1,
     wd_blocks data = Some bds -> wd_connections data = Some conns ->
     from_dict_blocks
       (Workflow_init (match wd_name data with
                       | Some n => n
                       | None => "Untitled Workflow"
                       end)) bds = Ok w1 ->
     In c conns ->
     ~ In (from_block c) (map bd_id bds) \/ ~ In (to_block c) (map bd_id bds) ->
     from_dict data = Raise (ValueError "Block not found in workflow")).
Proof.
  split; [|split].
  - intros pre bd post e Hb Hpre He. unfold from_dict. rewrite Hb.
    rewrite from_dict_blocks_bad by exact Hpre. rewrite He. cbn [bind].
    split; [reflexivity|].
    unfold BlockType_of_value in He.
    destruct (find _ all_block_types); [discriminate|]. now inversion He.
  - intros pre bd post bt Hb Hpre Ht R. unfold from_dict. rewrite Hb.
    rewrite from_dict_blocks_bad by exact Hpre.
    rewrite Ht, BlockType_roundtrip, R. reflexivity.
  - intros bds conns c w1 Hb Hc H1 Hin Hbad. unfold from_dict.
    rewrite Hb, Hc, H1. cbn [bind].
    apply from_dict_connections_bad. exists c. split; [exact Hin|].
    apply from_dict_blocks_keys in H1. destruct H1 as (_ & _ & Hk).
    rewrite !Hk. simpl. tauto.
Qed.

Lemma from_dict_rejects_witness :
  from_dict (mk_data "w" [mk_block_data "a" "load_csv" [];
                          mk_block_data "b" "anova" []] [])
  = Raise (ValueError "Unknown block type: BlockType.ANOVA") /\
  from_dict (mk_data "w" [mk_block_data "a" "load_csv" []]
                     [mk_conn "a" "data" "b" "data"])
  = Raise (ValueError "Block not found in workflow").
Proof.
  split.
  - apply (proj1 (proj2 (from_dict_rejects
             (mk_data "w" [mk_block_data "a" "load_csv" [];
                           mk_block_data "b" "anova" []] [])))
             [mk_block_data "a" "load_csv" []] (mk_block_data "b" "anova" [])
             [] ANOVA); try reflexivity.
    intros x [<-|[]]. exists LOAD_CSV. split; reflexivity.
  - apply (proj2 (proj2 (from_dict_rejects
             (mk_data "w" [mk_block_data "a" "load_csv" []]
                      [mk_conn "a" "data" "b" "data"])))
             [mk_block_data "a" "load_csv" []] [mk_conn "a" "data" "b" "data"]
             (mk_conn "a" "data" "b" "data")
             {| name := "w"; blocks := [("a", Block_init "a" LOAD_CSV)];
                connections := [] |}); try reflexivity.
    + simpl. auto.
    + right. simpl. intros [H|[]]. discriminate H.
Defined.

Lemma data_blocks bds :
  (forall bd, In bd bds ->
     exists bt ps,
       bd_type bd = BlockType_value bt /\ registered bt = true /\
       bd_parameters bd = Some ps /\ NoDup (PyDict.keys ps)) ->
  exists bs : list (string * Block),
    bds = map (fun kv : string * Block =>
                 {| bd_id := fst kv;
                    bd_type := BlockType_value (block_type (snd kv));
                    bd_parameters := Some (parameters (snd kv)) |}) bs /\
    map rebuilt_block bs = bs /\
    PyDict.keys bs = map bd_id bds /\
    (forall bid b, In (bid, b) bs ->
       registered (block_type b) = true /\ NoDup (PyDict.keys (parameters b))).
Proof.
  induction bds as [|bd bds IH]; intros H.
  - exists []. simpl. split; [|split; [|split]]; auto. intros ? ? [].
  - destruct IH as (bs & E1 & E2 & E3 & E4).
    { intros x Hx. apply H. now right. }
    destruct (H bd (or_introl eq_refl)) as (bt & ps & Ht & R & Hp & Hnd).
    exists ((bd_id bd,
             {| block_id := bd_id bd; block_type := bt; parameters := ps;
                inputs := PyDict.empty; outputs := PyDict.empty |}) :: bs).
    simpl. split; [|split; [|split]].
    + rewrite <- E1. f_equal. destruct bd as [i t p]. simpl in *. congruence.
    + rewrite E2. reflexivity.
    + now rewrite E3.
    + intros bid b [[= <- <-]|Hin]; simpl; [split; assumption|].
      now apply (E4 bid b).
Qed.

(** X11.  A serialised workflow in which every key is present, the block
    ids are distinct, every type is the value of a registered block type,
    no parameter name repeats and the connections name declared blocks
    is read by [from_dict] into a workflow that [to_dict] writes back
    unchanged. *)
Theorem to_dict_from_dict (nm : string) (bds : list BlockData)
    (conns : list Connection) :
  NoDup (map bd_id bds) ->
  (forall bd, In bd bds ->
     exists bt ps,
       bd_type bd = BlockType_value bt /\ registered bt = true /\
       bd_parameters bd = Some ps /\ NoDup (PyDict.keys ps)) ->
  (forall c, In c conns ->
     In (from_block c) (map bd_id bds) /\ In (to_block c) (map bd_id bds)) ->
  exists w,
    from_dict (mk_data nm bds conns) = Ok w /\
    to_dict w = mk_data nm bds conns /\
    wf_workflow w /\
    PyDict.keys (blocks w) = map bd_id bds.
Proof.
  intros Hnd Hb Hc.
  destruct (data_blocks bds Hb) as (bs & E1 & E2 & E3 & E4).
  set (w0 := {| name := nm; blocks := bs; connections := conns |}).
  assert (Hwf : wf_workflow w0).
  { split; simpl; [now rewrite E3|].
    intros c Hin. simpl. rewrite E3. now apply Hc. }
  assert (Hto : to_dict w0 = mk_data nm bds conns).
  { unfold to_dict, mk_data. simpl. unfold PyDict.items. rewrite <- E1.
    do 2 f_equal. rewrite <- (map_id conns) at 2. apply map_ext.
    intros []. reflexivity. }
  exists w0. rewrite <- Hto at 1.
  rewrite (from_dict_to_dict Hwf) by exact E4.
  simpl. rewrite E2.
  split; [reflexivity|]. split; [exact Hto|]. split; [exact Hwf|exact E3].
Qed.

Lemma to_dict_from_dict_witness :
  exists w,
    from_dict sample_data = Ok w /\
    to_dict w = sample_data /\
    wf_workflow w /\
    PyDict.keys (blocks w) = ["filter"; "test"; "load"].
Proof.
  apply (@to_dict_from_dict "chain").
  - simpl. repeat constructor; simpl; intuition discriminate.
  - intros bd [<-|[<-|[<-|[]]]].
    + exists FILTER_ROWS. eexists. repeat split.
      simpl. repeat constructor; simpl; intuition discriminate.
    + exists T_TEST. eexists. repeat split. constructor.
    + exists LOAD_CSV. eexists. repeat split. constructor.
  - intros c [<-|[<-|[<-|[]]]]; simpl; tauto.
Defined.

(** ** Block types and block classes *)

(** [BlockType(s)] finds a member exactly when [s] is the value of
    one, and that member is the only one with this value: the type
    strings written by [to_dict] identify the block types. *)
Theorem BlockType_of_value_iff (s : string) (bt : BlockType) :
  (BlockType_of_value s = Ok bt <-> BlockType_value bt = s) /\
  (forall bt', BlockType_value bt' = BlockType_value bt -> bt' = bt) /\
  ((forall bt', BlockType_value bt' <> s) ->
   BlockType_of_value s
   = Raise (ValueError ("'" ++ s ++ "' is not a valid BlockType")%string)).
Proof.
  assert (Hinj : forall a b, BlockType_value a = BlockType_value b -> a = b).
  { intros a b H.
    pose proof (BlockType_roundtrip a) as Ha.
    pose proof (BlockType_roundtrip b) as Hb.
    rewrite H in Ha. rewrite Ha in Hb. now inversion Hb. }
  assert (Hfind : forall bt0, BlockType_of_value s = Ok bt0 ->
                              BlockType_value bt0 = s).
  { intros bt0 H. unfold BlockType_of_value in H.
    destruct (find _ all_block_types) as [x|] eqn:F; [|discriminate].
    inversion H; subst x. apply find_some in F. destruct F as [_ F].
    now apply String.eqb_eq in F. }
  split; [|split].
  - split; [apply Hfind|]. intros <-. apply BlockType_roundtrip.
  - intros bt' H. now apply Hinj.
  - intros Hno. destruct (BlockType_of_value s) as [x|e] eqn:E.
    + exfalso. apply (Hno x). now apply Hfind.
    + unfold BlockType_of_value in E.
      destruct (find _ all_block_types); [discriminate|]. now symmetry.
Qed.

(** X12.  The output names of a block are fixed by its type: a loader
    returns ['data'] and ['metadata'], the filtering and cleaning blocks
    return ['data'], the analysis and test blocks return ['result'], and a
    type without a class returns nothing because its [execute] raises
    [NotImplementedError]. *)
Theorem output_names_by_type (ext : External) (b : Block)
    (out : dict PyValue) :
  (Block_execute ext b = Ok out ->
   PyDict.keys out =
   match block_type b with
   | LOAD_CSV => ["data"; "metadata"]
   | FILTER_ROWS | SELECT_COLUMNS | HANDLE_MISSING | REMOVE_DUPLICATES =>
       ["data"]
   | _ => ["result"]
   end) /\
  (registered (block_type b) = false ->
   Block_execute ext b = Raise NotImplementedError).
Proof.
  split.
  - unfold Block_execute, LoadCSVBlock_execute, FilterRowsBlock_execute,
      SelectColumnsBlock_execute, HandleMissingBlock_execute,
      RemoveDuplicatesBlock_execute, TTestBlock_execute, ABTestBlock_execute,
      DescriptiveStatsBlock_execute, CorrelationBlock_execute.
    intros H. destruct (block_type b); try discriminate H;
      inv_bind H; inversion H; reflexivity.
  - unfold Block_execute. destruct (block_type b); simpl;
      try discriminate; reflexivity.
Qed.

Lemma output_names_by_type_witness :
  PyDict.keys [("data", VFrame sample_table)] = ["data"].
Proof.
  apply (proj1 (output_names_by_type no_external unconfigured_filter
                  [("data", VFrame sample_table)])).
  reflexivity.
Defined.

Lemma filter_chain_other ext ops operator data column value :
  (forall s, In s ops -> operator <> VStr s) ->
  (forall df, operator <> VFrame df) ->
  filter_chain ext ops operator data column value = Ok data.
Proof.
  intros Hs Hf. induction ops as [|op ops IH]; simpl; [reflexivity|].
  assert (E : py_eq_str operator op = Ok false).
  { destruct operator; simpl; try reflexivity.
    - destruct (String.eqb_spec s op) as [->|]; [|reflexivity].
      exfalso. apply (Hs op); simpl; auto.
    - exfalso. now apply (Hf df). }
  rewrite E. cbn [bind]. apply IH. intros s Hin. apply Hs. now right.
Qed.

Lemma fill_chain_other ext ms method data columns :
  (forall s, In s ms -> method <> VStr s) ->
  (forall df, method <> VFrame df) ->
  fill_chain ext ms method data columns = Ok data.
Proof.
  intros Hs Hf. induction ms as [|m ms IH]; simpl; [reflexivity|].
  assert (E : py_eq_str method m = Ok false).
  { destruct method; simpl; try reflexivity.
    - destruct (String.eqb_spec s m) as [->|]; [|reflexivity].
      exfalso. apply (Hs m); simpl; auto.
    - exfalso. now apply (Hf df). }
  rewrite E. cbn [bind]. apply IH. intros s Hin. apply Hs. now right.
Qed.

(** X13.  A [FilterRowsBlock] whose [operator] is anything but one of the
    seven operator strings (a misspelt operator, a number, nothing)
    returns its input table as it is, without an error and without
    looking at [column] or [value]; a [HandleMissingBlock] whose [method]
    is none of the six method strings returns the copy of its input
    unchanged. *)
Theorem unknown_operator_passes_through (ext : External) (b : Block) :
  (block_type b = FILTER_ROWS ->
   (forall s, In s ["=="; "!="; ">"; "<"; ">="; "<="; "contains"] ->
      get_or_none (parameters b) "operator" <> VStr s) ->
   (forall df, get_or_none (parameters b) "operator" <> VFrame df) ->
   Block_execute ext b = Ok [("data", get_or_none (inputs b) "data")]) /\
  (block_type b = HANDLE_MISSING ->
   (forall s, In s ["drop"; "mean"; "median"; "mode"; "forward_fill";
                    "backward_fill"] ->
      get_or_none (parameters b) "method" <> VStr s) ->
   (forall df, get_or_none (parameters b) "method" <> VFrame df) ->
   forall copy out,
     ext_copy ext (get_or_none (inputs b) "data") = Ok copy ->
     Block_execute ext b = Ok out ->
     out = [("data", copy)]).
Proof.
  split.
  - intros Ht Hs Hf. unfold Block_execute. rewrite Ht.
    unfold FilterRowsBlock_execute.
    now rewrite filter_chain_other.
  - intros Ht Hs Hf copy out Hc H. unfold Block_execute in H. rewrite Ht in H.
    unfold HandleMissingBlock_execute in H. rewrite Hc in H. cbn [bind] in H.
    destruct (py_truthy (get_or_none (parameters b) "columns")) as [t|e];
      [|discriminate].
    cbn [bind] in H.
    destruct (if t then _ else _) as [cols|e]; [|discriminate].
    cbn [bind] in H. rewrite fill_chain_other in H by assumption.
    cbn [bind] in H. now inversion H.
Qed.

Lemma unknown_operator_passes_through_witness :
  Block_execute no_external
    (set_parameter unconfigured_filter "operator" (VStr "="))
  = Ok [("data", VFrame sample_table)].
Proof.
  apply (proj1 (unknown_operator_passes_through no_external
                  (set_parameter unconfigured_filter "operator" (VStr "=")))).
  - reflexivity.
  - simpl. intros s H E. inversion E; subst s.
    repeat (destruct H as [H|H]; [discriminate H|]). exact H.
  - intros df. discriminate.
Defined.

Lemma get_or_none_set_input_ne b port v k :
  port <> k ->
  get_or_none (inputs (set_input b port v)) k = get_or_none (inputs b) k.
Proof.
  intros H. unfold get_or_none, get_or. simpl. now rewrite get_set_ne.
Qed.

(** X14.  Every block class reads the single input port ['data'] (the
    loader reads none): binding any other port, as a connection with
    another [to_input] does, has no effect on what the block returns. *)
Theorem only_data_input_is_read (ext : External) (b : Block) (port : string)
    (v : PyValue) :
  port <> "data" ->
  Block_execute ext (set_input b port v) = Block_execute ext b.
Proof.
  intros H.
  unfold Block_execute, LoadCSVBlock_execute, FilterRowsBlock_execute,
    SelectColumnsBlock_execute, HandleMissingBlock_execute,
    RemoveDuplicatesBlock_execute, TTestBlock_execute, ABTestBlock_execute,
    DescriptiveStatsBlock_execute, CorrelationBlock_execute.
  rewrite !(get_or_none_set_input_ne b v H).
  destruct (block_type b) eqn:E; simpl; rewrite ?E; reflexivity.
Qed.

Lemma only_data_input_is_read_witness :
  Block_execute no_external (set_input unconfigured_filter "meta" (VInt 1))
  = Block_execute no_external unconfigured_filter.
Proof.
  apply only_data_input_is_read. discriminate.
Defined.

(** X15.  For the optional [columns] parameter of the cleaning and
    analysis blocks every false value means the same as leaving it out:
    [None], an empty list and an empty string all select the columns the
    block picks by default. *)
Theorem falsy_columns_mean_default (ext : External) (b : Block)
    (c1 c2 : PyValue) :
  py_truthy c1 = Ok false ->
  py_truthy c2 = Ok false ->
  In (block_type b)
     [HANDLE_MISSING; REMOVE_DUPLICATES; DESCRIPTIVE_STATS; CORRELATION] ->
  Block_execute ext (set_parameter b "columns" c1)
  = Block_execute ext (set_parameter b "columns" c2).
Proof.
  intros H1 H2 Hin.
  unfold Block_execute, HandleMissingBlock_execute,
    RemoveDuplicatesBlock_execute, DescriptiveStatsBlock_execute,
    CorrelationBlock_execute.
  simpl block_type. simpl inputs. simpl parameters.
  unfold get_or_none.
  rewrite !get_or_set_eq.
  rewrite !get_or_set_ne by discriminate.
  rewrite H1, H2.
  destruct Hin as [<-|[<-|[<-|[<-|[]]]]]; reflexivity.
Qed.

Lemma falsy_columns_mean_default_witness :
  Block_execute no_external
    (set_parameter (Block_init "d" REMOVE_DUPLICATES) "columns" (VList []))
  = Block_execute no_external
    (set_parameter (Block_init "d" REMOVE_DUPLICATES) "columns" VNone).
Proof.
  apply falsy_columns_mean_default; try reflexivity.
  simpl. auto.
Defined.

(** ** Effect-size labels *)

Lemma fltb_Fin a b : fltb (Fin a) (Fin b) = true <-> a < b.
Proof.
  simpl. rewrite negb_true_iff. split.
  - intros H. apply Qnot_le_lt. intros Hle.
    apply Qle_bool_iff in Hle. congruence.
  - intros H. destruct (Qle_bool b a) eqn:E; [|reflexivity].
    apply Qle_bool_iff in E. exfalso. now apply (Qlt_not_le a b).
Qed.

Lemma fltb_Fin_false a b : fltb (Fin a) (Fin b) = false <-> b <= a.
Proof.
  simpl. rewrite negb_false_iff. apply Qle_bool_iff.
Qed.

Lemma fabs_fneg x : fabs (fneg x) = fabs x.
Proof.
  destruct x as [[n d]| | |]; simpl; try reflexivity.
  unfold Qabs, Qopp. simpl. now rewrite Z.abs_opp.
Qed.

(** X16.  The labels of Cohen's d and of a correlation depend on the
    absolute value only, with the bands [0.2 / 0.5 / 0.8] and
    [0.3 / 0.7]; an undefined value (NaN, as from a zero variance) and an
    infinite one get the top label ['large'] or ['strong'].  Cramer's V
    is compared as it is, so every negative value is ['negligible']. *)
Theorem effect_labels :
  (forall d, _interpret_cohens_d (fneg d) = _interpret_cohens_d d) /\
  (forall r, _interpret_correlation (fneg r) = _interpret_correlation r) /\
  (forall x, is_finite x = false ->
     _interpret_cohens_d x = "large" /\ _interpret_correlation x = "strong") /\
  (forall q,
     (Qabs q < 2 # 10 -> _interpret_cohens_d (Fin q) = "negligible") /\
     (2 # 10 <= Qabs q -> Qabs q < 5 # 10 ->
      _interpret_cohens_d (Fin q) = "small") /\
     (5 # 10 <= Qabs q -> Qabs q < 8 # 10 ->
      _interpret_cohens_d (Fin q) = "medium") /\
     (8 # 10 <= Qabs q -> _interpret_cohens_d (Fin q) = "large")) /\
  (forall q,
     (Qabs q < 3 # 10 -> _interpret_correlation (Fin q) = "weak") /\
     (3 # 10 <= Qabs q -> Qabs q < 7 # 10 ->
      _interpret_correlation (Fin q) = "moderate") /\
     (7 # 10 <= Qabs q -> _interpret_correlation (Fin q) = "strong")) /\
  (forall q, q < 0 -> _interpret_cramers_v (Fin q) = "negligible") /\
  _interpret_cramers_v NaN = "large".
Proof.
  assert (T : forall a b, a < b -> fltb (Fin a) (Fin b) = true)
    by (intros; now apply fltb_Fin).
  assert (F : forall a b, b <= a -> fltb (Fin a) (Fin b) = false)
    by (intros; now apply fltb_Fin_false).
  split; [|split; [|split; [|split; [|split; [|split]]]]].
  - intros d. unfold _interpret_cohens_d. now rewrite fabs_fneg.
  - intros r. unfold _interpret_correlation. now rewrite fabs_fneg.
  - intros x Hx. destruct x; try discriminate; split; reflexivity.
  - intros q. unfold _interpret_cohens_d, fabs. repeat split.
    + intros H. now rewrite (T _ _ H).
    + intros H1 H2. now rewrite (F _ _ H1), (T _ _ H2).
    + intros H1 H2.
      rewrite (F (Qabs q) (2 # 10)), (F _ _ H1), (T _ _ H2); [reflexivity|].
      apply Qle_trans with (y := 5 # 10); [discriminate|exact H1].
    + intros H.
      rewrite (F (Qabs q) (2 # 10)), (F (Qabs q) (5 # 10)), (F _ _ H);
        [reflexivity| |];
        (apply Qle_trans with (y := 8 # 10); [discriminate|exact H]).
  - intros q. unfold _interpret_correlation, fabs. repeat split.
    + intros H. now rewrite (T _ _ H).
    + intros H1 H2. now rewrite (F _ _ H1), (T _ _ H2).
    + intros H.
      rewrite (F (Qabs q) (3 # 10)), (F _ _ H); [reflexivity|].
      apply Qle_trans with (y := 7 # 10); [discriminate|exact H].
  - intros q H. unfold _interpret_cramers_v. rewrite T; [reflexivity|].
    apply Qlt_trans with (y := 0); [exact H|reflexivity].
  - reflexivity.
Qed.

(** ** Samples *)

Lemma getcol_length df col c :
  getcol df col = Ok c -> List.length c = List.length (df_rows df).
Proof.
  unfold getcol. destruct (index_of col (df_columns df)); [|discriminate].
  intros [= <-]. unfold column_at. apply length_map.
Qed.

Lemma getcol_Raise df col e : getcol df col = Raise e -> e = KeyError col.
Proof.
  unfold getcol. destruct (index_of col (df_columns df)); [discriminate|].
  now intros [= <-].
Qed.

Lemma dropna_no_na l : Forall (fun c => is_na c = false) (dropna l).
Proof.
  unfold dropna. apply Forall_forall. intros c Hc.
  apply filter_In in Hc. destruct Hc as [_ Hc]. now apply negb_true_iff.
Qed.

Lemma dropna_length l : (List.length (dropna l) <= List.length l)%nat.
Proof. unfold dropna. apply filter_length_le. Qed.

Lemma cell_eq_NA_r a : cell_eq a NA = false.
Proof. destruct a; reflexivity. Qed.

Lemma select_sample_NA df gc vc s :
  select_sample df gc NA vc = Ok s -> s = [].
Proof.
  unfold select_sample.
  destruct (getcol df gc) as [gcol|e]; [|discriminate].
  destruct (getcol df vc) as [vcol|e]; [|discriminate].
  cbn [bind]. intros [= <-].
  assert (E : forall l : list (Cell * Cell),
            filter (fun gv => cell_eq (fst gv) NA) l = []).
  { induction l as [|[a b] l IH]; simpl; [reflexivity|].
    now rewrite cell_eq_NA_r. }
  now rewrite E.
Qed.

(** X17.  The sample of a group, [df[df[group_col] == group][value_col]
    .dropna()], holds no missing value, has at most one observation per
    row and only values of the value column.  A missing group column is
    reported first, as [KeyError] of its name.  Rows whose group label is
    missing belong to no sample: the sample of the group NaN is empty. *)
Theorem select_sample_spec (df : DataFrame) (gc vc : string) (g : Cell) :
  (forall s, select_sample df gc g vc = Ok s ->
     Forall (fun c => is_na c = false) s /\
     (len s <= df_len df)%Z /\
     exists vcol, getcol df vc = Ok vcol /\ incl s vcol) /\
  (index_of gc (df_columns df) = None ->
   select_sample df gc g vc = Raise (KeyError gc)) /\
  (index_of gc (df_columns df) <> None ->
   index_of vc (df_columns df) = None ->
   select_sample df gc g vc = Raise (KeyError vc)) /\
  (index_of gc (df_columns df) <> None ->
   index_of vc (df_columns df) <> None ->
   select_sample df gc NA vc = Ok []).
Proof.
  split; [|split; [|split]].
  - intros s H. unfold select_sample in H.
    destruct (getcol df gc) as [gcol|e] eqn:G; [|discriminate].
    destruct (getcol df vc) as [vcol|e] eqn:V; [|discriminate].
    cbn [bind] in H. inversion H; subst s. clear H.
    split; [apply dropna_no_na|]. split.
    + unfold len, df_len. apply Nat2Z.inj_le.
      eapply Nat.le_trans; [apply dropna_length|].
      rewrite length_map.
      eapply Nat.le_trans; [apply filter_length_le|].
      rewrite length_combine, (getcol_length _ _ G), (getcol_length _ _ V).
      apply Nat.min_le_iff. now left.
    + exists vcol. split; [reflexivity|].
      intros c Hc. unfold dropna in Hc. apply filter_In in Hc.
      destruct Hc as [Hc _]. apply in_map_iff in Hc.
      destruct Hc as ([a b] & <- & Hab). apply filter_In in Hab.
      destruct Hab as [Hab _]. now apply in_combine_r in Hab.
  - intros H. unfold select_sample, getcol. now rewrite H.
  - intros Hg Hv. unfold select_sample, getcol. rewrite Hv.
    destruct (index_of gc (df_columns df)); [reflexivity|congruence].
  - intros Hg Hv. unfold select_sample, getcol.
    destruct (index_of gc (df_columns df)) as [i|]; [|congruence].
    destruct (index_of vc (df_columns df)) as [j|]; [|congruence].
    cbn [bind]. f_equal.
    assert (E : forall l : list (Cell * Cell),
              filter (fun gv => cell_eq (fst gv) NA) l = []).
    { induction l as [|[a b] l IH]; simpl; [reflexivity|].
      now rewrite cell_eq_NA_r. }
    now rewrite E.
Qed.

Lemma select_sample_spec_witness :
  Forall (fun c => is_na c = false) [Num 10] /\
  (len [Num 10] <= df_len sample_table)%Z /\
  exists vcol, getcol sample_table "value" = Ok vcol /\ incl [Num 10] vcol.
Proof.
  apply (proj1 (select_sample_spec sample_table "group" "value" (Str "A"))).
  reflexivity.
Defined.

(** ** The statistical procedures *)

(** X18.  [chi_square_test] reports Cramer's V as 0, labelled
    ['negligible'], whenever the contingency table has a single row or a
    single column, and does not divide in that case; otherwise V is the
    square root of [chi2 / (n * min_dim)] with [n] the table total. *)
Theorem cramers_v_degenerate (st : Stats) (data : DataFrame)
    (col1 col2 : string) (r : ChiSquareResult) :
  chi_square_test st data col1 col2 = Ok r ->
  let table := cs_contingency_table r in
  let min_dim := Z.min (len table - 1) (len (nth 0 table []) - 1) in
  ((len table <= 1)%Z \/ (len (nth 0 table []) <= 1)%Z ->
   cs_effect_size r = of_int 0 /\ cs_effect_interpretation r = "negligible") /\
  ((2 <= len table)%Z -> (2 <= len (nth 0 table []))%Z ->
   cs_effect_size r
   = np_sqrt st (fdiv (cs_statistic r) (of_int (table_total table * min_dim)))) /\
  cs_effect_interpretation r = _interpret_cramers_v (cs_effect_size r) /\
  cs_significant r = fltb (cs_p_value r) (Fin (5 # 100)).
Proof.
  intros H. unfold chi_square_test in H. inv_bind H.
  inversion H; subst r; clear H. cbv zeta. simpl.
  split; [|split; [|split]]; try reflexivity.
  - intros Hd.
    destruct (Z.ltb_spec 0 (Z.min (len a1 - 1) (len (nth 0 a1 []) - 1)));
      [lia|]. split; reflexivity.
  - intros H1 H2.
    destruct (Z.ltb_spec 0 (Z.min (len a1 - 1) (len (nth 0 a1 []) - 1)));
      [reflexivity|lia].
Qed.

Lemma cramers_v_degenerate_witness :
  exists r,
    chi_square_test
      (with_crosstab (sample_stats (Fin (9 # 10)) (Fin (3 # 10))) [[2; 2]]%Z)
      sample_table "group" "const" = Ok r /\
    cs_effect_size r = of_int 0 /\
    cs_effect_interpretation r = "negligible".
Proof.
  eexists. split; [reflexivity|].
  apply (@cramers_v_degenerate
           (with_crosstab (sample_stats (Fin (9 # 10)) (Fin (3 # 10)))
              [[2; 2]]%Z)
           sample_table "group" "const").
  - reflexivity.
  - left. simpl. unfold len. simpl. lia.
Defined.

Lemma combine_fst_snd (A B : Type) (l : list (A * B)) :
  combine (map fst l) (map snd l) = l.
Proof.
  induction l as [|[a b] l IH]; simpl; [reflexivity|]. now rewrite IH.
Qed.

(** X19.  [correlation_test] hands the two columns to SciPy restricted to
    the rows in which both have a value: the two samples have the same
    length and no missing value.  Pearson's test runs only for the method
    name ['pearson']; every other name, ['kendall'] and misspellings
    included, runs Spearman's test, while the reported test name is built
    from the name that was passed. *)
Theorem correlation_test_spec (st : Stats) (data : DataFrame)
    (col1 col2 method : string) (r : CorrelationResult) :
  correlation_test st data col1 col2 method = Ok r ->
  exists c1 c2 d1 d2,
    getcol data col1 = Ok c1 /\ getcol data col2 = Ok c2 /\
    combine d1 d2
    = filter (fun ab : Cell * Cell =>
                negb (is_na (fst ab)) && negb (is_na (snd ab)))
             (combine c1 c2) /\
    List.length d1 = List.length d2 /\
    Forall (fun c => is_na c = false) d1 /\
    Forall (fun c => is_na c = false) d2 /\
    (method = "pearson" ->
     pearsonr st d1 d2 = Ok (co_correlation r, co_p_value r)) /\
    (method <> "pearson" ->
     spearmanr st d1 d2 = Ok (co_correlation r, co_p_value r)) /\
    co_test r = (capitalize st method ++ " correlation")%string /\
    co_strength r = _interpret_correlation (co_correlation r) /\
    co_significant r = fltb (co_p_value r) (Fin (5 # 100)).
Proof.
  intros H. unfold correlation_test in H.
  destruct (getcol data col1) as [c1|e] eqn:G1; [|discriminate].
  destruct (getcol data col2) as [c2|e] eqn:G2; [|discriminate].
  cbn [bind] in H.
  set (common := filter (fun ab : Cell * Cell =>
                           negb (is_na (fst ab)) && negb (is_na (snd ab)))
                        (combine c1 c2)) in *.
  destruct (if String.eqb method "pearson"
            then pearsonr st (map fst common) (map snd common)
            else spearmanr st (map fst common) (map snd common))
    as [[corr p]|e] eqn:T; [|discriminate].
  cbn [bind fst snd] in H. inversion H; subst r; clear H. simpl.
  exists c1, c2, (map fst common), (map snd common).
  split; [reflexivity|]. split; [reflexivity|].
  split; [apply combine_fst_snd|].
  split; [now rewrite !length_map|].
  assert (Hc : forall ab, In ab common ->
            is_na (fst ab) = false /\ is_na (snd ab) = false).
  { intros ab Hab. unfold common in Hab. apply filter_In in Hab.
    destruct Hab as [_ Hab]. apply andb_true_iff in Hab.
    now rewrite !negb_true_iff in Hab. }
  split; [|split].
  - apply Forall_forall. intros c Hin. apply in_map_iff in Hin.
    destruct Hin as (ab & <- & Hab). now apply Hc.
  - apply Forall_forall. intros c Hin. apply in_map_iff in Hin.
    destruct Hin as (ab & <- & Hab). now apply Hc.
  - split; [|split; [|split; [|split]]]; try reflexivity.
    + intros ->. exact T.
    + intros Hm. apply String.eqb_neq in Hm. now rewrite Hm in T.
Qed.

Lemma correlation_test_spec_witness :
  exists r,
    correlation_test (sample_stats (Fin (9 # 10)) (Fin (3 # 10))) sample_table
      "value" "const" "kendall" = Ok r /\
    spearmanr (sample_stats (Fin (9 # 10)) (Fin (3 # 10)))
      [Num 10; Num 11; Num 11] [Num 1; Num 1; Num 1]
    = Ok (co_correlation r, co_p_value r).
Proof.
  eexists. split; [reflexivity|].
  destruct (@correlation_test_spec
              (sample_stats (Fin (9 # 10)) (Fin (3 # 10))) sample_table
              "value" "const" "kendall" _ eq_refl)
    as (c1 & c2 & d1 & d2 & _).
  reflexivity.
Defined.

Lemma mapM_Forall2 (A B : Type) (f : A -> result B) (l : list A) :
  forall ys, mapM f l = Ok ys -> Forall2 (fun x y => f x = Ok y) l ys.
Proof.
  induction l as [|x l IH]; intros ys H; simpl in H.
  - inversion H. constructor.
  - destruct (f x) as [y|e] eqn:E; [|discriminate]. cbn [bind] in H.
    destruct (mapM f l) as [ys'|e]; [|discriminate]. cbn [bind] in H.
    inversion H; subst ys. constructor; auto.
Qed.

Lemma dropna_id l : Forall (fun c => is_na c = false) l -> dropna l = l.
Proof.
  intros H. unfold dropna. apply filter_id. intros c Hc.
  rewrite Forall_forall in H. now rewrite (H c Hc).
Qed.

(** The groups that [groupby] yields with a value: each sample is
    non-empty and free of missing values. *)
Lemma anova_groups_values st data gc vc groups :
  anova_groups st data gc vc = Ok groups ->
  Forall (fun ng : string * list Cell =>
            (1 <= len (snd ng))%Z /\
            Forall (fun c => is_na c = false) (snd ng)) groups.
Proof.
  intros G. unfold anova_groups in G.
  destruct (getcol data gc) as [gcol|e]; [|discriminate]. cbn [bind] in G.
  destruct (mapM _ _) as [all|e] eqn:M; [|discriminate]. cbn [bind] in G.
  inversion G; subst groups. apply Forall_forall. intros ng Hin.
  apply filter_In in Hin. destruct Hin as [Hin Hlen].
  apply Z.ltb_lt in Hlen. split; [lia|].
  apply mapM_Forall2 in M.
  clear - M Hin. induction M as [|x y l l' Hxy M IH]; [destruct Hin|].
  destruct Hin as [<-|Hin]; [|auto].
  destruct (getcol data vc); [|discriminate]. cbn [bind] in Hxy.
  inversion Hxy. simpl. apply dropna_no_na.
Qed.

(** X20.  A report of [anova] lists one statistics entry per group that
    was tested, in the order of the groups, each with at least one
    observation: groups whose values are all missing are left out before
    the test.  The post-hoc comparison is present exactly when the test
    is significant. *)
Theorem anova_report_spec (st : Stats) (data : DataFrame) (gc vc : string)
    (r : AnovaReport) :
  anova st data gc vc = Ok (anova_report r) ->
  exists groups,
    anova_groups st data gc vc = Ok groups /\
    map gs_name (an_group_statistics r) = map fst groups /\
    map gs_n (an_group_statistics r)
    = map (fun ng : string * list Cell => len (snd ng)) groups /\
    Forall (fun g => (1 <= gs_n g)%Z) (an_group_statistics r) /\
    Forall (fun ng : string * list Cell =>
              Forall (fun c => is_na c = false) (snd ng)) groups /\
    an_significant r = fltb (an_p_value r) (Fin (5 # 100)) /\
    (an_posthoc r = None <-> an_significant r = false).
Proof.
  intros H. unfold anova in H.
  destruct (anova_groups st data gc vc) as [groups|e] eqn:G; [|discriminate].
  cbn [bind] in H. destruct (len groups <? 2)%Z; [discriminate|].
  destruct (f_oneway st (map snd groups)) as [[f p]|e]; [|discriminate].
  cbn [bind fst snd] in H.
  pose proof (anova_groups_values _ _ _ _ G) as Hpos.
  destruct (fltb p (Fin (5 # 100))) eqn:Sig.
  - destruct (tukey_hsd st data gc vc) as [ph|e]; [|discriminate].
    cbn [bind] in H.
    destruct (mapM _ groups) as [gstats|e] eqn:M; [|discriminate].
    cbn [bind] in H. inversion H; subst r; clear H. simpl.
    exists groups. split; [reflexivity|].
    apply mapM_Forall2 in M.
    assert (Hg : map gs_name gstats = map fst groups /\
                 map gs_n gstats
                 = map (fun ng : string * list Cell => len (snd ng)) groups /\
                 Forall (fun g => (1 <= gs_n g)%Z) gstats).
    { clear - M Hpos. induction M as [|x y l l' Hxy M IH]; simpl.
      - repeat split; constructor.
      - inversion Hpos as [|? ? [Hx _] Hl]; subst.
        destruct (IH Hl) as (I1 & I2 & I3).
        destruct (series_mean (snd x)); [|discriminate]. cbn [bind] in Hxy.
        destruct (series_std st (snd x)); [|discriminate]. cbn [bind] in Hxy.
        inversion Hxy; subst y. simpl. rewrite I1, I2.
        repeat split; auto. }
    destruct Hg as (H1 & H2 & H3).
    split; [exact H1|]. split; [exact H2|]. split; [exact H3|].
    split; [|split; [now symmetry|]].
    + eapply Forall_impl; [|exact Hpos]. intros a [_ Ha]. exact Ha.
    + split; discriminate.
  - cbn [bind] in H.
    destruct (mapM _ groups) as [gstats|e] eqn:M; [|discriminate].
    cbn [bind] in H. inversion H; subst r; clear H. simpl.
    exists groups. split; [reflexivity|].
    apply mapM_Forall2 in M.
    assert (Hg : map gs_name gstats = map fst groups /\
                 map gs_n gstats
                 = map (fun ng : string * list Cell => len (snd ng)) groups /\
                 Forall (fun g => (1 <= gs_n g)%Z) gstats).
    { clear - M Hpos. induction M as [|x y l l' Hxy M IH]; simpl.
      - repeat split; constructor.
      - inversion Hpos as [|? ? [Hx _] Hl]; subst.
        destruct (IH Hl) as (I1 & I2 & I3).
        destruct (series_mean (snd x)); [|discriminate]. cbn [bind] in Hxy.
        destruct (series_std st (snd x)); [|discriminate]. cbn [bind] in Hxy.
        inversion Hxy; subst y. simpl. rewrite I1, I2.
        repeat split; auto. }
    destruct Hg as (H1 & H2 & H3).
    split; [exact H1|]. split; [exact H2|]. split; [exact H3|].
    split; [|split; [now symmetry|]].
    + eapply Forall_impl; [|exact Hpos]. intros a [_ Ha]. exact Ha.
    + split; reflexivity.
Qed.

Lemma anova_report_spec_witness :
  exists r groups,
    anova (sample_stats (Fin (9 # 10)) (Fin (1 # 100))) sample_table
      "group" "value" = Ok (anova_report r) /\
    anova_groups (sample_stats (Fin (9 # 10)) (Fin (1 # 100))) sample_table
      "group" "value" = Ok groups /\
    map gs_name (an_group_statistics r) = map fst groups /\
    map gs_n (an_group_statistics r) = [1; 2]%Z.
Proof.
  destruct (@anova_report_spec
              (sample_stats (Fin (9 # 10)) (Fin (1 # 100))) sample_table
              "group" "value" _ eq_refl)
    as (groups & G & H1 & H2 & _).
  eexists. exists groups. split; [reflexivity|].
  split; [exact G|]. split; [exact H1|]. reflexivity.
Defined.

(** ** The two-sample A/B test *)

Lemma nonzero_Some x y : nonzero x = Some y -> x = y /\ ftruthy y = true.
Proof.
  unfold nonzero. destruct (ftruthy x) eqn:T; [|discriminate].
  intros [= <-]. auto.
Qed.

(** The fields of the report of [_two_sample_test] that do not depend on
    the test that was chosen. *)
Lemma two_sample_fields st data gc mc control variant alpha r :
  _two_sample_test st data gc mc control variant alpha = Ok r ->
  exists sc sv cm vm cstd cmed vstd vmed,
    select_sample data gc control mc = Ok sc /\
    select_sample data gc variant mc = Ok sv /\
    series_mean sc = Ok cm /\ series_mean sv = Ok vm /\
    absolute (lift r) = fsub vm cm /\
    relative_percent (lift r) = relative_to (fsub vm cm) cm /\
    n_groups r = 2%Z /\ alpha_used r = alpha /\
    is_significant r = fltb (p_value r) alpha /\
    control_group r = py_str st control /\
    variant_groups r = [py_str st variant] /\
    groups r
    = PyDict.set
        [(py_str st control,
          {| ab_n := len sc; ab_mean := cm; ab_std := cstd;
             ab_median := cmed |})]
        (py_str st variant)
        {| ab_n := len sv; ab_mean := vm; ab_std := vstd;
           ab_median := vmed |} /\
    (forall es, effect_size r = Some es -> ftruthy es = true) /\
    (forall pw, statistical_power r = Some pw -> ftruthy pw = true) /\
    (forall lu, confidence_interval (lift r) = Some lu ->
       ftruthy (fst lu) = true).
Proof.
  intros H. unfold _two_sample_test in H.
  inv_bind H.
  repeat match goal with p : (_ * _)%type |- _ => destruct p end.
  inv_bind H.
  inversion H; subst r; clear H. simpl.
  do 8 eexists.
  do 12 (split; [first [eassumption | reflexivity]|]).
  split; [|split].
  - intros es He.
    match type of He with
    | match ?o with Some _ => _ | None => _ end = _ =>
        destruct o; [|discriminate]
    end.
    apply nonzero_Some in He. tauto.
  - intros pw He.
    match type of He with
    | match ?o with Some _ => _ | None => _ end = _ =>
        destruct o; [|discriminate]
    end.
    apply nonzero_Some in He. tauto.
  - intros lu He.
    match type of He with
    | match ?o with Some _ => _ | None => _ end = _ =>
        destruct o as [lu'|]; [|discriminate]
    end.
    destruct (ftruthy (fst lu')) eqn:T; [|discriminate].
    now inversion He; subst.
Qed.

Lemma series_mean_cases l m :
  series_mean l = Ok m -> m = NaN \/ exists q, m = Fin q.
Proof.
  unfold series_mean. destruct (dropna l) as [|x rest].
  - intros [= <-]. now left.
  - destruct (cells_sum (x :: rest)) as [t|e]; [|discriminate].
    cbn [bind]. intros [= <-]. right. eexists. reflexivity.
Qed.

(** X21.  The lift reported by [_two_sample_test] is the variant mean
    minus the control mean; the relative lift is that difference over the
    control mean, times 100, and is 0, without division, when the control
    mean is 0.  With the roles of the two groups exchanged the absolute
    lift changes its sign. *)
Theorem two_sample_lift (st : Stats) (data : DataFrame) (gc mc : string)
    (control variant : Cell) (alpha : PyFloat) (r : TwoSampleResult) :
  _two_sample_test st data gc mc control variant alpha = Ok r ->
  exists sc sv cm vm,
    select_sample data gc control mc = Ok sc /\
    select_sample data gc variant mc = Ok sv /\
    series_mean sc = Ok cm /\ series_mean sv = Ok vm /\
    absolute (lift r) = fsub vm cm /\
    (feqb cm (Fin 0) = true -> relative_percent (lift r) = of_int 0) /\
    (feqb cm (Fin 0) = false ->
     relative_percent (lift r) = fmul (fdiv (fsub vm cm) cm) (of_int 100)) /\
    (forall r', _two_sample_test st data gc mc variant control alpha = Ok r' ->
       absolute (lift r') = fsub cm vm /\
       forall a b, absolute (lift r) = Fin a -> absolute (lift r') = Fin b ->
                   b == - a).
Proof.
  intros H. apply two_sample_fields in H.
  destruct H as (sc & sv & cm & vm & _ & _ & _ & _ & Hsc & Hsv & Hcm & Hvm
                 & Ha & Hr & _).
  exists sc, sv, cm, vm. do 5 (split; [assumption|]).
  split; [|split].
  - intros Z. rewrite Hr. unfold relative_to, fneb. now rewrite Z.
  - intros Z. rewrite Hr. unfold relative_to, fneb. now rewrite Z.
  - intros r' H'. apply two_sample_fields in H'.
    destruct H' as (sc' & sv' & cm' & vm' & _ & _ & _ & _ & Hsc' & Hsv' & Hcm'
                    & Hvm' & Ha' & _).
    rewrite Hsv in Hsc'. inversion Hsc'; subst sc'.
    rewrite Hsc in Hsv'. inversion Hsv'; subst sv'.
    rewrite Hvm in Hcm'. inversion Hcm'; subst cm'.
    rewrite Hcm in Hvm'. inversion Hvm'; subst vm'.
    split; [exact Ha'|].
    intros a b Ea Eb. rewrite Ha in Ea. rewrite Ha' in Eb.
    destruct cm, vm; simpl in Ea, Eb; try discriminate.
    inversion Ea; inversion Eb; subst. ring.
Qed.

Lemma two_sample_lift_witness :
  exists r sc sv cm vm,
    _two_sample_test (sample_stats (Fin (9 # 10)) (Fin (3 # 10))) ab_table
      "group" "value" (Str "A") (Str "B") (Fin (5 # 100)) = Ok r /\
    select_sample ab_table "group" (Str "A") "value" = Ok sc /\
    select_sample ab_table "group" (Str "B") "value" = Ok sv /\
    series_mean sc = Ok cm /\ series_mean sv = Ok vm /\
    absolute (lift r) = fsub vm cm.
Proof.
  destruct (@two_sample_lift (sample_stats (Fin (9 # 10)) (Fin (3 # 10)))
              ab_table "group" "value" (Str "A") (Str "B") (Fin (5 # 100))
              _ eq_refl)
    as (sc & sv & cm & vm & H1 & H2 & H3 & H4 & H5 & _).
  eexists. exists sc, sv, cm, vm. split; [reflexivity|]. auto.
Defined.

(** X22.  [_two_sample_test] writes its optional numbers through
    [x if x else None]: an effect size, a statistical power or a lower
    confidence bound that is exactly zero is reported as missing, so a
    value that is reported is never zero.  The report always counts two
    groups, repeats [alpha] and calls the result significant exactly when
    the p-value is below [alpha] (never for an undefined p-value). *)
Theorem two_sample_optional_never_zero (st : Stats) (data : DataFrame)
    (gc mc : string) (control variant : Cell) (alpha : PyFloat)
    (r : TwoSampleResult) :
  _two_sample_test st data gc mc control variant alpha = Ok r ->
  (forall es, effect_size r = Some es -> feqb es (Fin 0) = false) /\
  (forall pw, statistical_power r = Some pw -> feqb pw (Fin 0) = false) /\
  (forall lo hi, confidence_interval (lift r) = Some (lo, hi) ->
     feqb lo (Fin 0) = false) /\
  n_groups r = 2%Z /\ alpha_used r = alpha /\
  is_significant r = fltb (p_value r) alpha /\
  (p_value r = NaN -> is_significant r = false).
Proof.
  intros H. apply two_sample_fields in H.
  destruct H as (sc & sv & cm & vm & cstd & cmed & vstd & vmed & _ & _ & _ & _
                 & _ & _ & Hn & Hal & Hs & _ & _ & _ & He & Hp & Hc).
  assert (T : forall x, ftruthy x = true -> feqb x (Fin 0) = false).
  { intros x. unfold ftruthy, fneb. apply negb_true_iff. }
  split; [|split; [|split; [|split; [|split; [|split]]]]]; auto.
  - intros lo hi E. apply T. exact (Hc (lo, hi) E).
  - intros E. rewrite Hs, E. reflexivity.
Qed.

Lemma two_sample_optional_never_zero_witness :
  exists r,
    _two_sample_test (sample_stats (Fin (9 # 10)) (Fin (3 # 10))) ab_table
      "group" "value" (Str "A") (Str "B") (Fin (5 # 100)) = Ok r /\
    n_groups r = 2%Z /\ alpha_used r = Fin (5 # 100) /\
    is_significant r = fltb (p_value r) (Fin (5 # 100)).
Proof.
  destruct (@two_sample_optional_never_zero
              (sample_stats (Fin (9 # 10)) (Fin (3 # 10)))
              ab_table "group" "value" (Str "A") (Str "B") (Fin (5 # 100))
              _ eq_refl)
    as (_ & _ & _ & H1 & H2 & H3 & _).
  eexists. split; [reflexivity|]. auto.
Defined.

(** ** Groups of an A/B test *)

(** X23.  [run_ab_test] counts a missing group label as a group of its
    own, because [unique()] lists NaN, but no row compares equal to NaN:
    on a column with one label and missing labels it does not answer
    ['Need at least 2 groups'], it runs the two-sample test against the
    variant ['nan'], whose sample is empty. *)
Theorem missing_label_counts_as_group (st : Stats) (other : ABOther)
    (data : DataFrame) (gc mc : string) (alpha : PyFloat) (gcol : list Cell)
    (g : Cell) (body : ABBody) (ps : PracticalSignificance)
    (recs : list string) :
  getcol data gc = Ok gcol ->
  unique gcol = [g; NA] ->
  run_ab_test st other data gc mc None alpha "continuous"
    = Ok (ab_report body ps recs) ->
  exists r grp,
    body = two_sample r /\
    _two_sample_test st data gc mc g NA alpha = Ok r /\
    select_sample data gc NA mc = Ok [] /\
    control_group r = py_str st g /\
    variant_groups r = ["nan"] /\
    PyDict.get (groups r) "nan" = Some grp /\
    ab_n grp = 0%Z /\ ab_mean grp = NaN.
Proof.
  intros G U H.
  destruct (run_ab_test_two_groups _ _ _ _ _ _ _ H) as (gcol' & G' & H2).
  rewrite G in G'. inversion G'; subst gcol'. clear G'.
  rewrite U in H2. destruct (H2 eq_refl) as (r & Hb & Ht). simpl in Ht.
  pose proof (two_sample_fields _ _ _ _ _ _ _ Ht)
    as (sc & sv & cm & vm & cstd & cmed & vstd & vmed & Hsc & Hsv & Hcm & Hvm
        & _ & _ & _ & _ & _ & Hcg & Hvg & Hg & _).
  pose proof (select_sample_NA _ _ _ Hsv) as ->.
  exists r. eexists. split; [exact Hb|]. split; [exact Ht|].
  split; [exact Hsv|]. split; [exact Hcg|]. split; [exact Hvg|].
  rewrite Hg. change "nan" with (py_str st NA). rewrite get_set_eq.
  split; [reflexivity|]. simpl. split; [reflexivity|].
  simpl in Hvm. now inversion Hvm.
Qed.

Lemma missing_label_counts_as_group_witness :
  exists r grp,
    run_ab_test (sample_stats (Fin (9 # 10)) (Fin (3 # 10))) sample_other
      missing_label_table "group" "value" None (Fin (5 # 100)) "continuous"
    = Ok (ab_report (two_sample r)
            {| threshold := Fin (5 # 100);
               variants := [{| variant := "nan"; relative_change := NaN;
                               is_practically_significant := false |}] |} []) /\
    variant_groups r = ["nan"] /\
    PyDict.get (groups r) "nan" = Some grp /\
    ab_n grp = 0%Z.
Proof.
  destruct (@missing_label_counts_as_group
              (sample_stats (Fin (9 # 10)) (Fin (3 # 10))) sample_other
              missing_label_table "group" "value" (Fin (5 # 100))
              [Str "A"; Str "A"; NA] (Str "A") _ _ _
              eq_refl eq_refl eq_refl)
    as (r & grp & Hb & _ & _ & _ & Hv & Hg & Hn & _).
  exists r, grp. inversion Hb; subst r. split; [reflexivity|]. auto.
Defined.

(** ** Practical significance *)

Lemma fgeb_NaN x : fgeb NaN x = false.
Proof. destruct x; reflexivity. Qed.

Lemma div_neg_nonpos a q : 0 <= a -> q < 0 -> a / q <= 0.
Proof.
  intros Ha Hq.
  assert (Hn : ~ q == 0) by (intros E; rewrite E in Hq; discriminate).
  assert (E : a / q == - (a * / (- q))) by (field; exact Hn).
  rewrite E.
  assert (Hp : 0 <= a * / (- q)).
  { apply Qmult_le_0_compat; [exact Ha|]. apply Qinv_le_0_compat. lra. }
  lra.
Qed.

(** The relative change against a negative control mean is never
    positive. *)
Lemma change_negative_control vm q :
  (vm = NaN \/ exists v, vm = Fin v) -> q < 0 ->
  fgeb (fdiv (fabs (fsub vm (Fin q))) (Fin q)) (Fin (5 # 100)) = false.
Proof.
  intros [->|[v ->]] Hq; [reflexivity|].
  unfold fsub, fneg, fadd, fabs, fdiv.
  assert (Hs : Qsign q = Neg).
  { unfold Qsign. now rewrite (proj1 (Qlt_alt q 0) Hq). }
  rewrite Hs.
  assert (Hle : Qabs (v + - q) / q <= 0).
  { apply div_neg_nonpos; [apply Qabs_nonneg|exact Hq]. }
  unfold fgeb, fgtb. apply orb_false_iff. split.
  - apply fltb_Fin_false. lra.
  - unfold feqb. destruct (Qeq_bool _ _) eqn:E; [|reflexivity].
    apply Qeq_bool_iff in E. lra.
Qed.

Lemma change_zero_control vm q :
  q == 0 ->
  (if fneb (Fin q) (Fin 0)
   then fdiv (fabs (fsub vm (Fin q))) (Fin q) else of_int 0) = of_int 0.
Proof.
  intros E. unfold fneb, feqb.
  now rewrite (proj2 (Qeq_bool_iff q 0) E).
Qed.

Lemma practical_variants_spec st data gc mc control cm gs : forall vs,
  practical_variants st data gc mc control cm gs = Ok vs ->
  map variant vs
  = map (py_str st) (filter (fun g => negb (cell_eq g control)) gs) /\
  Forall (fun v => is_practically_significant v
                   = fgeb (relative_change v) (Fin (5 # 100))) vs /\
  (forall q, cm = Fin q -> q < 0 ->
     Forall (fun v => is_practically_significant v = false) vs) /\
  (forall q, cm = Fin q -> q == 0 ->
     Forall (fun v => relative_change v = of_int 0 /\
                      is_practically_significant v = false) vs).
Proof.
  induction gs as [|g gs IH]; intros vs H; simpl in H.
  - inversion H; subst vs. simpl. repeat split; constructor.
  - destruct (cell_eq g control) eqn:C.
    + simpl. rewrite C. simpl. now apply IH.
    + destruct (select_sample data gc g mc) as [vd|e]; [|discriminate].
      cbn [bind] in H.
      destruct (series_mean vd) as [vm|e] eqn:M; [|discriminate].
      cbn [bind] in H.
      destruct (practical_variants st data gc mc control cm gs) as [more|e];
        [|discriminate].
      cbn [bind] in H. inversion H; subst vs; clear H.
      destruct (IH more eq_refl) as (I1 & I2 & I3 & I4).
      simpl. rewrite C. simpl. rewrite I1.
      split; [reflexivity|]. split; [constructor; [reflexivity|exact I2]|].
      split.
      * intros q -> Hq. constructor; [|now apply (I3 q)]. simpl.
        assert (N : fneb (Fin q) (Fin 0) = true).
        { unfold fneb, feqb. apply negb_true_iff.
          destruct (Qeq_bool q 0) eqn:E; [|reflexivity].
          apply Qeq_bool_iff in E. rewrite E in Hq. discriminate. }
        rewrite N. apply change_negative_control; [|exact Hq].
        now apply series_mean_cases in M.
      * intros q -> Hq. constructor; [|now apply (I4 q)]. simpl.
        rewrite (change_zero_control vm Hq). split; reflexivity.
Qed.

(** X24.  [_assess_practical_significance] lists every group of the
    group column except the control, in order of first appearance, and
    flags a variant when its relative change is at least 0.05.  The
    change is divided by the control mean itself, not by its absolute
    value: with a negative control mean no variant is ever flagged,
    however far its mean is from the control's, and with a control mean
    of 0 every change is reported as 0. *)
Theorem practical_significance_spec (st : Stats) (data : DataFrame)
    (gc mc : string) (control : Cell) (ps : PracticalSignificance) :
  _assess_practical_significance st data gc mc control = Ok ps ->
  exists gcol sc cm,
    getcol data gc = Ok gcol /\
    select_sample data gc control mc = Ok sc /\
    series_mean sc = Ok cm /\
    threshold ps = Fin (5 # 100) /\
    map variant (variants ps)
    = map (py_str st)
          (filter (fun g => negb (cell_eq g control)) (unique gcol)) /\
    Forall (fun v => is_practically_significant v
                     = fgeb (relative_change v) (Fin (5 # 100)))
           (variants ps) /\
    (forall q, cm = Fin q -> q < 0 ->
       Forall (fun v => is_practically_significant v = false) (variants ps)) /\
    (forall q, cm = Fin q -> q == 0 ->
       Forall (fun v => relative_change v = of_int 0 /\
                        is_practically_significant v = false) (variants ps)).
Proof.
  intros H. unfold _assess_practical_significance in H.
  destruct (select_sample data gc control mc) as [sc|e] eqn:S; [|discriminate].
  cbn [bind] in H.
  destruct (series_mean sc) as [cm|e] eqn:M; [|discriminate].
  cbn [bind] in H.
  destruct (getcol data gc) as [gcol|e] eqn:G; [|discriminate].
  cbn [bind] in H.
  destruct (practical_variants st data gc mc control cm (unique gcol))
    as [vs|e] eqn:P; [|discriminate].
  cbn [bind] in H. inversion H; subst ps; clear H. simpl.
  exists gcol, sc, cm.
  do 4 (split; [first [assumption | reflexivity]|]).
  now apply practical_variants_spec in P.
Qed.

Lemma practical_significance_spec_witness :
  exists ps,
    _assess_practical_significance (sample_stats (Fin (9 # 10)) (Fin (3 # 10)))
      loss_table "group" "value" (Str "A") = Ok ps /\
    map variant (variants ps) = ["B"] /\
    Forall (fun v => is_practically_significant v = false) (variants ps).
Proof.
  destruct (@practical_significance_spec
              (sample_stats (Fin (9 # 10)) (Fin (3 # 10)))
              loss_table "group" "value" (Str "A") _ eq_refl)
    as (gcol & sc & cm & G & S & M & _ & Hv & _ & Hneg & _).
  eexists. split; [reflexivity|].
  inversion G; subst gcol. split; [exact Hv|].
  inversion S; subst sc. inversion M; subst cm.
  apply (Hneg _ eq_refl). reflexivity.
Defined.

(** ** Choice of the A/B procedure *)

(** X25.  [run_ab_test] raises [KeyError] for a group column that does
    not exist and returns the error dictionary, without running any
    test, when the column has fewer than two distinct values (an empty
    table included).  Otherwise the control defaults to the first group
    and the procedure is chosen by the number of groups and by whether
    [metric_type] is exactly ['continuous']: every other metric type is
    treated as a binary metric. *)
Theorem run_ab_test_dispatch (st : Stats) (other : ABOther)
    (data : DataFrame) (gc mc : string) (cg : option Cell) (alpha : PyFloat)
    (mt : string) :
  (index_of gc (df_columns data) = None ->
   run_ab_test st other data gc mc cg alpha mt = Raise (KeyError gc)) /\
  (forall gcol, getcol data gc = Ok gcol ->
     let control := match cg with
                    | Some c => c
                    | None => nth 0 (unique gcol) NA
                    end in
     ((len (unique gcol) < 2)%Z ->
      run_ab_test st other data gc mc cg alpha mt
      = Ok (ab_error "Need at least 2 groups for A/B test")) /\
     (df_rows data = [] ->
      run_ab_test st other data gc mc cg alpha mt
      = Ok (ab_error "Need at least 2 groups for A/B test")) /\
     (forall body ps recs,
        run_ab_test st other data gc mc cg alpha mt
        = Ok (ab_report body ps recs) ->
        (2 <= len (unique gcol))%Z /\
        _assess_practical_significance st data gc mc control = Ok ps /\
        recs = _generate_recommendations other body ps /\
        (len (unique gcol) = 2%Z -> mt = "continuous" ->
         exists r, body = two_sample r /\
           _two_sample_test st data gc mc control (nth 1 (unique gcol) NA) alpha
           = Ok r) /\
        (len (unique gcol) = 2%Z -> mt <> "continuous" ->
         exists r, body = other_test r /\
           _proportion_test other data gc mc control (nth 1 (unique gcol) NA)
             alpha = Ok r) /\
        (len (unique gcol) <> 2%Z -> mt = "continuous" ->
         exists r, body = other_test r /\
           _multigroup_test other data gc mc control alpha = Ok r) /\
        (len (unique gcol) <> 2%Z -> mt <> "continuous" ->
         exists r, body = other_test r /\
           _multigroup_proportion_test other data gc mc control alpha = Ok r))).
Proof.
  split.
  - intros Hi. unfold run_ab_test, getcol. now rewrite Hi.
  - intros gcol G control. split; [|split].
    + intros L. unfold run_ab_test. rewrite G. cbn [bind].
      apply Z.ltb_lt in L. now rewrite L.
    + intros He. unfold run_ab_test. rewrite G. cbn [bind].
      assert (E : gcol = []).
      { unfold getcol in G.
        destruct (index_of gc (df_columns data)); [|discriminate].
        inversion G. unfold column_at. now rewrite He. }
      subst gcol. reflexivity.
    + intros body ps recs H. unfold run_ab_test in H. rewrite G in H.
      cbn [bind] in H.
      destruct (Z.ltb_spec (len (unique gcol)) 2) as [L|L]; [discriminate|].
      split; [lia|].
      fold control in H.
      destruct (Z.eqb_spec (len (unique gcol)) 2) as [E2|E2];
        destruct (String.eqb_spec mt "continuous") as [Em|Em];
        inv_bind H; inversion H; subst; clear H;
        repeat match goal with
        | E : bind _ _ = Ok _ |- _ => inv_bind E; inversion E; subst; clear E
        end;
        (split; [reflexivity|]); (split; [reflexivity|]);
        repeat split; intros; try congruence; try lia;
        eexists; split; reflexivity.
Qed.

Lemma run_ab_test_dispatch_witness :
  run_ab_test (sample_stats (Fin (9 # 10)) (Fin (3 # 10))) sample_other
    one_group_table "group" "value" None (Fin (5 # 100)) "continuous"
  = Ok (ab_error "Need at least 2 groups for A/B test").
Proof.
  apply (proj1 (proj2 (run_ab_test_dispatch
                  (sample_stats (Fin (9 # 10)) (Fin (3 # 10))) sample_other
                  one_group_table "group" "value" None (Fin (5 # 100))
                  "continuous") [Str "A"; Str "A"; Str "A"] eq_refl)).
  reflexivity.
Defined.

(** ** The multi-group A/B test *)

Lemma in_fold_set (V : Type) (l : list (string * V)) : forall acc kv,
  In kv (fold_left (fun d (ng : string * V) => PyDict.set d (fst ng) (snd ng))
                   l acc) ->
  In kv acc \/ In kv l.
Proof.
  induction l as [|[k v] l IH]; intros acc kv H; simpl in H; [now left|].
  apply IH in H. destruct H as [H|H]; [|right; now right].
  apply in_set_inv in H. destruct H as [->|H]; [right; now left|now left].
Qed.

Lemma NoDup_fold_set (V : Type) (l : list (string * V)) : forall acc,
  NoDup (PyDict.keys acc) ->
  NoDup (PyDict.keys
           (fold_left (fun d (ng : string * V) => PyDict.set d (fst ng) (snd ng))
                      l acc)).
Proof.
  induction l as [|[k v] l IH]; intros acc H; simpl; [exact H|].
  apply IH. now apply NoDup_keys_set.
Qed.

Lemma groups_info_spec st cm items : forall info,
  ABTestEngine.groups_info st cm items = Ok info ->
  PyDict.keys info = PyDict.keys items /\
  forall k values, In (k, values) items ->
    exists mean sd,
      series_mean values = Ok mean /\
      In (k, {| ABTestEngine.gi_n := len values;
                ABTestEngine.gi_mean := mean;
                ABTestEngine.gi_std := sd;
                ABTestEngine.gi_lift_absolute := fsub mean cm;
                ABTestEngine.gi_lift_relative_percent
                  := relative_to (fsub mean cm) cm |}) info.
Proof.
  induction items as [|[k v] items IH]; intros info H; simpl in H.
  - inversion H; subst. split; [reflexivity|]. intros ? ? [].
  - destruct (series_mean v) as [mean|e] eqn:M; [|discriminate].
    cbn [bind] in H.
    destruct (series_std st v) as [sd|e]; [|discriminate]. cbn [bind] in H.
    destruct (ABTestEngine.groups_info st cm items) as [more|e];
      [|discriminate].
    cbn [bind] in H. inversion H; subst info; clear H.
    destruct (IH more eq_refl) as [Hk Hin]. split.
    + simpl. now rewrite Hk.
    + intros k' values [[= <- <-]|Hi].
      * exists mean, sd. split; [exact M|]. now left.
      * destruct (Hin k' values Hi) as (m' & s' & Hm & Hi').
        exists m', s'. split; [exact Hm|]. now right.
Qed.

Lemma series_mean_nonempty l :
  (1 <= len l)%Z -> Forall (fun c => is_na c = false) l ->
  forall m, series_mean l = Ok m -> exists q, m = Fin q.
Proof.
  intros Hl Hna m H. unfold series_mean in H. rewrite (dropna_id Hna) in H.
  destruct l as [|x rest]; [unfold len in Hl; simpl in Hl; lia|].
  destruct (cells_sum (x :: rest)) as [t|e]; [|discriminate].
  cbn [bind] in H. inversion H. eexists. reflexivity.
Qed.

(** X26.  [_multigroup_test] looks the control up among the groups that
    have at least one value: a control that is no such group (a label
    that does not occur, the missing label, a group whose values are all
    missing) ends in [KeyError] of its text, after the ANOVA has run.
    In a report the control is no variant, the variants are the other
    groups with a value, and the control's own lift is 0. *)
Theorem multigroup_control (st : Stats) (data : DataFrame) (gc mc : string)
    (control : Cell) (alpha : PyFloat) :
  (forall r, ABTestEngine._multigroup_test st data gc mc control alpha = Ok r ->
     exists gd,
       ABTestEngine.groups_data st data gc mc = Ok gd /\
       In (py_str st control) (PyDict.keys gd) /\
       ABTestEngine.mg_n_groups r = len gd /\
       PyDict.keys (ABTestEngine.mg_groups r) = PyDict.keys gd /\
       ABTestEngine.mg_variant_groups r
       = filter (fun k => negb (String.eqb k (py_str st control)))
                (PyDict.keys gd) /\
       ~ In (py_str st control) (ABTestEngine.mg_variant_groups r) /\
       exists gi d,
         In (py_str st control, gi) (ABTestEngine.mg_groups r) /\
         ABTestEngine.gi_lift_absolute gi = Fin d /\ d == 0 /\
         feqb (ABTestEngine.gi_lift_relative_percent gi) (Fin 0) = true) /\
  (forall gd fp,
     ABTestEngine.groups_data st data gc mc = Ok gd ->
     f_oneway st (PyDict.values gd) = Ok fp ->
     ~ In (py_str st control) (PyDict.keys gd) ->
     ABTestEngine._multigroup_test st data gc mc control alpha
     = Raise (KeyError (py_str st control))).
Proof.
  split.
  - intros r H. unfold ABTestEngine._multigroup_test in H.
    destruct (ABTestEngine.groups_data st data gc mc) as [gd|e] eqn:GD;
      [|discriminate].
    cbn [bind] in H.
    destruct (f_oneway st (PyDict.values gd)) as [fp|e]; [|discriminate].
    cbn [bind] in H.
    destruct (PyDict.getitem gd (py_str st control)) as [cv|e] eqn:GI;
      [|discriminate].
    cbn [bind] in H.
    destruct (series_mean cv) as [cm|e] eqn:CM; [|discriminate].
    cbn [bind] in H.
    destruct (ABTestEngine.groups_info st cm (PyDict.items gd)) as [info|e]
      eqn:GInfo; [|discriminate].
    cbn [bind] in H. inversion H; subst r; clear H. simpl.
    apply getitem_Ok in GI.
    destruct (groups_info_spec _ _ _ GInfo) as [Hkeys Hin].
    exists gd. split; [reflexivity|].
    split; [apply get_in_keys; rewrite GI; discriminate|].
    split; [reflexivity|]. split; [exact Hkeys|]. split; [reflexivity|].
    split.
    { intros Hf. apply filter_In in Hf. destruct Hf as [_ Hf].
      now rewrite String.eqb_refl in Hf. }
    destruct (Hin (py_str st control) cv (get_Some_In _ _ GI))
      as (mean & sd & Hm & Hi).
    rewrite CM in Hm. inversion Hm; subst mean. clear Hm.
    assert (Hq : exists q, cm = Fin q).
    { unfold ABTestEngine.groups_data in GD.
      destruct (anova_groups st data gc mc) as [groups|e] eqn:AG;
        [|discriminate].
      cbn [bind] in GD. inversion GD; subst gd. clear GD.
      apply get_Some_In in GI. apply in_fold_set in GI.
      destruct GI as [[]|GI].
      pose proof (anova_groups_values _ _ _ _ AG) as Hv.
      rewrite Forall_forall in Hv. destruct (Hv _ GI) as [Hl Hna].
      exact (series_mean_nonempty Hl Hna CM). }
    destruct Hq as [q ->].
    eexists. exists (q + - q). split; [exact Hi|]. simpl.
    split; [reflexivity|]. split; [ring|].
    unfold relative_to, fneb, feqb.
    destruct (Qeq_bool q 0) eqn:Z; simpl; [reflexivity|].
    assert (Hs : Qsign q <> Zero).
    { unfold Qsign. destruct (Qcompare q 0) eqn:C; try discriminate.
      apply Qeq_alt in C. apply Qeq_bool_iff in C. congruence. }
    destruct (Qsign q); [| congruence |]; simpl;
      apply Qeq_bool_iff; unfold Qdiv; ring.
  - intros gd fp GD F Hno. unfold ABTestEngine._multigroup_test.
    rewrite GD. cbn [bind]. rewrite F. cbn [bind].
    unfold PyDict.getitem. apply get_not_in_keys in Hno. now rewrite Hno.
Qed.

Lemma multigroup_control_witness :
  ABTestEngine._multigroup_test (sample_stats (Fin (9 # 10)) (Fin (3 # 10)))
    three_group_table "group" "value" (Str "C") (Fin (5 # 100))
  = Raise (KeyError "C").
Proof.
  apply (proj2 (multigroup_control (sample_stats (Fin (9 # 10)) (Fin (3 # 10)))
                  three_group_table "group" "value" (Str "C") (Fin (5 # 100)))
           [("A", [Num 10]); ("B", [Num 12; Num 14])]
           (Fin 2, Fin (3 # 10))).
  - reflexivity.
  - reflexivity.
  - simpl. intros [H|[H|[]]]; discriminate H.
Defined.

(** ** The proportion test *)

Lemma select_sample_group_rows df gc g mc :
  select_sample df gc g mc
  = (rows <- group_rows df gc g mc ;; Ok (dropna rows)).
Proof.
  unfold select_sample, group_rows.
  destruct (getcol df gc); [|reflexivity].
  destruct (getcol df mc); reflexivity.
Qed.

Lemma dropna_isna_length l :
  (List.length (dropna l) + List.length (filter is_na l) = List.length l)%nat.
Proof.
  unfold dropna. induction l as [|c l IH]; simpl; [reflexivity|].
  destruct (is_na c); simpl; lia.
Qed.

(** X27.  [_proportion_test] does not drop missing values: the [n] of a
    group counts every row of the group, the rows without a metric value
    included, so these rows weigh as failures, whereas the two-sample test
    leaves them out.  The test is run with the variant first, the lift is
    the variant proportion minus the control proportion, and the
    confidence interval is always reported, centred on the lift. *)
Theorem proportion_test_spec (st : Stats) (po : PropOracles)
    (data : DataFrame) (gc mc : string) (control variant : Cell)
    (alpha : PyFloat) (r : ABTestEngine.ProportionResult) :
  ABTestEngine._proportion_test st po data gc mc control variant alpha = Ok r ->
  exists crows vrows cs vs,
    group_rows data gc control mc = Ok crows /\
    group_rows data gc variant mc = Ok vrows /\
    series_sum po crows = Ok cs /\ series_sum po vrows = Ok vs /\
    proportions_ztest po vs cs (len vrows) (len crows)
    = Ok (ABTestEngine.pr_statistic r, ABTestEngine.pr_p_value r) /\
    (exists g,
       PyDict.get (ABTestEngine.pr_groups r) (py_str st variant) = Some g /\
       ABTestEngine.pg_n g = len vrows /\
       ABTestEngine.pg_proportion g = fdiv vs (of_int (len vrows))) /\
    select_sample data gc control mc = Ok (dropna crows) /\
    select_sample data gc variant mc = Ok (dropna vrows) /\
    (len vrows = len (dropna vrows) + isna_sum vrows)%Z /\
    (len crows = len (dropna crows) + isna_sum crows)%Z /\
    absolute (ABTestEngine.pr_lift r)
    = fsub (fdiv vs (of_int (len vrows))) (fdiv cs (of_int (len crows))) /\
    exists lo hi,
      confidence_interval (ABTestEngine.pr_lift r) = Some (lo, hi) /\
      forall l h a, lo = Fin l -> hi = Fin h ->
        absolute (ABTestEngine.pr_lift r) = Fin a -> l + h == 2 * a.
Proof.
  intros H. unfold ABTestEngine._proportion_test in H.
  destruct (group_rows data gc control mc) as [crows|e] eqn:GC; [|discriminate].
  cbn [bind] in H.
  destruct (group_rows data gc variant mc) as [vrows|e] eqn:GV; [|discriminate].
  cbn [bind] in H.
  destruct (series_sum po crows) as [cs|e] eqn:SC; [|discriminate].
  cbn [bind] in H.
  destruct (series_sum po vrows) as [vs|e] eqn:SV; [|discriminate].
  cbn [bind] in H.
  destruct (proportions_ztest po vs cs (len vrows) (len crows)) as [[z p]|e]
    eqn:ZT; [|discriminate].
  cbn [bind fst snd] in H.
  destruct (py_int po cs) as [ics|e]; [|discriminate]. cbn [bind] in H.
  destruct (py_int po vs) as [ivs|e]; [|discriminate]. cbn [bind] in H.
  match type of H with
  | context [PyDict.set ?a ?b ?c] => set (grp := PyDict.set a b c) in H
  end.
  match type of H with
  | context [np_sqrt st ?x] => set (se := np_sqrt st x) in H
  end.
  set (lift_abs := fsub (fdiv vs (of_int (len vrows)))
                        (fdiv cs (of_int (len crows)))) in H.
  injection H as <-.
  cbn [ABTestEngine.pr_statistic ABTestEngine.pr_p_value ABTestEngine.pr_groups
       ABTestEngine.pr_lift absolute confidence_interval].
  exists crows, vrows, cs, vs.
  do 5 (split; [first [assumption | reflexivity]|]).
  split.
  { subst grp. eexists. rewrite get_set_eq.
    split; [reflexivity|split; reflexivity]. }
  rewrite !select_sample_group_rows, GC, GV. cbn [bind].
  do 2 (split; [reflexivity|]).
  assert (Hlen : forall l, (len l = len (dropna l) + isna_sum l)%Z).
  { intros l. unfold len, isna_sum.
    pose proof (dropna_isna_length l). lia. }
  split; [apply Hlen|]. split; [apply Hlen|]. split; [reflexivity|].
  do 2 eexists. split; [reflexivity|].
  clearbody lift_abs se.
  intros l h a El Eh Ea. subst lift_abs.
  destruct se as [s| | |]; simpl in El, Eh; try discriminate.
  inversion El; inversion Eh; subst. ring.
Qed.

Lemma proportion_test_spec_witness :
  exists r g,
    ABTestEngine._proportion_test (sample_stats (Fin (9 # 10)) (Fin (3 # 10)))
      sample_prop_oracles conversion_table "group" "converted"
      (Str "B") (Str "A") (Fin (5 # 100)) = Ok r /\
    PyDict.get (ABTestEngine.pr_groups r) "A" = Some g /\
    ABTestEngine.pg_n g = 2%Z /\
    select_sample conversion_table "group" (Str "A") "converted" = Ok [Num 1].
Proof.
  destruct (@proportion_test_spec (sample_stats (Fin (9 # 10)) (Fin (3 # 10)))
              sample_prop_oracles conversion_table "group" "converted"
              (Str "B") (Str "A") (Fin (5 # 100)) _ eq_refl)
    as (crows & vrows & cs & vs & _ & GV & _ & _ & _ & (g & Hg & Hn & _) & _
        & Hs & _).
  inversion GV; subst vrows.
  eexists. exists g. split; [reflexivity|]. split; [exact Hg|].
  split; [exact Hn|exact Hs].
Defined.

(** ** Column types *)

Lemma unique_from_length seen col :
  (List.length (unique_from seen col) <= List.length col)%nat.
Proof.
  revert seen. induction col as [|c col IH]; intros seen; simpl; [lia|].
  destruct (existsb (cell_same c) seen); simpl.
  - specialize (IH seen). lia.
  - specialize (IH (c :: seen)). lia.
Qed.

Lemma nunique_le col :
  (nunique col <= len (dropna col))%Z /\ (len (dropna col) <= len col)%Z.
Proof.
  unfold nunique, unique, len. split.
  - apply Nat2Z.inj_le. apply unique_from_length.
  - apply Nat2Z.inj_le. apply dropna_length.
Qed.

Lemma nunique_pos col : (0 < len (dropna col))%Z -> (1 <= nunique col)%Z.
Proof.
  unfold nunique, unique, len. intros H.
  destruct (dropna col) as [|c rest]; [simpl in H; lia|].
  simpl. lia.
Qed.

Lemma dropna_In_NA col : In NA col -> (len (dropna col) < len col)%Z.
Proof.
  unfold len. intros H. apply Nat2Z.inj_lt.
  pose proof (dropna_isna_length col) as E.
  assert (In NA (filter is_na col)) by (apply filter_In; auto).
  destruct (filter is_na col); [contradiction|]. simpl in E. lia.
Qed.

Lemma dropna_all_na col :
  len (dropna col) = 0%Z <-> Forall (fun c => is_na c = true) col.
Proof.
  unfold len, dropna. split.
  - intros H. apply Forall_forall. intros c Hc.
    destruct (is_na c) eqn:E; [reflexivity|]. exfalso.
    assert (Hin : In c (filter (fun c => negb (is_na c)) col)).
    { apply filter_In. now rewrite E. }
    destruct (filter _ col); [contradiction|]. simpl in H. lia.
  - intros H. rewrite Forall_forall in H.
    assert (E : filter (fun c => negb (is_na c)) col = []).
    { induction col as [|c col IH]; simpl; [reflexivity|].
      rewrite (H c (or_introl eq_refl)). simpl.
      apply IH. intros x Hx. apply H. now right. }
    now rewrite E.
Qed.

Lemma Qdiv_lt_inv a b c : 0 < b -> a / b < c -> a < c * b.
Proof.
  intros Hb H.
  assert (Hn : ~ b == 0) by (intros E; rewrite E in Hb; discriminate).
  assert (E : a == a / b * b) by (field; exact Hn).
  rewrite E. now apply Qmult_lt_compat_r.
Qed.

(** X28.  [_infer_column_type] always answers with one of its nine
    labels (the division by the length never fails).  The answer is
    ['empty'] exactly when every value is missing.  A numeric column is
    an ['id'] only without missing values, and whenever all its values
    differ and are not only 0 and 1, measurements included.  A
    non-numeric column is ['categorical'] only when it has more than
    twenty rows per distinct value, and is ['text'] when all its values
    are present and differ. *)
Theorem column_type_spec (series : Series) :
  (exists label,
     _infer_column_type series = Ok label /\
     In label ["empty"; "datetime"; "binary"; "id"; "discrete_numeric";
               "continuous_numeric"; "categorical";
               "high_cardinality_categorical"; "text"]) /\
  (_infer_column_type series = Ok "empty" <->
   Forall (fun c => is_na c = true) (s_values series)) /\
  (s_dtype series = numeric_dtype ->
   (In NA (s_values series) -> _infer_column_type series <> Ok "id") /\
   (nunique (s_values series) = len (s_values series) ->
    (0 < len (s_values series))%Z ->
    forallb zero_or_one (unique (dropna (s_values series))) = false ->
    _infer_column_type series = Ok "id")) /\
  (s_dtype series = other_dtype ->
   (_infer_column_type series = Ok "categorical" ->
    (20 * nunique (s_values series) < len (s_values series))%Z /\
    (20 < len (s_values series))%Z) /\
   (nunique (s_values series) = len (s_values series) ->
    (0 < len (s_values series))%Z ->
    _infer_column_type series = Ok "text")).
Proof.
  destruct series as [kind col]. simpl.
  pose proof (nunique_le col) as [Hn1 Hn2].
  assert (Hdiv : (0 < len (dropna col))%Z ->
            py_int_div (nunique col) (len col)
            = Ok (Fin (inject_Z (nunique col) / inject_Z (len col)))).
  { intros Hp. unfold py_int_div.
    destruct (Z.eqb_spec (len col) 0); [lia|reflexivity]. }
  assert (Hlen0 : (0 <= len (dropna col))%Z) by (unfold len; lia).
  split; [|split; [|split]].
  - unfold _infer_column_type. simpl.
    destruct (Z.eqb_spec (len (dropna col)) 0) as [E|E].
    + eexists. split; [reflexivity|]. simpl. auto.
    + destruct kind.
      * eexists. split; [reflexivity|]. simpl. auto.
      * destruct (forallb _ _); [eexists; split; [reflexivity|simpl; auto]|].
        destruct (_ =? _)%Z; [eexists; split; [reflexivity|simpl; auto 10]|].
        destruct (_ <? _)%Z; eexists; (split; [reflexivity|simpl; auto 10]).
      * rewrite Hdiv by lia. cbn [bind].
        destruct (fltb _ (Fin (5 # 100)));
          [eexists; split; [reflexivity|simpl; auto 10]|].
        destruct (fltb _ (Fin (5 # 10)));
          eexists; (split; [reflexivity|simpl; auto 10]).
  - rewrite <- dropna_all_na. unfold _infer_column_type. simpl.
    destruct (Z.eqb_spec (len (dropna col)) 0) as [E|E].
    + tauto.
    + split; [|tauto]. intros H. exfalso. destruct kind.
      * discriminate.
      * destruct (forallb _ _); [discriminate|].
        destruct (_ =? _)%Z; [discriminate|].
        destruct (_ <? _)%Z; discriminate.
      * rewrite Hdiv in H by lia. cbn [bind] in H.
        destruct (fltb _ (Fin (5 # 100))); [discriminate|].
        destruct (fltb _ (Fin (5 # 10))); discriminate.
  - intros ->. split.
    + intros Hna H. unfold _infer_column_type in H. simpl in H.
      pose proof (dropna_In_NA col Hna) as Hlt.
      destruct (Z.eqb_spec (len (dropna col)) 0); [discriminate|].
      destruct (forallb _ _); [discriminate|].
      destruct (Z.eqb_spec (nunique col) (len col)); [lia|].
      destruct (_ <? _)%Z; discriminate.
    + intros Hu Hp Hb. unfold _infer_column_type. simpl.
      destruct (Z.eqb_spec (len (dropna col)) 0); [lia|].
      rewrite Hb. rewrite Hu, Z.eqb_refl. reflexivity.
  - intros ->. split.
    + intros H. unfold _infer_column_type in H. simpl in H.
      destruct (Z.eqb_spec (len (dropna col)) 0) as [E|E]; [discriminate|].
      rewrite Hdiv in H by lia. cbn [bind] in H.
      destruct (fltb _ (Fin (5 # 100))) eqn:F.
      2:{ destruct (fltb _ (Fin (5 # 10))); discriminate. }
      apply fltb_Fin in F.
      assert (Hpos : (0 < len col)%Z) by lia.
      assert (Hu : (1 <= nunique col)%Z) by (apply nunique_pos; lia).
      assert (Hlt : (20 * nunique col < len col)%Z).
      { apply Qdiv_lt_inv in F.
        - unfold Qlt, Qmult, inject_Z in F. cbn [Qnum Qden Pos.mul] in F. lia.
        - unfold Qlt, inject_Z. simpl. lia. }
      split; [exact Hlt|lia].
    + intros Hu Hp. unfold _infer_column_type. simpl.
      destruct (Z.eqb_spec (len (dropna col)) 0); [lia|].
      rewrite Hdiv by lia. cbn [bind]. rewrite Hu.
      assert (E1 : inject_Z (len col) / inject_Z (len col) == 1).
      { apply Qmult_inv_r. unfold Qeq. simpl. lia. }
      assert (F1 : fltb (Fin (inject_Z (len col) / inject_Z (len col)))
                        (Fin (5 # 100)) = false).
      { apply fltb_Fin_false. rewrite E1. discriminate. }
      assert (F2 : fltb (Fin (inject_Z (len col) / inject_Z (len col)))
                        (Fin (5 # 10)) = false).
      { apply fltb_Fin_false. rewrite E1. discriminate. }
      now rewrite F1, F2.
Qed.

Lemma column_type_spec_witness :
  _infer_column_type measurements = Ok "id".
Proof.
  apply (proj1 (proj2 (proj2 (column_type_spec measurements))) eq_refl);
    reflexivity.
Defined.

(** ** The helpers for effect sizes *)

Lemma fabs_nonneg q : 0 <= q -> fabs (Fin q) = Fin q.
Proof.
  intros H. simpl. f_equal. destruct q as [n d]. unfold Qabs.
  unfold Qle in H. simpl in H. f_equal. apply Z.abs_eq. lia.
Qed.

(** X29.  The effect-size helpers agree with [StatisticalTests]: the
    Cohen's d that [t_test] reports is [calculate_effect_size] of its two
    samples, and [interpret_effect_size] gives the labels of [t_test] and
    [correlation_test].  For Cramer's V the two agree on values from 0
    upwards only, since the helper takes the absolute value.  Hedges' g is
    Cohen's d times [1 - 3 / (4n - 9)], a factor in [[0, 1)] from three
    observations on; the division never fails.  An unknown method gives
    0.0 and an unknown metric ['unknown'], for every input. *)
Theorem helpers_effect_size_spec (st : Stats) :
  (forall data gc vc g1 g2 r,
     t_test st data gc vc g1 g2 = Ok r ->
     exists s1 s2,
       select_sample data gc g1 vc = Ok s1 /\
       select_sample data gc g2 vc = Ok s2 /\
       calculate_effect_size st s1 s2 "cohens_d" = Ok (tt_effect_size r) /\
       interpret_effect_size (tt_effect_size r) "cohens_d"
       = tt_effect_interpretation r) /\
  (forall x,
     interpret_effect_size x "cohens_d" = _interpret_cohens_d x /\
     interpret_effect_size x "hedges_g" = _interpret_cohens_d x /\
     interpret_effect_size x "glass_delta" = _interpret_cohens_d x /\
     interpret_effect_size x "correlation" = _interpret_correlation x /\
     interpret_effect_size (fneg x) "cramers_v"
     = interpret_effect_size x "cramers_v") /\
  (forall q, 0 <= q ->
     interpret_effect_size (Fin q) "cramers_v" = _interpret_cramers_v (Fin q)) /\
  (forall g1 g2 d,
     calculate_effect_size st g1 g2 "cohens_d" = Ok d ->
     exists c,
       calculate_effect_size st g1 g2 "hedges_g" = Ok (fmul d (Fin c)) /\
       c == 1 - 3 / inject_Z (4 * (len g1 + len g2) - 9) /\
       ((3 <= len g1 + len g2)%Z -> 0 <= c /\ c < 1)) /\
  (forall g1 g2 method,
     ~ In method ["cohens_d"; "glass_delta"; "hedges_g"] ->
     calculate_effect_size st g1 g2 method = Ok (Fin 0)) /\
  (forall x metric,
     ~ In metric ["cohens_d"; "hedges_g"; "glass_delta"; "cramers_v";
                  "correlation"] ->
     interpret_effect_size x metric = "unknown").
Proof.
  split; [|split; [|split; [|split; [|split]]]].
  - intros data gc vc g1 g2 r H. unfold t_test in H. inv_bind H.
    inversion H; subst r; clear H. simpl.
    do 2 eexists. split; [reflexivity|]. split; [reflexivity|].
    unfold calculate_effect_size, cohens_d_branch. simpl.
    repeat match goal with E : _ = Ok _ |- _ => rewrite E; clear E end.
    split; reflexivity.
  - intros x. unfold interpret_effect_size. simpl.
    rewrite fabs_fneg. repeat split; reflexivity.
  - intros q Hq. unfold interpret_effect_size, _interpret_cramers_v. simpl mem.
    cbn [String.eqb Ascii.eqb Bool.eqb]. now rewrite (fabs_nonneg Hq).
  - intros g1 g2 d H. unfold calculate_effect_size in *. simpl in H.
    simpl String.eqb. cbv iota. rewrite H. cbn [bind].
    assert (Hn : (4 * (len g1 + len g2) - 9 <> 0)%Z) by lia.
    unfold py_int_div. destruct (Z.eqb_spec (4 * (len g1 + len g2) - 9) 0);
      [contradiction|].
    cbn [bind]. eexists. split; [reflexivity|].
    change (inject_Z 1) with 1. change (inject_Z 3) with 3. split.
    + unfold Qminus. reflexivity.
    + intros H3.
      assert (Hp : 0 < inject_Z (4 * (len g1 + len g2) - 9)).
      { unfold Qlt, inject_Z. cbn [Qnum Qden]. lia. }
      assert (H3' : 3 <= inject_Z (4 * (len g1 + len g2) - 9)).
      { unfold Qle, inject_Z. cbn [Qnum Qden]. lia. }
      set (m := inject_Z (4 * (len g1 + len g2) - 9)) in *.
      assert (Hq1 : 0 < 3 / m).
      { apply Qlt_shift_div_l; [exact Hp|]. lra. }
      assert (Hq2 : 3 / m <= 1).
      { apply Qle_shift_div_r; [exact Hp|]. lra. }
      split; lra.
  - intros g1 g2 method Hm. unfold calculate_effect_size.
    destruct (String.eqb_spec method "cohens_d") as [->|_];
      [exfalso; apply Hm; simpl; auto|].
    destruct (String.eqb_spec method "glass_delta") as [->|_];
      [exfalso; apply Hm; simpl; auto|].
    destruct (String.eqb_spec method "hedges_g") as [->|_];
      [exfalso; apply Hm; simpl; auto|].
    reflexivity.
  - intros x metric Hm. unfold interpret_effect_size, mem. simpl existsb.
    destruct (String.eqb_spec metric "cohens_d") as [->|_];
      [exfalso; apply Hm; simpl; auto|].
    destruct (String.eqb_spec metric "hedges_g") as [->|_];
      [exfalso; apply Hm; simpl; auto|].
    destruct (String.eqb_spec metric "glass_delta") as [->|_];
      [exfalso; apply Hm; simpl; auto|].
    simpl.
    destruct (String.eqb_spec metric "cramers_v") as [->|_];
      [exfalso; apply Hm; simpl; auto 10|].
    destruct (String.eqb_spec metric "correlation") as [->|_];
      [exfalso; apply Hm; simpl; auto 10|].
    reflexivity.
Qed.

Lemma helpers_effect_size_spec_witness :
  exists r s1 s2,
    t_test (sample_stats (Fin (9 # 10)) (Fin (3 # 10))) ab_table
      "group" "value" (Str "A") (Str "B") = Ok r /\
    select_sample ab_table "group" (Str "A") "value" = Ok s1 /\
    select_sample ab_table "group" (Str "B") "value" = Ok s2 /\
    calculate_effect_size (sample_stats (Fin (9 # 10)) (Fin (3 # 10)))
      s1 s2 "cohens_d" = Ok (tt_effect_size r).
Proof.
  destruct (proj1 (helpers_effect_size_spec
                     (sample_stats (Fin (9 # 10)) (Fin (3 # 10))))
              ab_table "group" "value" (Str "A") (Str "B") _ eq_refl)
    as (s1 & s2 & H1 & H2 & H3 & _).
  eexists. exists s1, s2. split; [reflexivity|]. auto.
Defined.

(** ** The recommended test for two columns *)

Lemma numeric_not_group t : is_numeric_type t = true -> is_group_type t = false.
Proof.
  unfold is_numeric_type, is_group_type, mem. simpl.
  destruct (String.eqb_spec t "continuous_numeric") as [->|_]; [reflexivity|].
  destruct (String.eqb_spec t "discrete_numeric") as [->|_]; [reflexivity|].
  discriminate.
Qed.

(** X30.  [recommend_test_for_columns] depends on the order of its two
    columns: for a numeric column followed by a grouping column it
    recommends the t-test (binary groups) or ANOVA, but for the same two
    columns with the grouping column first it finds no test.  Two
    numeric or two grouping columns get the same advice in both orders,
    and a column that is not in the profile gives the error
    dictionary. *)
Theorem recommendation_depends_on_order (columns : dict ColumnProfile)
    (col1 col2 : string) :
  (forall p1 p2,
     PyDict.get columns col1 = Some p1 ->
     PyDict.get columns col2 = Some p2 ->
     is_numeric_type (inferred_type p1) = true ->
     is_group_type (inferred_type p2) = true ->
     (exists reason,
        recommend_test_for_columns columns col1 col2
        = advice (Some (if String.eqb (inferred_type p2) "binary"
                        then "t_test" else "anova"))
                 (Some (if String.eqb (inferred_type p2) "binary"
                        then "mann_whitney" else "kruskal_wallis")) reason) /\
     exists reason,
       recommend_test_for_columns columns col2 col1 = advice None None reason) /\
  (forall p1 p2,
     PyDict.get columns col1 = Some p1 ->
     PyDict.get columns col2 = Some p2 ->
     is_numeric_type (inferred_type p1) = is_numeric_type (inferred_type p2) ->
     is_group_type (inferred_type p1) = is_group_type (inferred_type p2) ->
     recommend_test_for_columns columns col1 col2
     = recommend_test_for_columns columns col2 col1) /\
  (PyDict.get columns col1 = None \/ PyDict.get columns col2 = None ->
   recommend_test_for_columns columns col1 col2
   = advice_error "Column not found in profile").
Proof.
  split; [|split].
  - intros p1 p2 G1 G2 N1 C2. unfold recommend_test_for_columns.
    rewrite G1, G2. rewrite N1, C2. simpl.
    pose proof (numeric_not_group _ N1) as C1.
    assert (N2 : is_numeric_type (inferred_type p2) = false).
    { destruct (is_numeric_type (inferred_type p2)) eqn:E; [|reflexivity].
      apply numeric_not_group in E. congruence. }
    rewrite N2, C1. simpl. split.
    + destruct (String.eqb (inferred_type p2) "binary"); eexists; reflexivity.
    + eexists. reflexivity.
  - intros p1 p2 G1 G2 HN HC. unfold recommend_test_for_columns.
    rewrite G1, G2. rewrite HN, HC.
    destruct (is_numeric_type (inferred_type p2)) eqn:N2;
      destruct (is_group_type (inferred_type p2)) eqn:C2; simpl;
      try reflexivity.
    apply numeric_not_group in N2. congruence.
  - intros [H|H]; unfold recommend_test_for_columns; rewrite H;
      [reflexivity|].
    destruct (PyDict.get columns col1); reflexivity.
Qed.

Lemma recommendation_depends_on_order_witness :
  exists r1 r2,
    recommend_test_for_columns sample_profile "weight" "treated"
    = advice (Some "t_test") (Some "mann_whitney") r1 /\
    recommend_test_for_columns sample_profile "treated" "weight"
    = advice None None r2.
Proof.
  destruct (proj1 (recommendation_depends_on_order sample_profile
                     "weight" "treated")
              {| inferred_type := "discrete_numeric" |}
              {| inferred_type := "binary" |}
              eq_refl eq_refl eq_refl eq_refl)
    as [[r1 H1] [r2 H2]].
  exists r1, r2. split; [exact H1|exact H2].
Defined.

(** ** The order of Kahn's algorithm and the run of [execute] *)

(** When no counter is smaller than the number of times its block occurs
    among the neighbours, a counter reaches zero at the last occurrence:
    the blocks [relax] appends are in the order of their last
    occurrence. *)
Lemma relax_order ns : forall indeg q,
  (forall n, In n ns -> In n (PyDict.keys indeg)) ->
  (forall v d, In v ns -> PyDict.get indeg v = Some d ->
     (Z.of_nat (count_occ string_dec ns v) <= d)%Z) ->
  exists indeg' added,
    relax ns indeg q = Ok (indeg', q ++ added) /\
    (forall y, In y added -> In y ns) /\
    by_last_occurrence ns added.
Proof.
  induction ns as [|n ns IH]; intros indeg q Hin Hcnt.
  - exists indeg, []. simpl. rewrite app_nil_r. repeat split; auto.
    intros a1 x a2 H. destruct a1; discriminate.
  - assert (Hn : In n (PyDict.keys indeg)) by (apply Hin; now left).
    pose proof Hn as Hn'. apply get_in_keys in Hn'.
    destruct (PyDict.get indeg n) as [d|] eqn:G; [clear Hn'|congruence].
    pose proof (Hcnt n d (or_introl eq_refl) G) as Hd. simpl in Hd.
    destruct (string_dec n n) as [_|]; [|congruence].
    set (indeg1 := PyDict.set indeg n (d - 1)%Z).
    set (q1 := if (d - 1 =? 0)%Z then q ++ [n] else q).
    destruct (IH indeg1 q1) as (indeg' & added1 & R & Hmem & Hord).
    { intros m Hm. unfold indeg1. rewrite keys_set_present by assumption.
      apply Hin. now right. }
    { intros v dv Hv Hg. unfold indeg1 in Hg.
      destruct (string_dec n v) as [->|Hne].
      - rewrite get_set_eq in Hg. inversion Hg; subst dv. lia.
      - rewrite get_set_ne in Hg by assumption.
        pose proof (Hcnt v dv (or_intror Hv) Hg) as H. simpl in H.
        destruct (string_dec n v); [congruence|exact H]. }
    exists indeg', ((if (d - 1 =? 0)%Z then [n] else []) ++ added1).
    split; [|split].
    + simpl. unfold bind, PyDict.getitem. rewrite G. fold indeg1. fold q1.
      rewrite R. f_equal. f_equal. unfold q1.
      destruct (d - 1 =? 0)%Z; simpl; auto. now rewrite <- app_assoc.
    + intros y Hy. apply in_app_or in Hy. destruct Hy as [Hy|Hy].
      * destruct (d - 1 =? 0)%Z; [|destruct Hy].
        destruct Hy as [<-|[]]. now left.
      * right. now apply Hmem.
    + intros a1 x a2 Ha.
      destruct (Z.eqb_spec (d - 1) 0) as [E|E]; simpl in Ha.
      * assert (Hnn : ~ In n ns).
        { apply (count_occ_not_In string_dec). lia. }
        destruct a1 as [|y a1]; simpl in Ha; injection Ha as Hy Ha.
        -- subst x a2. exists [], ns. repeat split; auto.
        -- subst y.
           destruct (Hord a1 x a2 Ha) as (s1 & s2 & Hs & Hx & Ha2 & Ha1).
           exists (n :: s1), s2. rewrite Hs. repeat split; auto.
           intros z [<-|Hz]; [|now apply Ha1].
           intros Hz. apply Hnn. rewrite Hs. apply in_or_app. right. now right.
      * destruct (Hord a1 x a2 Ha) as (s1 & s2 & Hs & Hx & Ha2 & Ha1).
        exists (n :: s1), s2. rewrite Hs. repeat split; auto.
Qed.

Section KahnStates.
Variable conns : list Connection.
Variable ids : list string.
Variable graph : dict (list string).
Hypothesis Hvalid : forall conn, In conn conns ->
  In (from_block conn) ids /\ In (to_block conn) ids.
Hypothesis Hgraph : forall u, In u ids ->
  PyDict.get graph u = Some (succs_of conns u).

(** Every prefix of the result is the [result] list of a state the loop
    went through, and the queue of that state follows it in the result. *)
Lemma kahn_loop_states fuel : forall indeg q res r,
  kahn_inv conns ids indeg q res ->
  (List.length q + pos_count indeg <= fuel)%nat ->
  kahn_loop fuel graph indeg q res = Some (Ok r) ->
  forall k, (List.length res <= k <= List.length r)%nat ->
  exists fuel_k indeg_k q_k rest_k,
    kahn_inv conns ids indeg_k q_k (firstn k r) /\
    r = firstn k r ++ q_k ++ rest_k /\
    (List.length q_k + pos_count indeg_k <= fuel_k)%nat /\
    kahn_loop fuel_k graph indeg_k q_k (firstn k r) = Some (Ok r).
Proof.
  induction fuel as [|fuel IH]; intros indeg q res r Hinv Hle Hrun k Hk.
  - destruct q as [|b q]; [|simpl in Hle; lia].
    simpl in Hrun. inversion Hrun; subst r.
    assert (k = List.length res) by lia. subst k.
    rewrite firstn_all. exists 0%nat, indeg, [], [].
    split; [assumption | split; [now rewrite !app_nil_r | split; auto]].
  - destruct (@kahn_loop_spec conns ids graph Hvalid Hgraph (S fuel)
                indeg q res Hinv Hle) as (r' & _ & rest & Hl & _ & Hr).
    assert (Hrr : r' = r) by congruence. rewrite Hrr in Hr. clear Hl Hrr r'.
    destruct (Nat.eq_dec k (List.length res)) as [->|Hne].
    + exists (S fuel), indeg, q, rest.
      assert (Hf : firstn (List.length res) r = res).
      { rewrite Hr, firstn_app, Nat.sub_diag, firstn_all. simpl.
        now rewrite app_nil_r. }
      rewrite Hf. split; [assumption|]. split; [assumption|].
      split; assumption.
    + destruct q as [|b q].
      * simpl in Hrun. assert (E : r = res) by congruence.
        rewrite E in Hk. lia.
      * assert (Hb_ids : In b ids).
        { destruct Hinv as (_ & _ & _ & INC & _).
          apply INC, in_or_app. right. now left. }
        destruct (kahn_step Hvalid Hinv) as (indeg' & added & R & Hinv').
        simpl in Hrun. unfold PyDict.getitem in Hrun.
        rewrite (Hgraph b Hb_ids), R in Hrun.
        apply (IH indeg' (q ++ added) (res ++ [b]) r Hinv'); auto.
        -- apply relax_measure in R. simpl in Hle. lia.
        -- rewrite length_app. simpl. lia.
Qed.
(** What the loop does with the block at a given place of the result:
    the block heads the queue when the blocks before it are done, and the
    blocks it frees join the queue in the order of the last connection
    from it. *)
Lemma kahn_loop_release fuel indeg0 q0 r l1 b l2 :
  kahn_inv conns ids indeg0 q0 [] ->
  (List.length q0 + pos_count indeg0 <= fuel)%nat ->
  kahn_loop fuel graph indeg0 q0 [] = Some (Ok r) ->
  r = l1 ++ b :: l2 ->
  exists indeg_k q indeg' added rest,
    kahn_inv conns ids indeg_k (b :: q) l1 /\
    kahn_inv conns ids indeg' (q ++ added) (l1 ++ [b]) /\
    r = l1 ++ b :: q ++ added ++ rest /\
    by_last_occurrence (succs_of conns b) added.
Proof.
  intros Hinv0 Hle0 Hrun0 Hr.
  assert (Hf : firstn (List.length l1) r = l1).
  { rewrite Hr, firstn_app, Nat.sub_diag, firstn_all. simpl.
    now rewrite app_nil_r. }
  destruct (@kahn_loop_states fuel indeg0 q0 [] r Hinv0 Hle0 Hrun0
              (List.length l1))
    as (fuel_k & indeg_k & q_k & rest_k & Hinv & Hd & Hle & Hrun).
  { rewrite Hr, length_app. simpl. lia. }
  rewrite Hf in Hinv, Hd, Hrun.
  destruct q_k as [|b' q].
  { destruct fuel_k; simpl in Hrun;
      assert (E : r = l1) by congruence;
      apply (f_equal (@List.length string)) in Hr;
      rewrite E, length_app in Hr; simpl in Hr; lia. }
  assert (b' = b).
  { rewrite Hr in Hd. apply app_inv_head in Hd. simpl in Hd. congruence. }
  subst b'.
  assert (Hb_ids : In b ids).
  { destruct Hinv as (_ & _ & _ & INC & _).
    apply INC, in_or_app. right. now left. }
  assert (Hb_res : ~ In b l1).
  { destruct Hinv as (_ & _ & ND & _).
    apply NoDup_remove_2 in ND. intros H. apply ND, in_or_app. now left. }
  destruct (kahn_step Hvalid Hinv) as (indeg' & added & R & Hinv').
  destruct (@relax_order (succs_of conns b) indeg_k q)
    as (indeg2 & added2 & R2 & _ & Hord).
  { destruct Hinv as (K & _). intros n Hn. rewrite K.
    eapply succs_in_ids; eauto. }
  { destruct Hinv as (K & G & _). intros v d Hv Hg.
    assert (Hv_ids : In v ids) by (eapply succs_in_ids; eauto).
    rewrite (G v Hv_ids) in Hg. inversion Hg; subst d.
    pose proof (@pending_in_snoc conns l1 b v Hb_res). lia. }
  rewrite R in R2. inversion R2 as [[Hi Hq]].
  apply app_inv_head in Hq. subst added2. clear R2 Hi.
  destruct fuel_k as [|fuel_k]; [simpl in Hle; lia|].
  simpl in Hrun. unfold PyDict.getitem in Hrun.
  rewrite (Hgraph b Hb_ids), R in Hrun.
  destruct (@kahn_loop_spec conns ids graph Hvalid Hgraph fuel_k
              indeg' (q ++ added) (l1 ++ [b]) Hinv')
    as (r' & _ & rest & Hl & _ & Hr').
  { apply relax_measure in R. simpl in Hle. lia. }
  assert (Hrr : r' = r) by congruence. rewrite Hrr in Hr'. clear Hl Hrr r'.
  exists indeg_k, q, indeg', added, rest.
  split; [exact Hinv|]. split; [exact Hinv'|]. split; [|exact Hord].
  rewrite Hr'. rewrite <- !app_assoc. reflexivity.
Qed.
End KahnStates.

Lemma topological_sort_states (w : Workflow) :
  wf_workflow w ->
  exists r,
    _topological_sort w =
      Ok (if negb (List.length r =? PyDict.len (blocks w))%nat then [] else r) /\
    (forall k, (k <= List.length r)%nat ->
       exists indeg_k q_k rest_k,
         kahn_inv (connections w) (PyDict.keys (blocks w)) indeg_k q_k
           (firstn k r) /\
         r = firstn k r ++ q_k ++ rest_k) /\
    (forall l1 b l2, r = l1 ++ b :: l2 ->
       exists indeg_k q indeg' added rest,
         kahn_inv (connections w) (PyDict.keys (blocks w)) indeg_k (b :: q) l1 /\
         kahn_inv (connections w) (PyDict.keys (blocks w)) indeg' (q ++ added)
           (l1 ++ [b]) /\
         r = l1 ++ b :: q ++ added ++ rest /\
         by_last_occurrence (succs_of (connections w) b) added).
Proof.
  intros Hwf. pose proof Hwf as [Hnd Hval].
  unfold _topological_sort, topological_sort_fuel.
  destruct (build_graph_total (connections w)
              (map (fun kv : string * Block => (fst kv, @nil string)) (blocks w))
              (map (fun kv : string * Block => (fst kv, 0%Z)) (blocks w)))
    as (g & d & B).
  { intros c Hc. rewrite !keys_map_const. now apply Hval. }
  rewrite B. destruct (initial_kahn_inv Hwf B) as (Hg & Hq & Hinv).
  rewrite Hq.
  assert (Hfuel : (List.length (initial_queue w) + pos_count d
                   <= PyDict.len (blocks w))%nat).
  { rewrite <- Hq, length_map. unfold pos_count, PyDict.items, PyDict.len.
    apply build_graph_inv in B. destruct B as (_ & Kd & _).
    rewrite keys_map_const in Kd. rewrite <- (keys_length _ _ Kd).
    apply filter_two_length. intros [k x]. simpl. lia. }
  destruct (@kahn_loop_spec (connections w) (PyDict.keys (blocks w)) g Hval Hg
              (PyDict.len (blocks w)) d (initial_queue w) [] Hinv Hfuel)
    as (r & indeg_f & rest & Hl & Hf & Hr).
  exists r. rewrite Hl. split; [destruct (negb _); reflexivity|]. split.
  - intros k Hk.
    destruct (@kahn_loop_states (connections w) (PyDict.keys (blocks w)) g
                Hval Hg (PyDict.len (blocks w)) d (initial_queue w) [] r
                Hinv Hfuel Hl k)
      as (fuel_k & indeg_k & q_k & rest_k & H1 & H2 & _).
    { simpl. lia. }
    now exists indeg_k, q_k, rest_k.
  - intros l1 b l2 Hd.
    apply (@kahn_loop_release (connections w) (PyDict.keys (blocks w)) g
             Hval Hg (PyDict.len (blocks w)) d (initial_queue w) r l1 b l2
             Hinv Hfuel Hl Hd).
Qed.

(** In a list without repetition, what precedes an element of a prefix
    lies in that prefix. *)
Lemma before_in_prefix (p : list string) : forall s l1 u l2 v l3,
  NoDup (p ++ s) ->
  p ++ s = l1 ++ u :: l2 ++ v :: l3 ->
  In v p -> In u p.
Proof.
  induction p as [|x p IH]; intros s l1 u l2 v l3 ND E Hv; [destruct Hv|].
  destruct l1 as [|y l1]; simpl in E; inversion E; subst.
  - now left.
  - right. inversion ND; subst.
    destruct Hv as [->|Hv].
    + exfalso. apply H2. rewrite H1. apply in_or_app. right. right.
      apply in_or_app. right. now left.
    + apply (IH s l1 u l2 v l3); auto.
Qed.

(** First in, first out: once a block has no pending incoming connection,
    neither has any block the order places before it. *)
Lemma topological_sort_fifo (w : Workflow) order l1 u l2 v l3 k :
  wf_workflow w ->
  _topological_sort w = Ok order ->
  order = l1 ++ u :: l2 ++ v :: l3 ->
  pending_in (connections w) (firstn k order) v = 0%nat ->
  pending_in (connections w) (firstn k order) u = 0%nat.
Proof.
  intros Hwf Hts Ho Hv.
  destruct (topological_sort_states Hwf) as (r & Hts' & Hst & _).
  rewrite Hts in Hts'. inversion Hts' as [Hr]. clear Hts'.
  destruct (negb _); [destruct l1; subst order; discriminate|].
  subst r.
  assert (Hk : exists k', (k' <= List.length order)%nat /\
                          firstn k order = firstn k' order).
  { destruct (Nat.le_gt_cases k (List.length order)) as [H|H].
    - now exists k.
    - exists (List.length order). split; [lia|].
      rewrite firstn_all. apply firstn_all2. lia. }
  destruct Hk as (k' & Hk' & Hf). rewrite Hf in *.
  destruct (Hst k' Hk') as (indeg_k & q_k & rest_k & Hinv & Hd).
  destruct (Hst (List.length order) (Nat.le_refl _))
    as (indeg_f & q_f & rest_f & Hinvf & Hdf).
  rewrite firstn_all in Hinvf, Hdf.
  assert (ND : NoDup order).
  { destruct Hinvf as (_ & _ & ND & _). apply NoDup_app_remove_r in ND. exact ND. }
  assert (Hids : forall x, In x order -> In x (PyDict.keys (blocks w))).
  { intros x Hx. destruct Hinvf as (_ & _ & _ & INC & _).
    apply INC, in_or_app. now left. }
  destruct Hinv as (_ & _ & _ & _ & Zr & _).
  assert (Hu : In u order).
  { rewrite Ho. apply in_or_app. right. now left. }
  assert (Hv' : In v order).
  { rewrite Ho. apply in_or_app. right. right. apply in_or_app. right. now left. }
  apply (Zr u (Hids u Hu)).
  apply (Zr v (Hids v Hv')) in Hv.
  rewrite app_assoc in Hd.
  apply (@before_in_prefix (firstn k' order ++ q_k) rest_k l1 u l2 v l3); auto.
  - now rewrite <- Hd.
  - now rewrite <- Hd.
Qed.

Lemma last_split_unique (u : string) (s1 : list string) : forall s2 s1' s2',
  s1 ++ u :: s2 = s1' ++ u :: s2' ->
  ~ In u s2 -> ~ In u s2' -> s2 = s2'.
Proof.
  induction s1 as [|x s1 IH]; intros s2 s1' s2' E H H'.
  - destruct s1' as [|y s1']; simpl in E.
    + now injection E.
    + injection E as E1 E2.
      exfalso. apply H. rewrite E2. apply in_or_app. right. now left.
  - destruct s1' as [|y s1']; simpl in E; injection E as E1 E2.
    + exfalso. apply H'. rewrite <- E2. apply in_or_app. right. now left.
    + now apply (IH s2 s1' s2').
Qed.

(** Blocks freed by the same block are placed in the order of the last
    connection from that block to each of them. *)
Lemma topological_sort_ties (w : Workflow) order l1 b l2 s1 u s2 v :
  wf_workflow w ->
  _topological_sort w = Ok order ->
  order = l1 ++ b :: l2 ->
  succs_of (connections w) b = s1 ++ u :: s2 ->
  ~ In u s2 -> In v s2 ->
  pending_in (connections w) (l1 ++ [b]) u = 0%nat ->
  pending_in (connections w) (l1 ++ [b]) v = 0%nat ->
  exists m1 m2 m3, order = m1 ++ u :: m2 ++ v :: m3.
Proof.
  intros Hwf Hts Ho Hs Hu2 Hv2 Hu Hv.
  destruct (topological_sort_states Hwf) as (r & Hts' & _ & Hrel).
  rewrite Hts in Hts'. inversion Hts' as [Hr]. clear Hts'.
  destruct (negb _); [destruct l1; subst order; discriminate|].
  subst r.
  destruct (Hrel l1 b l2 Ho)
    as (indeg_k & q & indeg' & added & rest & Hinv & Hinv' & Hd & Hord).
  pose proof Hwf as [_ Hval].
  assert (Hb_res : ~ In b l1).
  { destruct Hinv as (_ & _ & ND & _).
    apply NoDup_remove_2 in ND. intros H. apply ND, in_or_app. now left. }
  assert (Hadded : forall x, In x (succs_of (connections w) b) ->
            pending_in (connections w) (l1 ++ [b]) x = 0%nat -> In x added).
  { intros x Hx Hp.
    assert (Hx_ids : In x (PyDict.keys (blocks w)))
      by (eapply succs_in_ids; eauto).
    destruct Hinv as (_ & _ & _ & _ & Zr & _).
    destruct Hinv' as (_ & _ & _ & _ & Zr' & _).
    apply (Zr' x Hx_ids) in Hp.
    assert (Hn : ~ In x (l1 ++ b :: q)).
    { intros Hin. apply (Zr x Hx_ids) in Hin.
      pose proof (@pending_in_snoc (connections w) l1 b x Hb_res) as Hsn.
      apply (count_occ_In string_dec) in Hx. lia. }
    rewrite !in_app_iff in Hp. rewrite in_app_iff in Hn.
    simpl in Hp, Hn. tauto. }
  assert (Hua : In u added).
  { apply Hadded; auto. rewrite Hs. apply in_or_app. right. now left. }
  assert (Hva : In v added).
  { apply Hadded; auto. rewrite Hs. apply in_or_app. right. now right. }
  apply in_split in Hua. destruct Hua as (a1 & a2 & Ha).
  destruct (Hord a1 u a2 Ha) as (s1' & s2' & Hs' & Hu2' & Ha2 & Ha1).
  rewrite Hs in Hs'.
  pose proof (@last_split_unique u s1 s2 s1' s2' Hs' Hu2 Hu2') as E.
  subst s2'.
  rewrite Ha in Hva. apply in_app_or in Hva.
  destruct Hva as [Hva|[Hva|Hva]].
  - exfalso. now apply (Ha1 v).
  - exfalso. subst v. now apply Hu2.
  - apply in_split in Hva. destruct Hva as (a3 & a4 & Ha').
    exists (l1 ++ b :: q ++ a1), a3, (a4 ++ rest).
    rewrite Hd, Ha, Ha'. rewrite <- !app_assoc. simpl.
    rewrite <- !app_assoc. reflexivity.
Qed.

Section RunFacts.
Variable block_execute : Block -> result (dict PyValue).

(** A run of the loop that fails has run a prefix successfully and failed
    on the next block. *)
Lemma run_blocks_raise order : forall eng eng' e,
  run_blocks block_execute eng order = (eng', Raise e) ->
  exists pre B post eng1,
    order = pre ++ B :: post /\
    run_blocks block_execute eng pre = (eng1, Ok tt) /\
    _execute_block block_execute eng1 B = (eng', Raise e).
Proof.
  induction order as [|b order IH]; intros eng eng' e H; simpl in H.
  - discriminate.
  - destruct (_execute_block block_execute eng b) as [eng1 [[]|e1]] eqn:Ex.
    + destruct (IH eng1 eng' e H) as (pre & B & post & eng2 & Ho & Hp & Hb).
      exists (b :: pre), B, post, eng2. simpl. rewrite Ex, Ho.
      repeat split; auto.
    + inversion H; subst. exists [], b, order, eng. simpl. auto.
Qed.
End RunFacts.

Lemma topologically_ordered_prefix conns pre post :
  topologically_ordered conns (pre ++ post) -> topologically_ordered conns pre.
Proof.
  intros T l1 v l2 c E Hc Ht.
  apply (T l1 v (l2 ++ post) c); auto.
  rewrite E, <- app_assoc. reflexivity.
Qed.

(** The state [execute] leaves: the stored results are what [execute()]
    of the stored blocks returned, and either every block ran, in the
    order, or the run stopped at the first block that raised. *)
Lemma execute_run block_execute eng order :
  wf_workflow (workflow eng) ->
  _topological_sort (workflow eng) = Ok order ->
  NoDup order ->
  Permutation order (PyDict.keys (blocks (workflow eng))) ->
  topologically_ordered (connections (workflow eng)) order ->
  order <> [] ->
  exists eng' rep,
    execute block_execute eng = (eng', Ok rep) /\
    (forall b r, PyDict.get (results eng') b = Some r ->
       exists blk, PyDict.get (blocks (workflow eng')) b = Some blk /\
                   block_execute blk = Ok r) /\
    ((status rep = "success" /\ invoked eng' = order /\
      PyDict.keys (results eng') = order /\
      report_results rep = Some (results eng')) \/
     (status rep = "error" /\
      exists pre B post blk e,
        order = pre ++ B :: post /\
        invoked eng' = pre ++ [B] /\
        PyDict.keys (results eng') = pre /\
        PyDict.get (blocks (workflow eng')) B = Some blk /\
        block_execute blk = Raise e /\
        message rep = Some (exn_str e))).
Proof.
  intros Hwf Hts ND Hperm T Hne.
  unfold execute. cbv zeta.
  change (workflow (reset_engine eng)) with (workflow eng). rewrite Hts.
  destruct order as [|b0 order0]; [congruence|]. clear Hne.
  set (order := b0 :: order0) in *.
  destruct (run_blocks block_execute (reset_engine eng) order)
    as [eng' [[]|e]] eqn:Hrun.
  - pose proof (@run_blocks_dataflow block_execute (workflow eng) order
                  (reset_engine eng) [] eng' (dataflow_inv_init _ eng) ND T Hrun)
      as (Ic & Ik & Iu & Id).
    simpl in Ik, Id.
    apply run_blocks_ok in Hrun.
    destruct Hrun as (Hi & _). simpl in Hi.
    eexists. eexists. split; [reflexivity|]. split.
    + intros b r Hb.
      assert (Hin : In b order).
      { rewrite <- Ik. apply get_in_keys. congruence. }
      destruct (Id b Hin) as (blk0 & r' & _ & Gb & Gr & Ge).
      rewrite Hb in Gr. inversion Gr; subst r'.
      eexists. split; [exact Gb|exact Ge].
    + left. simpl. auto.
  - destruct (@run_blocks_raise block_execute order (reset_engine eng) eng' e
                Hrun) as (pre & B & post & eng1 & Ho & Hpre & HB).
    assert (NDp : NoDup pre).
    { rewrite Ho in ND. now apply NoDup_app_remove_r in ND. }
    assert (HBpre : ~ In B pre).
    { rewrite Ho in ND. apply NoDup_remove_2 in ND.
      intros H. apply ND, in_or_app. now left. }
    assert (Tp : topologically_ordered (connections (workflow eng)) pre).
    { rewrite Ho in T. now apply topologically_ordered_prefix in T. }
    pose proof (@run_blocks_dataflow block_execute (workflow eng) pre
                  (reset_engine eng) [] eng1 (dataflow_inv_init _ eng) NDp Tp
                  Hpre) as (Ic & Ik & Iu & Id).
    simpl in Ik, Id.
    apply run_blocks_ok in Hpre.
    destruct Hpre as (Hi & _ & Hk & _). simpl in Hi, Hk.
    assert (HBin : In B (PyDict.keys (blocks (workflow eng1)))).
    { rewrite Hk. apply Permutation_in with (l := order); auto.
      rewrite Ho. apply in_or_app. right. now left. }
    apply get_in_keys in HBin.
    destruct (PyDict.get (blocks (workflow eng1)) B) as [blk1|] eqn:G;
      [|congruence].
    pose proof (execute_block_step block_execute eng1 B G) as S.
    cbv zeta in S. rewrite HB in S. simpl in S.
    destruct S as (Si & _ & _ & Sb & entry & _ & _ & _ & Sr).
    destruct (block_execute
                (bind_inputs (results eng1) (connections (workflow eng1)) B blk1))
      as [r|e'] eqn:Ex; [destruct Sr; discriminate|].
    destruct Sr as (Se & Sres & _). inversion Se; subst e'. clear Se.
    eexists. eexists. split; [reflexivity|]. split.
    + intros b r Hb. rewrite Sres in Hb.
      assert (Hin : In b pre).
      { rewrite <- Ik. apply get_in_keys. congruence. }
      destruct (Id b Hin) as (blk0 & r' & _ & Gb & Gr & Ge).
      rewrite Hb in Gr. inversion Gr; subst r'.
      eexists. split; [|exact Ge].
      rewrite Sb, get_set_ne; [exact Gb|].
      intros E. apply HBpre. now rewrite E.
    + right. split; [reflexivity|].
      exists pre, B, post. eexists. exists e.
      split; [exact Ho|]. split; [now rewrite Si, Hi|].
      split; [now rewrite Sres|]. split; [|split; [exact Ex|reflexivity]].
      rewrite Sb. apply get_set_eq.
Qed.

(** C1.  On a workflow whose connections reference its blocks: if the
    connection graph is acyclic, [_topological_sort] returns an order that
    contains every block exactly once and places each block after every
    block it receives a connection from.  The order is first in, first
    out: it starts with the blocks without incoming connection in
    insertion order, a block whose incoming connections all come from the
    blocks already placed is never placed after a block for which this is
    not yet so, and the blocks freed by the same block follow the order of
    the last connection from that block to each of them.  [execute] runs
    the blocks along that order: on a workflow with at least one block it
    returns a report, every stored result is what [execute()] of the
    stored block returned, and either the status is success and the
    invoked blocks are the whole order, or the status is error and the
    invoked blocks are the order up to and including the first block
    whose [execute()] raised; without blocks it returns the error report
    and invokes nothing.  If the graph has a cycle, [execute] returns an
    error report and invokes no block. *)
Theorem topological_validity
    (block_execute : Block -> result (dict PyValue)) (eng : WorkflowEngine) :
  wf_workflow (workflow eng) ->
  (is_dag (workflow eng) ->
   exists order,
     _topological_sort (workflow eng) = Ok order /\
     NoDup order /\
     Permutation order (PyDict.keys (blocks (workflow eng))) /\
     topologically_ordered (connections (workflow eng)) order /\
     (exists rest, order = initial_queue (workflow eng) ++ rest) /\
     (forall l1 u l2 v l3 k,
        order = l1 ++ u :: l2 ++ v :: l3 ->
        pending_in (connections (workflow eng)) (firstn k order) v = 0%nat ->
        pending_in (connections (workflow eng)) (firstn k order) u = 0%nat) /\
     (forall l1 b l2 s1 u s2 v,
        order = l1 ++ b :: l2 ->
        succs_of (connections (workflow eng)) b = s1 ++ u :: s2 ->
        ~ In u s2 -> In v s2 ->
        pending_in (connections (workflow eng)) (l1 ++ [b]) u = 0%nat ->
        pending_in (connections (workflow eng)) (l1 ++ [b]) v = 0%nat ->
        exists m1 m2 m3, order = m1 ++ u :: m2 ++ v :: m3) /\
     (blocks (workflow eng) = [] ->
      execute block_execute eng
      = (reset_engine eng,
         Ok {| status := "error";
               message := Some "Workflow has cycles or is invalid";
               report_results := None; report_log := None |})) /\
     (blocks (workflow eng) <> [] ->
      exists eng' rep,
        execute block_execute eng = (eng', Ok rep) /\
        (forall b r, PyDict.get (results eng') b = Some r ->
           exists blk, PyDict.get (blocks (workflow eng')) b = Some blk /\
                       block_execute blk = Ok r) /\
        ((status rep = "success" /\ invoked eng' = order /\
          PyDict.keys (results eng') = order /\
          report_results rep = Some (results eng')) \/
         (status rep = "error" /\
          exists pre B post blk e,
            order = pre ++ B :: post /\
            invoked eng' = pre ++ [B] /\
            PyDict.keys (results eng') = pre /\
            PyDict.get (blocks (workflow eng')) B = Some blk /\
            block_execute blk = Raise e /\
            message rep = Some (exn_str e))))) /\
  (has_cycle (workflow eng) ->
   exists eng' rep,
     execute block_execute eng = (eng', Ok rep) /\
     status rep = "error" /\
     invoked eng' = [] /\ execution_log eng' = [] /\ results eng' = []).
Proof.
  intros Hwf. split.
  - intros Hdag.
    destruct (topological_sort_dag Hwf Hdag) as (order & Hts & ND & Hp & T & Hq).
    exists order.
    split; [exact Hts|]. split; [exact ND|]. split; [exact Hp|].
    split; [exact T|]. split; [exact Hq|]. split; [|split; [|split]].
    + intros l1 u l2 v l3 k Ho Hv.
      exact (@topological_sort_fifo (workflow eng) order l1 u l2 v l3 k
               Hwf Hts Ho Hv).
    + intros l1 b l2 s1 u s2 v Ho Hs Hu2 Hv2 Hu Hv.
      exact (@topological_sort_ties (workflow eng) order l1 b l2 s1 u s2 v
               Hwf Hts Ho Hs Hu2 Hv2 Hu Hv).
    + intros He. unfold execute. cbv zeta.
      change (workflow (reset_engine eng)) with (workflow eng). rewrite Hts.
      rewrite He in Hp. apply Permutation_sym, Permutation_nil in Hp.
      now rewrite Hp.
    + intros Hne.
      apply (@execute_run block_execute eng order Hwf Hts ND Hp T).
      intros E. rewrite E in Hp. apply Permutation_nil in Hp.
      apply Hne. unfold PyDict.keys in Hp. now apply map_eq_nil in Hp.
  - intros Hcyc. unfold execute. simpl.
    rewrite (topological_sort_cycle Hwf Hcyc).
    eexists. eexists. repeat split.
Qed.

Lemma topological_validity_witness :
  (exists order,
     _topological_sort sample_chain = Ok order /\
     NoDup order /\
     Permutation order ["filter"; "test"; "load"] /\
     topologically_ordered (connections sample_chain) order /\
     exists eng' rep,
       execute sample_execute (WorkflowEngine_init sample_chain)
       = (eng', Ok rep) /\
       ((status rep = "success" /\ invoked eng' = order) \/
        (status rep = "error" /\
         exists pre B post, order = pre ++ B :: post /\
                            invoked eng' = pre ++ [B]))) /\
  (exists eng' rep,
     execute sample_execute (WorkflowEngine_init sample_cycle) = (eng', Ok rep) /\
     status rep = "error" /\ invoked eng' = []).
Proof.
  assert (Hwf1 : wf_workflow sample_chain).
  { split.
    - repeat constructor; simpl; intuition discriminate.
    - intros c [<-|[<-|[<-|[]]]]; simpl; tauto. }
  assert (Hwf2 : wf_workflow sample_cycle).
  { split.
    - repeat constructor; simpl; intuition discriminate.
    - intros c [<-|[<-|[]]]; simpl; tauto. }
  split.
  - destruct (topological_validity sample_execute
                (WorkflowEngine_init sample_chain) Hwf1) as [Hdag _].
    destruct Hdag as (order & H1 & H2 & H3 & H4 & _ & _ & _ & _ & H5).
    + apply (@topological_sort_complete_dag sample_chain
               ["load"; "test"; "filter"] Hwf1); reflexivity.
    + exists order. split; [exact H1|]. split; [exact H2|].
      split; [exact H3|]. split; [exact H4|].
      destruct H5 as (eng' & rep & Hex & _ & Hcase); [discriminate|].
      exists eng', rep. split; [exact Hex|].
      destruct Hcase as [(Hs & Hi & _)|(Hs & pre & B & post & blk & e & Ho & Hi & _)].
      * left. auto.
      * right. split; [exact Hs|]. now exists pre, B, post.
  - destruct (topological_validity sample_execute
                (WorkflowEngine_init sample_cycle) Hwf2) as [_ Hcyc].
    destruct Hcyc as (eng' & rep & H1 & H2 & H3 & _).
    + exists "a". apply t_trans with (y := "b"); apply t_step.
      * exists (mk_conn "a" "data" "b" "data"). simpl. auto.
      * exists (mk_conn "b" "data" "a" "data"). simpl. auto.
    + exists eng', rep. auto.
Defined.

(** C1 as stated fails for the ties: on [sample_fan] the blocks [B] and
    [C] both wait for [A] only, so either may follow it, and [B] was added
    first; the order places [C] before [B], as the connection to [C] was
    made first. *)
Lemma ties_follow_connections :
  PyDict.keys (blocks sample_fan) = ["A"; "B"; "C"] /\
  topologically_ordered (connections sample_fan) ["A"; "B"; "C"] /\
  pending_in (connections sample_fan) ["A"] "B" = 0%nat /\
  pending_in (connections sample_fan) ["A"] "C" = 0%nat /\
  _topological_sort sample_fan = Ok ["A"; "C"; "B"].
Proof.
  split; [reflexivity|]. split; [|repeat split; reflexivity].
  intros l1 v l2 c Ho Hc Ht.
  destruct l1 as [|x l1]; simpl in Ho; injection Ho as Hx Ho.
  - subst v. destruct Hc as [<-|[<-|[]]]; discriminate.
  - subst x. destruct Hc as [<-|[<-|[]]]; now left.
Qed.
